(** * ConfigUpdater: the Section and Document mapping facades

    A shallow embedding of [configupdater/section.py] and
    [configupdater/document.py].  Python objects live in a store and are
    named by references, so that a Section or an Option handed to a method
    is the very object the caller keeps; methods are computations in a
    state-and-exception monad that read like the Python they embed. *)

From Stdlib Require Import String Ascii ZArith Lia.
From stdpp Require Import base option list gmap strings.

(** ** Strings *)

(** The line feed of ["[{}]\n"]. *)
Definition LF : string := String (ascii_of_nat 10) EmptyString.

(** [str.lower()] on one character of ASCII text. *)
Definition lower_ascii (c : ascii) : ascii :=
  let n := nat_of_ascii c in
  if (65 <=? n)%nat && (n <=? 90)%nat then ascii_of_nat (n + 32) else c.

(** [str.lower()]; keys and names are taken to be ASCII text. *)
Fixpoint str_lower (s : string) : string :=
  match s with
  | EmptyString => EmptyString
  | String c s' => String (lower_ascii c) (str_lower s')
  end.

(** ["".join(parts)] *)
Definition join (parts : list string) : string :=
  fold_right String.append EmptyString parts.

(** ** Values, objects and the store *)

(** A reference to an object of the store (Python's object identity). *)
Definition loc := nat.

(** The Python values that reach the mapping API: [None], the private
    sentinel [_UNSET], the empty dict of [has_option], strings, integers,
    and references to Option and Section objects. *)
Inductive pyval : Type :=
| PNone
| PUnset
| PEmptyDict
| PStr (s : string)
| PInt (n : Z)
| POption (l : loc)
| PSection (l : loc).

(** [SectionContent = Union["Option", "Comment", "Space"]]; a Comment or a
    Space is its run of lines. *)
Inductive SectionContent : Type :=
| SC_Option (l : loc)
| SC_Comment (lines : list string)
| SC_Space (lines : list string).

(** [ConfigContent = Union["Section", "Comment", "Space"]] *)
Inductive ConfigContent : Type :=
| CC_Section (l : loc)
| CC_Comment (lines : list string)
| CC_Space (lines : list string).

(** Modelled from the spec: the Option class ([option.py] is not part of
    the sources).  A Block has an owning container, absent when detached,
    the text captured for it and an altered mark; an Option adds its key
    with the original casing and its value, [None] for a valueless key. *)
Record OptionObj : Type := mkOption {
  opt_container : option loc;
  opt_lines : list string;
  opt_updated : bool;
  opt_key : string;
  opt_value : pyval
}.

(** The attributes [Section.__init__] sets ([_container], [_name],
    [_structure], [_updated]) and the captured lines of its Block part. *)
Record SectionObj : Type := mkSection {
  sec_container : loc;
  sec_name : string;
  sec_structure : list SectionContent;
  sec_updated : bool;
  sec_lines : list string
}.

(** A Document is the container of its blocks ([_structure]). *)
Record DocumentObj : Type := mkDocument {
  doc_structure : list ConfigContent
}.

Record store : Type := mkStore {
  options : gmap loc OptionObj;
  sections : gmap loc SectionObj;
  documents : gmap loc DocumentObj
}.

(** [[b for b in blocks if isinstance(b, Option)]], as references. *)
Definition option_refs (blocks : list SectionContent) : list loc :=
  omap (fun block => match block with SC_Option l => Some l | _ => None end) blocks.

(** [[b for b in blocks if isinstance(b, Section)]], as references. *)
Definition section_refs (blocks : list ConfigContent) : list loc :=
  omap (fun block => match block with CC_Section l => Some l | _ => None end) blocks.

(** The reference of a new Option: one that no Option has and no section
    holds. *)
Definition fresh_option (σ : store) : loc :=
  S (max_list (elements (dom (options σ))
               ++ concat (map (fun p => option_refs (sec_structure (snd p)))
                              (map_to_list (sections σ))))).

(** The reference of a new Section: one that no Section has and no
    document holds. *)
Definition fresh_section (σ : store) : loc :=
  S (max_list (elements (dom (sections σ))
               ++ concat (map (fun p => section_refs (doc_structure (snd p)))
                              (map_to_list (documents σ))))).

#[global] Instance pyval_eq_dec : EqDecision pyval.
Proof. solve_decision. Defined.

#[global] Instance SectionContent_eq_dec : EqDecision SectionContent.
Proof. solve_decision. Defined.

#[global] Instance ConfigContent_eq_dec : EqDecision ConfigContent.
Proof. solve_decision. Defined.

(** ** Exceptions and the monad *)

(** The exceptions of the two modules.  [Dangling] is not a Python
    exception: it is the outcome of following a reference that the store
    does not hold, which no Python program can do. *)
Inductive exn : Type :=
| KeyError (key : string)
| ValueError (msg : string)
| IndexError
| StopIteration
| AttributeError
| TypeError
| NotAttachedError
| NoSectionError (section : string)
| NoOptionError (option section : string)
| DuplicateSectionError (section : string)
| ParsingError (lineno : nat) (line : string)
| Dangling.

Inductive result (A : Type) : Type :=
| Return (a : A)
| Raise (e : exn).
Arguments Return {A} a.
Arguments Raise {A} e.

(** A computation runs on a store and ends with a value or an exception;
    the store it leaves is kept in both cases, as Python keeps the
    mutations made before a [raise]. *)
Definition M (A : Type) : Type := store -> result A * store.

Definition ret {A : Type} (a : A) : M A := fun σ => (Return a, σ).

Definition raise {A : Type} (e : exn) : M A := fun σ => (Raise e, σ).

Definition bind {A B : Type} (m : M A) (k : A -> M B) : M B :=
  fun σ =>
    match m σ with
    | (Return a, σ') => k a σ'
    | (Raise e, σ') => (Raise e, σ')
    end.

(** [try: m except ...: h]; the handler picks the exceptions it catches. *)
Definition try_except {A : Type} (m : M A) (h : exn -> option (M A)) : M A :=
  fun σ =>
    match m σ with
    | (Return a, σ') => (Return a, σ')
    | (Raise e, σ') =>
        match h e with
        | Some k => k σ'
        | None => (Raise e, σ')
        end
    end.

Definition get_store : M store := fun σ => (Return σ, σ).

Declare Scope py_scope.
Delimit Scope py_scope with py.
Notation "x <- c1 ;; c2" := (bind c1 (fun x => c2))
  (at level 100, c1 at next level, right associativity) : py_scope.
Notation "c1 ;; c2" := (bind c1 (fun _ => c2))
  (at level 100, right associativity) : py_scope.
Local Open Scope py_scope.

(** Reading and writing the objects of the store. *)
Definition read_option (l : loc) : M OptionObj :=
  fun σ => match options σ !! l with
           | Some o => (Return o, σ)
           | None => (Raise Dangling, σ)
           end.

Definition read_section (l : loc) : M SectionObj :=
  fun σ => match sections σ !! l with
           | Some s => (Return s, σ)
           | None => (Raise Dangling, σ)
           end.

Definition read_document (l : loc) : M DocumentObj :=
  fun σ => match documents σ !! l with
           | Some d => (Return d, σ)
           | None => (Raise Dangling, σ)
           end.

Definition write_option (l : loc) (o : OptionObj) : M unit :=
  fun σ => (Return tt,
            mkStore (<[l := o]> (options σ)) (sections σ) (documents σ)).

Definition write_section (l : loc) (s : SectionObj) : M unit :=
  fun σ => (Return tt,
            mkStore (options σ) (<[l := s]> (sections σ)) (documents σ)).

Definition write_document (l : loc) (d : DocumentObj) : M unit :=
  fun σ => (Return tt,
            mkStore (options σ) (sections σ) (<[l := d]> (documents σ))).

(** Object creation: the new object gets a reference of its own. *)
Definition new_option (o : OptionObj) : M loc :=
  fun σ => let l := fresh_option σ in
           (Return l, mkStore (<[l := o]> (options σ)) (sections σ) (documents σ)).

Definition new_section (s : SectionObj) : M loc :=
  fun σ => let l := fresh_section σ in
           (Return l, mkStore (options σ) (<[l := s]> (sections σ)) (documents σ)).

(** The reference of a new Document. *)
Definition fresh_document (σ : store) : loc :=
  S (max_list (elements (dom (documents σ)))).

Definition new_document (d : DocumentObj) : M loc :=
  fun σ => let l := fresh_document σ in
           (Return l, mkStore (options σ) (sections σ) (<[l := d]> (documents σ))).

(** ** Generators and list primitives *)

(** [next(gen)] on the items a generator yields. *)
Definition next {A : Type} (gen : list A) : M A :=
  match gen with
  | x :: _ => ret x
  | [] => raise StopIteration
  end.

(** [next(gen, default)] *)
Definition next_default {A : Type} (gen : list A) (default : A) : A :=
  match gen with
  | x :: _ => x
  | [] => default
  end.

(** [enumerate(l)] *)
Definition enumerate {A : Type} (l : list A) : list (nat * A) :=
  imap (fun i x => (i, x)) l.

(** [l.insert(idx, x)]: before position [idx], at the end when [idx] is
    past it. *)
Definition list_insert_at {A : Type} (idx : nat) (x : A) (l : list A) : list A :=
  take idx l ++ x :: drop idx l.

(** [l.index(x)] *)
Fixpoint list_index {A : Type} `{EqDecision A} (x : A) (l : list A) : option nat :=
  match l with
  | [] => None
  | y :: l' => if decide (y = x) then Some 0 else S <$> list_index x l'
  end.

(** [for x in l: acc = f(acc, x)] with a body that may raise. *)
Fixpoint foldM {A B : Type} (f : B -> A -> M B) (l : list A) (acc : B) : M B :=
  match l with
  | [] => ret acc
  | x :: l' => acc' <- f acc x ;; foldM f l' acc'
  end.

(** ** Blocks, containers and options *)

(** Modelled from the spec: [Block.updated] ([block.py] is not part of the
    sources), the dirty flag of a block: set when the block was altered or
    was newly constructed, that is, no text was captured for it.  The
    docstring of the Section class says the same of its [updated]
    attribute: it indicates a name change or a new section. *)
Definition Block_updated (updated : bool) (lines : list string) : bool :=
  updated || match lines with [] => true | _ => false end.

(** Modelled from the spec: [Block.__str__], the captured text. *)
Definition Block__str__ (lines : list string) : string := join lines.

(** [Document.optionxform]: [optionstr.lower()] *)
Definition optionxform (optionstr : string) : string := str_lower optionstr.

(** Modelled from the spec: [Option.key], the key case-normalized for
    lookup; the stored key keeps the original casing. *)
Definition Option_key (o : OptionObj) : string := optionxform (opt_key o).

(** Modelled from the spec: [Option(key, value, container=...)], a new
    option with no captured text. *)
Definition Option__init__ (key : string) (value : pyval) (container : loc) : OptionObj :=
  mkOption (Some container) [] false key value.

(** Modelled from the spec: the [Option.value] setter, which alters the
    option. *)
Definition Option_set_value (l : loc) (value : pyval) : M unit :=
  o <- read_option l ;;
  write_option l (mkOption (opt_container o) (opt_lines o) true (opt_key o) value).

(** Modelled from the spec: the [Option.value] getter, the value of the
    option, [None] for a valueless key. *)
Definition Option_value (o : OptionObj) : pyval := opt_value o.

(** [o.key == key] for the option a reference names. *)
Definition key_is (σ : store) (key : string) (l : loc) : bool :=
  match options σ !! l with
  | Some o => String.eqb (Option_key o) key
  | None => false
  end.

(** Modelled from the spec: [Container.iter_blocks], the blocks in storage
    order ([container.py] is not part of the sources);
    [Container.structure] is the same sequence. *)
Definition iter_blocks (s : SectionObj) : list SectionContent := sec_structure s.

(** Modelled from the spec: [Container.last_block], the last block, [None]
    in an empty container. *)
Definition last_block (s : SectionObj) : option SectionContent := last (sec_structure s).

(** Modelled from the spec: [Block.container_idx], the index of a block
    within its owning container, found through the back-reference; a
    detached block has none. *)
Definition container_idx (l : loc) : M nat :=
  o <- read_option l ;;
  match opt_container o with
  | None => raise NotAttachedError
  | Some c =>
      owner <- read_section c ;;
      match list_index (SC_Option l) (sec_structure owner) with
      | Some i => ret i
      | None => raise (ValueError "block is not in list")
      end
  end.

(** ** Section *)

Module Sec.

(** [Section(name, container)]; the Block part starts with no captured
    text. *)
Definition __init__ (name : string) (container : loc) : SectionObj :=
  mkSection container name [] false [].

Definition set_structure (self : loc) (structure : list SectionContent) : M unit :=
  me <- read_section self ;;
  write_section self
    (mkSection (sec_container me) (sec_name me) structure (sec_updated me) (sec_lines me)).

(** [self._structure.append(block)] *)
Definition append (self : loc) (block : SectionContent) : M unit :=
  me <- read_section self ;;
  set_structure self (sec_structure me ++ [block]).

(** [del self._structure[idx]] *)
Definition del_at (self : loc) (idx : nat) : M unit :=
  me <- read_section self ;;
  if (idx <? length (sec_structure me))%nat
  then set_structure self (delete idx (sec_structure me))
  else raise IndexError.

(** [self._structure.insert(idx, block)] *)
Definition insert (self : loc) (idx : nat) (block : SectionContent) : M unit :=
  me <- read_section self ;;
  set_structure self (list_insert_at idx block (sec_structure me)).

Definition add_option (self : loc) (entry : loc) : M loc :=
  append self (SC_Option entry) ;;
  ret self.

Definition add_comment (self : loc) (line : string) : M loc :=
  me <- read_section self ;;
  match last_block me with
  | Some (SC_Comment lines) =>
      set_structure self (removelast (sec_structure me) ++ [SC_Comment (lines ++ [line])])
  | _ =>
      append self (SC_Comment [line])
  end ;;
  ret self.

Definition add_space (self : loc) (line : string) : M loc :=
  me <- read_section self ;;
  match last_block me with
  | Some (SC_Space lines) =>
      set_structure self (removelast (sec_structure me) ++ [SC_Space (lines ++ [line])])
  | _ =>
      append self (SC_Space [line])
  end ;;
  ret self.

(** [isinstance(entry, Option) and entry.key == key] *)
Definition is_option_with_key (σ : store) (key : string) (entry : SectionContent) : bool :=
  match entry with
  | SC_Option l => key_is σ key l
  | _ => false
  end.

Definition _get_option_idx (self : loc) (key : string) : M nat :=
  me <- read_section self ;;
  σ <- get_store ;;
  next (map fst
          (List.filter (fun '(_, entry) => is_option_with_key σ key entry)
                       (enumerate (sec_structure me)))).

(** The references of the Option blocks, in storage order. *)
Definition iter_options (s : SectionObj) : list loc :=
  option_refs (iter_blocks s).

Definition __getitem__ (self : loc) (key : string) : M loc :=
  let key := optionxform key in
  me <- read_section self ;;
  σ <- get_store ;;
  try_except
    (next (List.filter (key_is σ key) (iter_options me)))
    (fun ex => match ex with
               | StopIteration => Some (raise (KeyError key))
               | _ => None
               end).

Definition __contains__ (self : loc) (key : string) : M bool :=
  me <- read_section self ;;
  σ <- get_store ;;
  ret (next_default
         (map (fun _ => true) (List.filter (key_is σ key) (iter_options me)))
         false).

Definition has_option := __contains__.

Definition __setitem__ (self : loc) (key : string) (value : pyval) : M unit :=
  present <- __contains__ self (optionxform key) ;;
  if present : bool then
    match value with
    | POption v =>
        vo <- read_option v ;;
        if negb (String.eqb (Option_key vo) key)
        then raise (ValueError "Set key does not equal option key")
        else
          old <- __getitem__ self key ;;
          idx <- container_idx old ;;
          del_at self idx ;;
          insert self idx (SC_Option v)
    | _ =>
        option <- __getitem__ self key ;;
        Option_set_value option value
    end
  else
    option <- match value with
              | POption v => ret v
              | _ =>
                  option <- new_option (Option__init__ key value self) ;;
                  Option_set_value option value ;;
                  ret option
              end ;;
    append self (SC_Option option).

Definition __delitem__ (self : loc) (key : string) : M unit :=
  try_except
    (idx <- _get_option_idx self key ;;
     del_at self idx)
    (fun ex => match ex with
               | StopIteration => Some (raise (KeyError key))
               | _ => None
               end).

Definition __iter__ (self : loc) : M (list string) :=
  me <- read_section self ;;
  σ <- get_store ;;
  ret (omap (fun l => Option_key <$> options σ !! l) (option_refs (iter_blocks me))).

Definition option_blocks (self : loc) : M (list loc) :=
  me <- read_section self ;;
  ret (iter_options me).

(** [{opt.key: opt.value for opt in self.iter_options()}]; a later option
    of a key takes the place of an earlier one in the dict. *)
Definition to_dict (self : loc) : M (gmap string pyval) :=
  me <- read_section self ;;
  σ <- get_store ;;
  ret (foldl (fun (dict : gmap string pyval) (opt : OptionObj) =>
                <[Option_key opt := Option_value opt]> dict)
             ∅
             (omap (fun l => options σ !! l) (iter_options me))).

Definition items (self : loc) : M (list (string * loc)) :=
  blocks <- option_blocks self ;;
  σ <- get_store ;;
  ret (omap (fun l => (fun opt => (Option_key opt, l)) <$> options σ !! l) blocks).

(** [[option.key for option in self.iter_options()]] *)
Definition keys_of (σ : store) (s : SectionObj) : list string :=
  omap (fun l => Option_key <$> options σ !! l) (iter_options s).

Definition options (self : loc) : M (list string) :=
  me <- read_section self ;;
  σ <- get_store ;;
  ret (keys_of σ me).

Definition name (self : loc) : M string :=
  me <- read_section self ;;
  ret (sec_name me).

Definition __repr__ (self : loc) : M string :=
  n <- name self ;;
  ret ("<Section: " ++ n ++ ">")%string.

(** The [name] setter; the new name is a string, so [str(value)] is it. *)
Definition set_name (self : loc) (value : string) : M unit :=
  me <- read_section self ;;
  write_section self
    (mkSection (sec_container me) value (sec_structure me) true (sec_lines me)).

Definition set (self : loc) (option : string) (value : pyval) : M loc :=
  let option := optionxform option in
  keys <- options self ;;
  (if bool_decide (option ∈ keys)
   then o <- __getitem__ self option ;; Option_set_value o value
   else __setitem__ self option value) ;;
  ret self.

Definition get (self : loc) (key : string) (default : pyval) : M pyval :=
  me <- read_section self ;;
  σ <- get_store ;;
  ret (next_default
         (map POption (List.filter (key_is σ key) (iter_options me)))
         default).

Section SectionText.
(** The text of an altered option, which [option.py] synthesizes. *)
Variable option_text : OptionObj -> string.

(** Modelled from the spec: [Option.__str__], the captured text unless
    the option was altered. *)
Definition Option__str__ (o : OptionObj) : string :=
  if Block_updated (opt_updated o) (opt_lines o)
  then option_text o
  else Block__str__ (opt_lines o).

(** [str(entry)] for a block of a section. *)
Definition str_entry (entry : SectionContent) : M string :=
  match entry with
  | SC_Option l => o <- read_option l ;; ret (Option__str__ o)
  | SC_Comment lines => ret (Block__str__ lines)
  | SC_Space lines => ret (Block__str__ lines)
  end.

Definition __str__ (self : loc) : M string :=
  me <- read_section self ;;
  let s := if negb (Block_updated (sec_updated me) (sec_lines me))
           then Block__str__ (sec_lines me)
           else ("[" ++ sec_name me ++ "]" ++ LF)%string in
  foldM (fun s entry => t <- str_entry entry ;; ret (s ++ t)%string)
        (sec_structure me) s.
End SectionText.

End Sec.

(** ** Document *)

Module Doc.

Definition set_structure (self : loc) (structure : list ConfigContent) : M unit :=
  read_document self ;;
  write_document self (mkDocument structure).

(** [self._structure.append(block)] *)
Definition append (self : loc) (block : ConfigContent) : M unit :=
  me <- read_document self ;;
  set_structure self (doc_structure me ++ [block]).

(** [del self._structure[idx]] *)
Definition del_at (self : loc) (idx : nat) : M unit :=
  me <- read_document self ;;
  if (idx <? length (doc_structure me))%nat
  then set_structure self (delete idx (doc_structure me))
  else raise IndexError.

(** [self._structure.insert(idx, block)] *)
Definition insert (self : loc) (idx : nat) (block : ConfigContent) : M unit :=
  me <- read_document self ;;
  set_structure self (list_insert_at idx block (doc_structure me)).

(** [s.name == name] for the section a reference names. *)
Definition name_is (σ : store) (name : string) (l : loc) : bool :=
  match sections σ !! l with
  | Some s => String.eqb (sec_name s) name
  | None => false
  end.

(** [isinstance(entry, Section) and entry.name == name] *)
Definition is_section_with_name (σ : store) (name : string) (entry : ConfigContent) : bool :=
  match entry with
  | CC_Section l => name_is σ name l
  | _ => false
  end.

Definition _get_section_idx (self : loc) (name : string) : M nat :=
  me <- read_document self ;;
  σ <- get_store ;;
  next (map fst
          (List.filter (fun '(_, entry) => is_section_with_name σ name entry)
                       (enumerate (doc_structure me)))).

(** The references of the Section blocks, in storage order. *)
Definition iter_sections (d : DocumentObj) : list loc :=
  section_refs (doc_structure d).

Definition section_blocks (d : DocumentObj) : list loc := iter_sections d.

(** [[section.name for section in self.iter_sections()]] *)
Definition names_of (σ : store) (d : DocumentObj) : list string :=
  omap (fun l => sec_name <$> sections σ !! l) (iter_sections d).

(** [[(sect.name, sect) for sect in self.iter_sections()]] *)
Definition named_sections (σ : store) (d : DocumentObj) : list (string * loc) :=
  omap (fun l => (fun s => (sec_name s, l)) <$> sections σ !! l) (iter_sections d).

Definition sections (self : loc) : M (list string) :=
  me <- read_document self ;;
  σ <- get_store ;;
  ret (names_of σ me).

Definition __iter__ (self : loc) : M (list string) :=
  me <- read_document self ;;
  σ <- get_store ;;
  ret (names_of σ me).

Definition __getitem__ (self : loc) (key : string) : M loc :=
  me <- read_document self ;;
  σ <- get_store ;;
  match List.filter (name_is σ key) (section_blocks me) with
  | section :: _ => ret section
  | [] => raise (KeyError key)
  end.

Definition __contains__ (self : loc) (key : string) : M bool :=
  me <- read_document self ;;
  σ <- get_store ;;
  ret (next_default
         (map (fun _ => true) (List.filter (name_is σ key) (iter_sections me)))
         false).

Definition has_section := __contains__.

Definition add_section (self : loc) (section : pyval) : M unit :=
  section_obj <- match section with
                 | PStr name => new_section (Sec.__init__ name self)
                 | PSection l => ret l
                 | _ => raise (ValueError "Parameter must be a string or Section type!")
                 end ;;
  name <- Sec.name section_obj ;;
  dup <- has_section self name ;;
  if dup : bool then raise (DuplicateSectionError name)
  else append self (CC_Section section_obj).

(** The key is a string, so [isinstance(key, str)] holds. *)
Definition __setitem__ (self : loc) (key : string) (value : pyval) : M unit :=
  match value with
  | PSection v =>
      present <- __contains__ self key ;;
      if present : bool then
        idx <- _get_section_idx self key ;;
        del_at self idx ;;
        insert self idx (CC_Section v)
      else
        Sec.set_name v key ;;
        add_section self value
  | _ => raise (ValueError "Value must be of type Section!")
  end.

Definition remove_section (self : loc) (name : string) : M bool :=
  try_except
    (idx <- _get_section_idx self name ;;
     del_at self idx ;;
     ret true)
    (fun ex => match ex with
               | StopIteration => Some (ret false)
               | _ => None
               end).

Definition __delitem__ (self : loc) (key : string) : M unit :=
  removed <- remove_section self key ;;
  if removed : bool then ret tt else raise (KeyError key).

Definition options (self : loc) (section : string) : M (list string) :=
  present <- has_section self section ;;
  if negb present then raise (NoSectionError section)
  else
    s <- __getitem__ self section ;;
    Sec.options s.

Definition get_section (self : loc) (name : string) (default : pyval) : M pyval :=
  me <- read_document self ;;
  σ <- get_store ;;
  ret (next_default
         (map PSection (List.filter (name_is σ name) (iter_sections me)))
         default).

(** [section_obj.get(option, fallback)] on whatever [get_section] gave. *)
Definition call_get (section_obj : pyval) (option : string) (fallback : pyval) : M pyval :=
  match section_obj with
  | PSection l => Sec.get l option fallback
  | _ => raise AttributeError
  end.

Definition get (self : loc) (section option : string) (fallback : pyval) : M pyval :=
  section_obj <- get_section self section PUnset ;;
  if decide (section_obj = PUnset) then raise (NoSectionError section)
  else
    let option := optionxform option in
    value <- call_get section_obj option fallback ;;
    if decide (value = PUnset) then raise (NoOptionError option section)
    else ret value.

(** [items(section=_UNSET)]: [None] stands for the default [_UNSET]; the
    pairs hold references to Section or Option objects. *)
Definition items (self : loc) (section : option string) : M (list (string * pyval)) :=
  match section with
  | None =>
      me <- read_document self ;;
      σ <- get_store ;;
      ret (map (fun p => (fst p, PSection (snd p))) (named_sections σ me))
  | Some section =>
      section <- __getitem__ self section ;;
      pairs <- Sec.items section ;;
      ret (map (fun p => (fst p, POption (snd p))) pairs)
  end.

(** [{sect.name: sect.to_dict() for sect in self.iter_sections()}] *)
Definition to_dict (self : loc) : M (gmap string (gmap string pyval)) :=
  me <- read_document self ;;
  foldM (fun (dict : gmap string (gmap string pyval)) (sect : loc) =>
           n <- Sec.name sect ;;
           inner <- Sec.to_dict sect ;;
           ret (<[n := inner]> dict))
        (iter_sections me) ∅.

(** [key in obj] on whatever [get_section] gave. *)
Definition call_contains (obj : pyval) (key : string) : M bool :=
  match obj with
  | PSection l => Sec.__contains__ l key
  | PEmptyDict => ret false
  | _ => raise TypeError
  end.

Definition has_option (self : loc) (section option : string) : M bool :=
  let key := optionxform option in
  obj <- get_section self section PEmptyDict ;;
  call_contains obj key.

Definition set (self : loc) (section option : string) (value : pyval) : M loc :=
  section_obj <- try_except (__getitem__ self section)
                   (fun ex => match ex with
                              | KeyError _ => Some (raise (NoSectionError section))
                              | _ => None
                              end) ;;
  let option := optionxform option in
  present <- Sec.__contains__ section_obj option ;;
  (if present : bool
   then o <- Sec.__getitem__ section_obj option ;; Option_set_value o value
   else Sec.__setitem__ section_obj option value) ;;
  ret self.

Definition remove_option (self : loc) (section option : string) : M bool :=
  section_obj <- try_except (__getitem__ self section)
                   (fun ex => match ex with
                              | KeyError _ => Some (raise (NoSectionError section))
                              | _ => None
                              end) ;;
  let option := optionxform option in
  keys <- Sec.options section_obj ;;
  let existed := bool_decide (option ∈ keys) in
  (if existed then Sec.__delitem__ section_obj option else ret tt) ;;
  ret existed.

Section DocumentText.
Variable option_text : OptionObj -> string.

(** [str(block)] for a block of the document. *)
Definition str_block (block : ConfigContent) : M string :=
  match block with
  | CC_Section l => Sec.__str__ option_text l
  | CC_Comment lines => ret (Block__str__ lines)
  | CC_Space lines => ret (Block__str__ lines)
  end.

Definition __str__ (self : loc) : M string :=
  me <- read_document self ;;
  parts <- foldM (fun acc block => t <- str_block block ;; ret (acc ++ [t]))
                 (doc_structure me) [] ;;
  ret (join parts).
End DocumentText.

End Doc.

(** ** Parser *)

(** Modelled from the spec: the kinds of lines the parser tells apart
    ([parser.py] is not part of the sources): a section header [[name]],
    a [key = value] pair, a line with leading indentation and no
    delimiter, a blank line, a comment line, and any other line.  Which
    line is of which kind is the business of the INI grammar. *)
Inductive line_kind : Type :=
| LHeader (name : string)
| LOption (key : string) (value : pyval)
| LIndented
| LBlank
| LComment
| LOther.

(** Modelled from the spec: the states of the parser, with the section
    and the option at hand. *)
Inductive parser_state : Type :=
| BeforeAnySection
| InSectionHeader (section : loc)
| InOptionValue (section option : loc)
| InCommentRun (section : option loc)
| InBlankRun (section : option loc).

(** Modelled from the spec: the section the parser is in, none before
    the first header. *)
Definition current_section (st : parser_state) : option loc :=
  match st with
  | BeforeAnySection => None
  | InSectionHeader section => Some section
  | InOptionValue section _ => Some section
  | InCommentRun section => section
  | InBlankRun section => section
  end.

(** Modelled from the spec: [text.splitlines(keepends=True)] for text
    whose lines end in a line feed; [cur] is the line read so far. *)
Fixpoint splitlines_from (cur text : string) : list string :=
  match text with
  | EmptyString => match cur with EmptyString => [] | _ => [cur] end
  | String c text' =>
      if Ascii.eqb c (ascii_of_nat 10)
      then (cur +:+ LF) :: splitlines_from EmptyString text'
      else splitlines_from (cur +:+ String c EmptyString) text'
  end.

Definition splitlines (text : string) : list string := splitlines_from EmptyString text.

Module Parser.

(** Modelled from the spec: [Block.add_line] on a Section, which captures
    the line as text of the block. *)
Definition section_add_line (l : loc) (line : string) : M unit :=
  s <- read_section l ;;
  write_section l
    (mkSection (sec_container s) (sec_name s) (sec_structure s) (sec_updated s)
       (sec_lines s ++ [line])).

(** Modelled from the spec: a continuation line of an Option, captured as
    text of the block and appended to its value. *)
Definition option_add_line (l : loc) (line : string) : M unit :=
  o <- read_option l ;;
  write_option l
    (mkOption (opt_container o) (opt_lines o ++ [line]) (opt_updated o) (opt_key o)
       (match opt_value o with
        | PStr v => PStr (v +:+ line)
        | _ => PStr line
        end)).

(** Modelled from the spec: a comment line outside any section; a line
    right after a Comment extends that run. *)
Definition document_add_comment (document : loc) (line : string) : M unit :=
  d <- read_document document ;;
  match last (doc_structure d) with
  | Some (CC_Comment lines) =>
      Doc.set_structure document
        (removelast (doc_structure d) ++ [CC_Comment (lines ++ [line])])
  | _ => Doc.append document (CC_Comment [line])
  end.

(** Modelled from the spec: a blank line outside any section; a line
    right after a Space extends that run. *)
Definition document_add_space (document : loc) (line : string) : M unit :=
  d <- read_document document ;;
  match last (doc_structure d) with
  | Some (CC_Space lines) =>
      Doc.set_structure document
        (removelast (doc_structure d) ++ [CC_Space (lines ++ [line])])
  | _ => Doc.append document (CC_Space [line])
  end.

Section Grammar.
Variable classify : string -> line_kind.

(** Modelled from the spec: the transition of the parser on one line.  A
    header creates and appends a Section; a pair inside a section appends
    an Option to it; an indented line in the state of an option value
    continues that value; blank and comment lines extend or create a run
    in the section at hand, or in the document before any section; a line
    with no transition is a parse error with its number and content. *)
Definition parse_line (document : loc) (lineno : nat) (st : parser_state)
    (line : string) : M parser_state :=
  match classify line with
  | LHeader name =>
      section <- new_section (Sec.__init__ name document) ;;
      section_add_line section line ;;
      Doc.append document (CC_Section section) ;;
      ret (InSectionHeader section)
  | LOption key value =>
      match current_section st with
      | Some section =>
          option <- new_option (mkOption (Some section) [line] false key value) ;;
          Sec.add_option section option ;;
          ret (InOptionValue section option)
      | None => raise (ParsingError lineno line)
      end
  | LIndented =>
      match st with
      | InOptionValue section option =>
          option_add_line option line ;;
          ret (InOptionValue section option)
      | _ => raise (ParsingError lineno line)
      end
  | LBlank =>
      match current_section st with
      | Some section => Sec.add_space section line ;; ret (InBlankRun (Some section))
      | None => document_add_space document line ;; ret (InBlankRun None)
      end
  | LComment =>
      match current_section st with
      | Some section => Sec.add_comment section line ;; ret (InCommentRun (Some section))
      | None => document_add_comment document line ;; ret (InCommentRun None)
      end
  | LOther => raise (ParsingError lineno line)
  end.

(** Modelled from the spec: the lines are consumed in order; the end of
    the input closes the open run. *)
Fixpoint parse_lines (document : loc) (lineno : nat) (st : parser_state)
    (lines : list string) : M parser_state :=
  match lines with
  | [] => ret st
  | line :: rest =>
      st' <- parse_line document lineno st line ;;
      parse_lines document (S lineno) st' rest
  end.

(** Modelled from the spec: [parse(text) -> Document | ParseError]. *)
Definition read_string (text : string) : M loc :=
  document <- new_document (mkDocument []) ;;
  parse_lines document 1 BeforeAnySection (splitlines text) ;;
  ret document.
End Grammar.

End Parser.

(** ** Invariants of the data model *)

(** Section names are unique within a document. *)
Definition names_unique (σ : store) (d : DocumentObj) : Prop :=
  NoDup (Doc.names_of σ d).

(** Option keys, in normalized form, are unique within a section. *)
Definition keys_unique (σ : store) (s : SectionObj) : Prop :=
  NoDup (Sec.keys_of σ s).

(** The dict [Section.to_dict] builds from the options of a section. *)
Definition section_dict (σ : store) (s : SectionObj) : gmap string pyval :=
  foldl (fun (dict : gmap string pyval) (opt : OptionObj) =>
           <[Option_key opt := Option_value opt]> dict)
        ∅
        (omap (fun l => options σ !! l) (Sec.iter_options s)).

(** ** The text of the objects of a store *)

(** Every Option block of the section is an object of the store. *)
Definition section_closed (σ : store) (s : SectionObj) : Prop :=
  Forall (fun l => is_Some (options σ !! l)) (Sec.iter_options s).

(** Every Section block of the document is an object of the store, and so
    are the Option blocks of these sections. *)
Definition document_closed (σ : store) (d : DocumentObj) : Prop :=
  Forall (fun l => exists s, sections σ !! l = Some s /\ section_closed σ s)
         (Doc.iter_sections d).

Section Text.
Variable option_text : OptionObj -> string.

(** The text of a block of a section. *)
Definition entry_text (σ : store) (entry : SectionContent) : string :=
  match entry with
  | SC_Option l => from_option (Sec.Option__str__ option_text) "" (options σ !! l)
  | SC_Comment lines => Block__str__ lines
  | SC_Space lines => Block__str__ lines
  end.

(** The text of a section: its header line, synthesized when the section
    is dirty, then its blocks. *)
Definition section_text (σ : store) (s : SectionObj) : string :=
  (if Block_updated (sec_updated s) (sec_lines s)
   then "[" +:+ sec_name s +:+ "]" +:+ LF
   else Block__str__ (sec_lines s))
  +:+ join (map (entry_text σ) (sec_structure s)).

(** The text of a block of a document. *)
Definition block_text (σ : store) (block : ConfigContent) : string :=
  match block with
  | CC_Section l => from_option (section_text σ) "" (sections σ !! l)
  | CC_Comment lines => Block__str__ lines
  | CC_Space lines => Block__str__ lines
  end.

(** The text of a document: its blocks in container order. *)
Definition document_text (σ : store) (d : DocumentObj) : string :=
  join (map (block_text σ) (doc_structure d)).

(** What [add_comment] and [add_space] do to the blocks of a section: the
    Option blocks stay and the text grows by the line. *)
Definition extends_entries (line : string) (old new : list SectionContent) : Prop :=
  option_refs new = option_refs old /\
  forall σ, join (map (entry_text σ) new)
            = join (map (entry_text σ) old) +:+ line.

(** What a comment or blank line outside any section does to the blocks
    of the document. *)
Definition extends_blocks (line : string) (old new : list ConfigContent) : Prop :=
  section_refs new = section_refs old /\
  forall σ, join (map (block_text σ) new)
            = join (map (block_text σ) old) +:+ line.

(** What the parser has built after it consumed [text]: a document whose
    text is [text]; the section at hand is the last block of the document
    and occurs there once; the option at hand is the last block of that
    section, occurs there once and in no earlier section, and still
    renders its captured lines. *)
Definition parser_inv (σ : store) (document : loc) (st : parser_state)
    (text : string) : Prop :=
  exists d,
    documents σ !! document = Some d /\
    document_closed σ d /\
    document_text σ d = text /\
    match current_section st with
    | None => True
    | Some section =>
        exists pre s,
          doc_structure d = pre ++ [CC_Section section] /\
          (section ∉ section_refs pre) /\
          sections σ !! section = Some s /\
          match st with
          | InOptionValue _ option =>
              exists spre o,
                sec_structure s = spre ++ [SC_Option option] /\
                (option ∉ option_refs spre) /\
                options σ !! option = Some o /\
                Block_updated (opt_updated o) (opt_lines o) = false /\
                (forall l s', l ∈ section_refs pre -> sections σ !! l = Some s' ->
                              option ∉ option_refs (sec_structure s'))
          | _ => True
          end
    end.
End Text.

(** Two stores hold the same sections, with the same options, for the
    Section blocks of a list. *)
Definition same_on (σ σ' : store) (blocks : list ConfigContent) : Prop :=
  forall l, l ∈ section_refs blocks ->
    sections σ' !! l = sections σ !! l /\
    forall s o, sections σ !! l = Some s -> o ∈ option_refs (sec_structure s) ->
                options σ' !! o = options σ !! o.

(** ** The public operations

    Names and keys are unique: the section names within the document at
    hand, and the option keys, in normalized form, within every Section
    of the store. *)
Definition unique_inv (σ : store) (doc : loc) : Prop :=
  (forall d, documents σ !! doc = Some d -> names_unique σ d) /\
  (forall l s, sections σ !! l = Some s -> keys_unique σ s).

(** A call of a public method of [document.py] on the document at hand,
    or of [section.py] on a Section, with its arguments.  Three methods
    are not among them: [validate_format], which runs [ConfigParser] on
    the text, [__eq__], which compares blocks with the [__eq__] of
    [block.py], and [insert_at], which returns a [BlockBuilder] of
    [builder.py]; none of the three assigns to an attribute. *)
Inductive operation : Type :=
| Document_optionxform (optionstr : string)
| Document_iter_sections
| Document_section_blocks
| Document_sections
| Document_iter
| Document_str
| Document_getitem (key : string)
| Document_setitem (key : string) (value : pyval)
| Document_delitem (key : string)
| Document_contains (key : string)
| Document_has_section (key : string)
| Document_add_section (section : pyval)
| Document_options (section : string)
| Document_get (section option : string) (fallback : pyval)
| Document_get_section (name : string) (default : pyval)
| Document_items (section : option string)
| Document_has_option (section option : string)
| Document_set (section option : string) (value : pyval)
| Document_remove_option (section option : string)
| Document_remove_section (name : string)
| Document_to_dict
| Section_init (name : string) (container : loc)
| Section_add_option (self : loc) (entry : loc)
| Section_add_comment (self : loc) (line : string)
| Section_add_space (self : loc) (line : string)
| Section_str (self : loc)
| Section_repr (self : loc)
| Section_getitem (self : loc) (key : string)
| Section_setitem (self : loc) (key : string) (value : pyval)
| Section_delitem (self : loc) (key : string)
| Section_contains (self : loc) (key : string)
| Section_iter (self : loc)
| Section_iter_options (self : loc)
| Section_option_blocks (self : loc)
| Section_options (self : loc)
| Section_has_option (self : loc) (key : string)
| Section_to_dict (self : loc)
| Section_name (self : loc)
| Section_set_name (self : loc) (value : string)
| Section_set (self : loc) (option : string) (value : pyval)
| Section_get (self : loc) (key : string) (default : pyval)
| Section_items (self : loc).

(** Run a computation for what it does to the store. *)
Definition discard {A : Type} (m : M A) : M unit := m ;; ret tt.

(** A computation that leaves the store as it found it. *)
Definition readonly {A : Type} (m : M A) : Prop := forall σ, (m σ).2 = σ.

Section Call.
Variable option_text : OptionObj -> string.

(** The method an operation names, run on the document [doc]. *)
Definition call (doc : loc) (op : operation) : M unit :=
  match op with
  | Document_optionxform optionstr => discard (ret (optionxform optionstr))
  | Document_iter_sections => discard (me <- read_document doc ;; ret (Doc.iter_sections me))
  | Document_section_blocks => discard (me <- read_document doc ;; ret (Doc.section_blocks me))
  | Document_sections => discard (Doc.sections doc)
  | Document_iter => discard (Doc.__iter__ doc)
  | Document_str => discard (Doc.__str__ option_text doc)
  | Document_getitem key => discard (Doc.__getitem__ doc key)
  | Document_setitem key value => Doc.__setitem__ doc key value
  | Document_delitem key => Doc.__delitem__ doc key
  | Document_contains key => discard (Doc.__contains__ doc key)
  | Document_has_section key => discard (Doc.has_section doc key)
  | Document_add_section section => Doc.add_section doc section
  | Document_options section => discard (Doc.options doc section)
  | Document_get section option fallback => discard (Doc.get doc section option fallback)
  | Document_get_section name default => discard (Doc.get_section doc name default)
  | Document_items section => discard (Doc.items doc section)
  | Document_has_option section option => discard (Doc.has_option doc section option)
  | Document_set section option value => discard (Doc.set doc section option value)
  | Document_remove_option section option => discard (Doc.remove_option doc section option)
  | Document_remove_section name => discard (Doc.remove_section doc name)
  | Document_to_dict => discard (Doc.to_dict doc)
  | Section_init name container => discard (new_section (Sec.__init__ name container))
  | Section_add_option self entry => discard (Sec.add_option self entry)
  | Section_add_comment self line => discard (Sec.add_comment self line)
  | Section_add_space self line => discard (Sec.add_space self line)
  | Section_str self => discard (Sec.__str__ option_text self)
  | Section_repr self => discard (Sec.__repr__ self)
  | Section_getitem self key => discard (Sec.__getitem__ self key)
  | Section_setitem self key value => Sec.__setitem__ self key value
  | Section_delitem self key => Sec.__delitem__ self key
  | Section_contains self key => discard (Sec.__contains__ self key)
  | Section_iter self => discard (Sec.__iter__ self)
  | Section_iter_options self => discard (me <- read_section self ;; ret (Sec.iter_options me))
  | Section_option_blocks self => discard (Sec.option_blocks self)
  | Section_options self => discard (Sec.options self)
  | Section_has_option self key => discard (Sec.has_option self key)
  | Section_to_dict self => discard (Sec.to_dict self)
  | Section_name self => discard (Sec.name self)
  | Section_set_name self value => Sec.set_name self value
  | Section_set self option value => discard (Sec.set self option value)
  | Section_get self key default => discard (Sec.get self key default)
  | Section_items self => discard (Sec.items self)
  end.
End Call.

(** An Option put under a key the section does not have bears that key,
    in normalized form. *)
Definition new_key_condition (σ : store) (self : loc) (key : string) (value : pyval) : Prop :=
  forall s v vo,
    sections σ !! self = Some s ->
    value = POption v ->
    options σ !! v = Some vo ->
    (optionxform key ∉ Sec.keys_of σ s) ->
    Option_key vo = optionxform key.

(** The option an Option is to replace is attached to the section, or
    detached, not attached to another section. *)
Definition replace_condition (σ : store) (self : loc) (key : string) (value : pyval) : Prop :=
  forall v old o,
    value = POption v ->
    Sec.__getitem__ self key σ = (Return old, σ) ->
    options σ !! old = Some o ->
    opt_container o = Some self \/ opt_container o = None.

(** What the operations that check neither names nor keys ask of their
    arguments, for names and keys to stay unique. *)
Definition permitted (σ : store) (doc : loc) (op : operation) : Prop :=
  match op with
  | Document_setitem key (PSection v) =>
      forall d s,
        documents σ !! doc = Some d ->
        sections σ !! v = Some s ->
        key ∈ Doc.names_of σ d ->
        sec_name s = key \/ sec_name s ∉ Doc.names_of σ d
  | Document_set section option value =>
      forall l,
        Doc.__getitem__ doc section σ = (Return l, σ) ->
        new_key_condition σ l (optionxform option) value
  | Section_add_option self entry =>
      forall s o,
        sections σ !! self = Some s ->
        options σ !! entry = Some o ->
        Option_key o ∉ Sec.keys_of σ s
  | Section_setitem self key value =>
      new_key_condition σ self key value /\ replace_condition σ self key value
  | Section_set self option value =>
      new_key_condition σ self (optionxform option) value
  | Section_set_name self value =>
      forall d s,
        documents σ !! doc = Some d ->
        sections σ !! self = Some s ->
        self ∈ Doc.iter_sections d ->
        value = sec_name s \/ value ∉ Doc.names_of σ d
  | _ => True
  end.

(** ** A small document

    The store of a document with the text

      [[a]
       foo = 1

       bar = 2
       # end
       [b]]

    where the comment is a block of the document.  The document is
    object 0, its sections are objects 0 and 1, and the
    options of the first section are objects 0 and 1.  The caller holds
    three more objects, which no container has: a new Section named [c]
    (object 2) and new Options with the keys [foo] and [baz] (objects 2
    and 3). *)

Definition ex_options : gmap loc OptionObj :=
  <[0 := mkOption (Some 0) ["foo = 1" +:+ LF] false "foo" (PStr "1")]>
  (<[1 := mkOption (Some 0) ["bar = 2" +:+ LF] false "bar" (PStr "2")]>
  (<[2 := mkOption None [] false "foo" (PStr "3")]>
  (<[3 := mkOption None [] false "baz" (PStr "4")]> ∅))).

Definition ex_sections : gmap loc SectionObj :=
  <[0 := mkSection 0 "a" [SC_Option 0; SC_Space [LF]; SC_Option 1] false ["[a]" +:+ LF]]>
  (<[1 := mkSection 0 "b" [] false ["[b]" +:+ LF]]>
  (<[2 := mkSection 0 "c" [] false []]> ∅)).

Definition ex_documents : gmap loc DocumentObj :=
  <[0 := mkDocument [CC_Section 0; CC_Comment ["# end" +:+ LF]; CC_Section 1]]> ∅.

Definition ex_store : store := mkStore ex_options ex_sections ex_documents.

(** A canonical text for an altered option, to run the examples. *)
Definition ex_option_text (o : OptionObj) : string :=
  match opt_value o with
  | PStr v => opt_key o +:+ " = " +:+ v +:+ LF
  | _ => opt_key o +:+ LF
  end.

(** A grammar to run the examples: a line is a header when it starts
    with a bracket, a comment when it starts with [#], a continuation when
    it starts with a space, blank when it is a line feed, and a pair when
    it has an equals sign. *)
Definition ex_classify (line : string) : line_kind :=
  match line with
  | String "[" rest =>
      match index 0 "]" rest with
      | Some n => LHeader (substring 0 n rest)
      | None => LOther
      end
  | String "#" _ => LComment
  | String " " _ => LIndented
  | String "010" EmptyString => LBlank
  | _ =>
      match index 0 " = " line with
      | Some n =>
          LOption (substring 0 n line)
                  (PStr (substring (n + 3) (String.length line - (n + 4)) line))
      | None => LOther
      end
  end.

(** The text of the small document, with one continuation line. *)
Definition ex_text : string :=
  "[a]" +:+ LF +:+ "foo = 1" +:+ LF +:+ "  more" +:+ LF +:+ LF
  +:+ "bar = 2" +:+ LF +:+ "# end" +:+ LF +:+ "[b]" +:+ LF.

(** * Properties *)

Create HintDb py discriminated.
#[global] Hint Unfold bind ret raise try_except get_store
  read_option read_section read_document
  write_option write_section write_document new_option new_section : py.

(** Run the monad's plumbing in the goal. *)
Tactic Notation "run" := autounfold with py; simpl.
Tactic Notation "run" "in" hyp(H) := autounfold with py in H; simpl in H.

(** ** Generators *)

Lemma next_default_filter_true {A : Type} (p : A -> bool) (l : list A) :
  next_default (map (fun _ => true) (List.filter p l)) false = existsb p l.
Proof.
  induction l as [|x l IH]; simpl; [done|].
  destruct (p x); simpl; [done|exact IH].
Qed.

Lemma filter_nil_iff {A : Type} (p : A -> bool) (l : list A) :
  List.filter p l = [] <-> forall x, x ∈ l -> p x = false.
Proof.
  induction l as [|y l IH]; simpl.
  - split; [intros _ x Hx; inversion Hx|done].
  - destruct (p y) eqn:Hy.
    + split; [done|]. intros H. specialize (H y (list_elem_of_here _ _)). congruence.
    + rewrite IH. split.
      * intros H x Hx. inversion Hx; subst; [done|auto].
      * intros H x Hx. apply H. by apply list_elem_of_further.
Qed.

(** ** Names of sections and keys of options *)

Lemma name_is_true (σ : store) (name : string) (l : loc) :
  Doc.name_is σ name l = true <->
  exists s, sections σ !! l = Some s /\ sec_name s = name.
Proof.
  unfold Doc.name_is. destruct (sections σ !! l) as [s|].
  - rewrite String.eqb_eq. split; [eauto|]. by intros (s' & [= <-] & ?).
  - split; [done|]. by intros (s' & ? & _).
Qed.

Lemma key_is_true (σ : store) (key : string) (l : loc) :
  key_is σ key l = true <->
  exists o, options σ !! l = Some o /\ Option_key o = key.
Proof.
  unfold key_is. destruct (options σ !! l) as [o|].
  - rewrite String.eqb_eq. split; [eauto|]. by intros (o' & [= <-] & ?).
  - split; [done|]. by intros (o' & ? & _).
Qed.

Lemma names_of_filter (σ : store) (d : DocumentObj) (name : string) :
  name ∉ Doc.names_of σ d <->
  List.filter (Doc.name_is σ name) (Doc.iter_sections d) = [].
Proof.
  unfold Doc.names_of. rewrite filter_nil_iff. split.
  - intros Hn l Hl. destruct (Doc.name_is σ name l) eqn:E; [|done].
    apply name_is_true in E as (s & Hs & <-). exfalso. apply Hn.
    apply list_elem_of_omap. exists l. by rewrite Hs.
  - intros H (l & Hl & Hs)%list_elem_of_omap.
    destruct (sections σ !! l) as [s|] eqn:E; [|done].
    injection Hs as <-. specialize (H l Hl).
    assert (Doc.name_is σ (sec_name s) l = true) by (apply name_is_true; eauto).
    congruence.
Qed.

Lemma keys_of_filter (σ : store) (s : SectionObj) (key : string) :
  key ∉ Sec.keys_of σ s <->
  List.filter (key_is σ key) (Sec.iter_options s) = [].
Proof.
  unfold Sec.keys_of. rewrite filter_nil_iff. split.
  - intros Hn l Hl. destruct (key_is σ key l) eqn:E; [|done].
    apply key_is_true in E as (o & Ho & <-). exfalso. apply Hn.
    apply list_elem_of_omap. exists l. by rewrite Ho.
  - intros H (l & Hl & Ho)%list_elem_of_omap.
    destruct (options σ !! l) as [o|] eqn:E; [|done].
    injection Ho as <-. specialize (H l Hl).
    assert (key_is σ (Option_key o) l = true) by (apply key_is_true; eauto).
    congruence.
Qed.

(** ** Lookup through the document *)

Lemma get_section_missing (σ : store) (self : loc) (d : DocumentObj)
    (name : string) (default : pyval) :
  documents σ !! self = Some d ->
  name ∉ Doc.names_of σ d ->
  Doc.get_section self name default σ = (Return default, σ).
Proof.
  intros Hd Hn. apply names_of_filter in Hn.
  unfold Doc.get_section. run. by rewrite Hd, Hn.
Qed.

Lemma has_section_spec (σ : store) (self : loc) (d : DocumentObj) (name : string) :
  documents σ !! self = Some d ->
  Doc.has_section self name σ = (Return (bool_decide (name ∈ Doc.names_of σ d)), σ).
Proof.
  intros Hd. unfold Doc.has_section, Doc.__contains__. run. rewrite Hd.
  do 2 f_equal. case_bool_decide as Hn.
  - destruct (List.filter _ _) eqn:E; [|done].
    by apply names_of_filter in E.
  - apply names_of_filter in Hn. by rewrite Hn.
Qed.

Lemma getitem_get_section (σ : store) (self l : loc) (name : string) (default : pyval) :
  Doc.__getitem__ self name σ = (Return l, σ) ->
  Doc.get_section self name default σ = (Return (PSection l), σ).
Proof.
  unfold Doc.__getitem__, Doc.get_section, Doc.section_blocks. run.
  destruct (documents σ !! self) as [d|]; [|done].
  destruct (List.filter _ _); simpl; [done|]. by intros [= ->].
Qed.

Lemma section_get_absent (σ : store) (l : loc) (s : SectionObj)
    (key : string) (default : pyval) :
  sections σ !! l = Some s ->
  key ∉ Sec.keys_of σ s ->
  Sec.get l key default σ = (Return default, σ).
Proof.
  intros Hs Hk. apply keys_of_filter in Hk.
  unfold Sec.get. run. by rewrite Hs, Hk.
Qed.

(** C1: [Document.get] looks the section up first and the option second.
    A missing section raises [NoSectionError] whatever the fallback; in an
    existing section a missing option gives back the fallback when one was
    supplied, [None] included, and raises [NoOptionError] when none was. *)
Theorem get_fallback_asymmetry (σ : store) (self : loc) (d : DocumentObj)
    (section option : string) (fallback : pyval) :
  documents σ !! self = Some d ->
  (section ∉ Doc.names_of σ d ->
   Doc.get self section option fallback σ = (Raise (NoSectionError section), σ)) /\
  (forall (l : loc) (s : SectionObj),
     Doc.__getitem__ self section σ = (Return l, σ) ->
     sections σ !! l = Some s ->
     optionxform option ∉ Sec.keys_of σ s ->
     (fallback <> PUnset ->
      Doc.get self section option fallback σ = (Return fallback, σ)) /\
     (fallback = PNone ->
      Doc.get self section option fallback σ = (Return PNone, σ)) /\
     (fallback = PUnset ->
      Doc.get self section option fallback σ
      = (Raise (NoOptionError (optionxform option) section), σ))).
Proof.
  intros Hd. split.
  - intros Hn. unfold Doc.get, bind.
    by rewrite (get_section_missing _ _ _ _ _ Hd Hn).
  - intros l s Hl Hs Hk.
    assert (Doc.get self section option fallback σ
            = if decide (fallback = PUnset)
              then (Raise (NoOptionError (optionxform option) section), σ)
              else (Return fallback, σ)) as ->.
    { unfold Doc.get, bind. rewrite (getitem_get_section _ _ _ _ _ Hl). simpl.
      rewrite (section_get_absent _ _ _ _ _ Hs Hk).
      by destruct (decide (fallback = PUnset)). }
    repeat split.
    + intros Hf. by destruct (decide (fallback = PUnset)).
    + by intros ->.
    + by intros ->.
Qed.

Lemma get_fallback_asymmetry_witness :
  Doc.get 0 "missing-section" "k" (PStr "x") ex_store
  = (Raise (NoSectionError "missing-section"), ex_store) /\
  Doc.get 0 "a" "Missing-Key" (PStr "x") ex_store = (Return (PStr "x"), ex_store) /\
  Doc.get 0 "a" "Missing-Key" PNone ex_store = (Return PNone, ex_store) /\
  Doc.get 0 "a" "Missing-Key" PUnset ex_store
  = (Raise (NoOptionError "missing-key" "a"), ex_store).
Proof.
  pose proof (fun section option fallback =>
    get_fallback_asymmetry ex_store 0 _ section option fallback eq_refl) as H.
  assert ("missing-section" ∉ Doc.names_of ex_store
            (mkDocument [CC_Section 0; CC_Comment ["# end" +:+ LF]; CC_Section 1]))
    as Hmiss by (apply (bool_decide_unpack _); vm_compute; exact I).
  assert (optionxform "Missing-Key" ∉ Sec.keys_of ex_store
            (mkSection 0 "a" [SC_Option 0; SC_Space [LF]; SC_Option 1] false ["[a]" +:+ LF]))
    as Habs by (apply (bool_decide_unpack _); vm_compute; exact I).
  split; [exact (proj1 (H "missing-section" "k" (PStr "x")) Hmiss)|].
  split; [exact (proj1 (proj2 (H "a" "Missing-Key" (PStr "x")) 0 _ eq_refl eq_refl Habs)
                   ltac:(discriminate))|].
  split; [exact (proj1 (proj2 (proj2 (H "a" "Missing-Key" PNone) 0 _ eq_refl eq_refl Habs))
                   eq_refl)|].
  exact (proj2 (proj2 (proj2 (H "a" "Missing-Key" PUnset) 0 _ eq_refl eq_refl Habs))
           eq_refl).
Defined.

(** C10: [Document.has_option] answers [False], raising nothing, when the
    document has no section of that name; [Document.get] and
    [Document.options] raise [NoSectionError] for the same section. *)
Theorem has_option_missing_section (σ : store) (self : loc) (d : DocumentObj)
    (section option : string) (fallback : pyval) :
  documents σ !! self = Some d ->
  section ∉ Doc.names_of σ d ->
  Doc.has_option self section option σ = (Return false, σ) /\
  Doc.get self section option fallback σ = (Raise (NoSectionError section), σ) /\
  Doc.options self section σ = (Raise (NoSectionError section), σ).
Proof.
  intros Hd Hn. repeat split.
  - unfold Doc.has_option, bind.
    by rewrite (get_section_missing _ _ _ _ _ Hd Hn).
  - unfold Doc.get, bind.
    by rewrite (get_section_missing _ _ _ _ _ Hd Hn).
  - unfold Doc.options, bind. rewrite (has_section_spec _ _ _ _ Hd).
    by rewrite bool_decide_eq_false_2.
Qed.

Lemma has_option_missing_section_witness :
  Doc.has_option 0 "c" "foo" ex_store = (Return false, ex_store) /\
  Doc.get 0 "c" "foo" (PStr "x") ex_store = (Raise (NoSectionError "c"), ex_store) /\
  Doc.options 0 "c" ex_store = (Raise (NoSectionError "c"), ex_store).
Proof.
  apply (has_option_missing_section ex_store 0 _ "c" "foo" (PStr "x") eq_refl).
  apply (bool_decide_unpack _). vm_compute. exact I.
Defined.

(** ** Object creation *)

Lemma fresh_section_None (σ : store) : sections σ !! fresh_section σ = None.
Proof.
  apply not_elem_of_dom. intros H. apply elem_of_elements in H.
  assert (fresh_section σ ≤ max_list
            (elements (dom (sections σ))
             ++ concat (map (fun p => section_refs (doc_structure (snd p)))
                            (map_to_list (documents σ))))) as Hle.
  { apply max_list_elem_of_le, elem_of_app. by left. }
  unfold fresh_section in Hle at 1. lia.
Qed.

Lemma fresh_section_not_held (σ : store) (self : loc) (d : DocumentObj) :
  documents σ !! self = Some d ->
  fresh_section σ ∉ Doc.iter_sections d.
Proof.
  intros Hd H.
  assert (fresh_section σ ≤ max_list
            (elements (dom (sections σ))
             ++ concat (map (fun p => section_refs (doc_structure (snd p)))
                            (map_to_list (documents σ))))) as Hle.
  { apply max_list_elem_of_le, elem_of_app. right.
    apply list_elem_of_In, in_concat. exists (section_refs (doc_structure d)).
    split; [|by apply list_elem_of_In].
    apply in_map_iff. exists (self, d). split; [done|].
    by apply list_elem_of_In, elem_of_map_to_list. }
  unfold fresh_section in Hle at 1. lia.
Qed.

Lemma fresh_option_None (σ : store) : options σ !! fresh_option σ = None.
Proof.
  apply not_elem_of_dom. intros H. apply elem_of_elements in H.
  assert (fresh_option σ ≤ max_list
            (elements (dom (options σ))
             ++ concat (map (fun p => option_refs (sec_structure (snd p)))
                            (map_to_list (sections σ))))) as Hle.
  { apply max_list_elem_of_le, elem_of_app. by left. }
  unfold fresh_option in Hle at 1. lia.
Qed.

Lemma fresh_option_not_held (σ : store) (self : loc) (s : SectionObj) :
  sections σ !! self = Some s ->
  fresh_option σ ∉ Sec.iter_options s.
Proof.
  intros Hs H.
  assert (fresh_option σ ≤ max_list
            (elements (dom (options σ))
             ++ concat (map (fun p => option_refs (sec_structure (snd p)))
                            (map_to_list (sections σ))))) as Hle.
  { apply max_list_elem_of_le, elem_of_app. right.
    apply list_elem_of_In, in_concat. exists (option_refs (sec_structure s)).
    split; [|by apply list_elem_of_In].
    apply in_map_iff. exists (self, s). split; [done|].
    by apply list_elem_of_In, elem_of_map_to_list. }
  unfold fresh_option in Hle at 1. lia.
Qed.

(** The names of a document depend on the sections it holds only. *)
Lemma names_of_agree (σ σ' : store) (d : DocumentObj) :
  (forall l, l ∈ Doc.iter_sections d -> sections σ' !! l = sections σ !! l) ->
  Doc.names_of σ' d = Doc.names_of σ d.
Proof.
  unfold Doc.names_of. induction (Doc.iter_sections d) as [|l ls IH]; intros H; [done|].
  simpl. rewrite (H l (list_elem_of_here _ _)).
  assert (forall l', l' ∈ ls -> sections σ' !! l' = sections σ !! l') as H'
    by (intros l' Hl'; apply H; by apply list_elem_of_further).
  destruct (_ <$> _); [f_equal|]; by apply IH.
Qed.

(** The keys of a section depend on the options it holds only. *)
Lemma keys_of_agree (σ σ' : store) (s : SectionObj) :
  (forall l, l ∈ Sec.iter_options s -> options σ' !! l = options σ !! l) ->
  Sec.keys_of σ' s = Sec.keys_of σ s.
Proof.
  unfold Sec.keys_of. induction (Sec.iter_options s) as [|l ls IH]; intros H; [done|].
  simpl. rewrite (H l (list_elem_of_here _ _)).
  assert (forall l', l' ∈ ls -> options σ' !! l' = options σ !! l') as H'
    by (intros l' Hl'; apply H; by apply list_elem_of_further).
  destruct (_ <$> _); [f_equal|]; by apply IH.
Qed.

(** ** Adding a section *)

Lemma section_name_spec (σ : store) (l : loc) (s : SectionObj) :
  sections σ !! l = Some s -> Sec.name l σ = (Return (sec_name s), σ).
Proof. intros Hs. unfold Sec.name. run. by rewrite Hs. Qed.

Lemma doc_append_spec (σ : store) (self : loc) (d : DocumentObj) (block : ConfigContent) :
  documents σ !! self = Some d ->
  Doc.append self block σ
  = (Return tt, mkStore (options σ) (sections σ)
                  (<[self := mkDocument (doc_structure d ++ [block])]> (documents σ))).
Proof.
  intros Hd. unfold Doc.append, Doc.set_structure. run.
  rewrite Hd. simpl. by rewrite Hd.
Qed.

(** [add_section] on a Section object. *)
Lemma add_section_object (σ : store) (self l : loc) (d : DocumentObj) (s : SectionObj) :
  documents σ !! self = Some d ->
  sections σ !! l = Some s ->
  Doc.add_section self (PSection l) σ
  = if bool_decide (sec_name s ∈ Doc.names_of σ d)
    then (Raise (DuplicateSectionError (sec_name s)), σ)
    else (Return tt, mkStore (options σ) (sections σ)
                       (<[self := mkDocument (doc_structure d ++ [CC_Section l])]>
                          (documents σ))).
Proof.
  intros Hd Hs. unfold Doc.add_section, bind at 1, ret.
  unfold bind at 1. rewrite (section_name_spec _ _ _ Hs).
  unfold bind. rewrite (has_section_spec _ _ _ _ Hd).
  case_bool_decide; [done|]. by rewrite (doc_append_spec _ _ _ _ Hd).
Qed.

(** [add_section] on a string. *)
Lemma add_section_string (σ : store) (self : loc) (d : DocumentObj) (name : string) :
  documents σ !! self = Some d ->
  let l := fresh_section σ in
  let σ1 := mkStore (options σ) (<[l := Sec.__init__ name self]> (sections σ))
              (documents σ) in
  Doc.add_section self (PStr name) σ
  = if bool_decide (name ∈ Doc.names_of σ d)
    then (Raise (DuplicateSectionError name), σ1)
    else (Return tt, mkStore (options σ1) (sections σ1)
                       (<[self := mkDocument (doc_structure d ++ [CC_Section l])]>
                          (documents σ))).
Proof.
  intros Hd l σ1.
  assert (sections σ1 !! l = Some (Sec.__init__ name self)) as Hl
    by apply lookup_insert_eq.
  assert (documents σ1 !! self = Some d) as Hd1 by done.
  assert (Doc.names_of σ1 d = Doc.names_of σ d) as Hnames.
  { apply names_of_agree. intros l' Hl'. simpl. apply lookup_insert_ne.
    intros <-. by apply (fresh_section_not_held σ self d). }
  unfold Doc.add_section, bind at 1, new_section. fold l. fold σ1.
  unfold bind at 1. rewrite (section_name_spec _ _ _ Hl). simpl.
  unfold bind. rewrite (has_section_spec _ _ _ _ Hd1), Hnames.
  case_bool_decide; [done|]. by rewrite (doc_append_spec _ _ _ _ Hd1).
Qed.

(** C4: [Document.add_section] raises [DuplicateSectionError] for a name
    the document already has, raises an error for an argument that is
    neither a string nor a Section, leaves the block sequence of the
    document as it was whenever it raises, and otherwise appends the
    section at the end. *)
Theorem add_section_spec (σ : store) (self : loc) (d : DocumentObj) :
  documents σ !! self = Some d ->
  (forall name, name ∈ Doc.names_of σ d ->
     exists σ', Doc.add_section self (PStr name) σ
                = (Raise (DuplicateSectionError name), σ')) /\
  (forall l s, sections σ !! l = Some s -> sec_name s ∈ Doc.names_of σ d ->
     Doc.add_section self (PSection l) σ
     = (Raise (DuplicateSectionError (sec_name s)), σ)) /\
  (forall v, (forall name, v <> PStr name) -> (forall l, v <> PSection l) ->
     exists msg, Doc.add_section self v σ = (Raise (ValueError msg), σ)) /\
  (forall v e σ', Doc.add_section self v σ = (Raise e, σ') ->
     documents σ' !! self = Some d) /\
  (forall name, name ∉ Doc.names_of σ d ->
     exists l σ',
       Doc.add_section self (PStr name) σ = (Return tt, σ') /\
       sections σ !! l = None /\
       sections σ' !! l = Some (Sec.__init__ name self) /\
       documents σ' !! self = Some (mkDocument (doc_structure d ++ [CC_Section l]))) /\
  (forall l s, sections σ !! l = Some s -> sec_name s ∉ Doc.names_of σ d ->
     exists σ',
       Doc.add_section self (PSection l) σ = (Return tt, σ') /\
       sections σ' = sections σ /\
       documents σ' !! self = Some (mkDocument (doc_structure d ++ [CC_Section l]))).
Proof.
  intros Hd. repeat split.
  - intros name Hin. eexists. rewrite (add_section_string _ _ _ _ Hd).
    by rewrite bool_decide_eq_true_2.
  - intros l s Hs Hin. rewrite (add_section_object _ _ _ _ _ Hd Hs).
    by rewrite bool_decide_eq_true_2.
  - intros v Hstr Hsec. destruct v; try (eexists; reflexivity).
    + by destruct (Hstr s).
    + by destruct (Hsec l).
  - intros v e σ' Hrun. destruct v; try (injection Hrun as _ <-; done).
    + rewrite (add_section_string _ _ _ _ Hd) in Hrun.
      case_bool_decide; [|done]. by injection Hrun as _ <-.
    + destruct (sections σ !! l) as [s|] eqn:Hs.
      * rewrite (add_section_object _ _ _ _ _ Hd Hs) in Hrun.
        case_bool_decide; [|done]. by injection Hrun as _ <-.
      * unfold Doc.add_section, Sec.name in Hrun. run in Hrun.
        rewrite Hs in Hrun. by injection Hrun as _ <-.
  - intros name Hnot. exists (fresh_section σ). eexists.
    rewrite (add_section_string _ _ _ _ Hd), bool_decide_eq_false_2 by done.
    split; [done|]. split; [apply fresh_section_None|].
    split; simpl; apply lookup_insert_eq.
  - intros l s Hs Hnot. eexists.
    rewrite (add_section_object _ _ _ _ _ Hd Hs), bool_decide_eq_false_2 by done.
    split; [done|]. split; [done|]. simpl. apply lookup_insert_eq.
Qed.

Lemma add_section_spec_witness :
  (exists σ', Doc.add_section 0 (PStr "a") ex_store
              = (Raise (DuplicateSectionError "a"), σ')) /\
  Doc.add_section 0 (PSection 1) ex_store
  = (Raise (DuplicateSectionError "b"), ex_store) /\
  (exists msg, Doc.add_section 0 (PInt 7) ex_store = (Raise (ValueError msg), ex_store)) /\
  (exists l σ',
     Doc.add_section 0 (PStr "d") ex_store = (Return tt, σ') /\
     sections ex_store !! l = None /\
     sections σ' !! l = Some (Sec.__init__ "d" 0) /\
     documents σ' !! 0
     = Some (mkDocument
               [CC_Section 0; CC_Comment ["# end" +:+ LF]; CC_Section 1; CC_Section l])) /\
  (exists σ',
     Doc.add_section 0 (PSection 2) ex_store = (Return tt, σ') /\
     sections σ' = sections ex_store /\
     documents σ' !! 0
     = Some (mkDocument
               [CC_Section 0; CC_Comment ["# end" +:+ LF]; CC_Section 1; CC_Section 2])).
Proof.
  destruct (add_section_spec ex_store 0 _ eq_refl) as (Hdup & Hdup' & Hty & _ & Hnew & Hnew').
  split; [apply Hdup, (bool_decide_unpack _); vm_compute; exact I|].
  split; [apply (Hdup' 1 _ eq_refl), (bool_decide_unpack _); vm_compute; exact I|].
  split; [apply Hty; discriminate|].
  split; [apply Hnew, (bool_decide_unpack _); vm_compute; exact I|].
  apply (Hnew' 2 _ eq_refl), (bool_decide_unpack _). vm_compute. exact I.
Defined.

(** ** Looking an option up in a section *)

Lemma sec_contains_spec (σ : store) (self : loc) (s : SectionObj) (key : string) :
  sections σ !! self = Some s ->
  Sec.__contains__ self key σ = (Return (bool_decide (key ∈ Sec.keys_of σ s)), σ).
Proof.
  intros Hs. unfold Sec.__contains__. run. rewrite Hs.
  do 2 f_equal. case_bool_decide as Hk.
  - destruct (List.filter _ _) eqn:E; [|done].
    by apply keys_of_filter in E.
  - apply keys_of_filter in Hk. by rewrite Hk.
Qed.

Lemma sec_getitem_spec (σ : store) (self : loc) (s : SectionObj) (key : string) :
  sections σ !! self = Some s ->
  Sec.__getitem__ self key σ
  = match List.filter (key_is σ (optionxform key)) (Sec.iter_options s) with
    | l :: _ => (Return l, σ)
    | [] => (Raise (KeyError (optionxform key)), σ)
    end.
Proof.
  intros Hs. unfold Sec.__getitem__. run. rewrite Hs.
  by destruct (List.filter _ _).
Qed.

(** Bracket access normalizes the key: it returns the first option whose
    key is the normalized form of the key asked for, and raises
    [KeyError] when the section has none. *)
Lemma sec_getitem_normalized (σ : store) (self : loc) (s : SectionObj) (key : string) :
  sections σ !! self = Some s ->
  (optionxform key ∈ Sec.keys_of σ s ->
   exists l o, Sec.__getitem__ self key σ = (Return l, σ) /\
               l ∈ Sec.iter_options s /\
               options σ !! l = Some o /\ Option_key o = optionxform key) /\
  (optionxform key ∉ Sec.keys_of σ s ->
   Sec.__getitem__ self key σ = (Raise (KeyError (optionxform key)), σ)).
Proof.
  intros Hs. rewrite (sec_getitem_spec _ _ _ _ Hs). split.
  - intros Hin. destruct (List.filter _ _) as [|l ls] eqn:E.
    + by apply keys_of_filter in E.
    + assert (l ∈ List.filter (key_is σ (optionxform key)) (Sec.iter_options s)) as Hl
        by (rewrite E; left).
      apply list_elem_of_In, filter_In in Hl as [Hl Hk].
      apply key_is_true in Hk as (o & Ho & Hk).
      exists l, o. by rewrite <-list_elem_of_In in Hl.
  - intros Hnot. apply keys_of_filter in Hnot. by rewrite Hnot.
Qed.

(** [get] compares the keys of the options with the key as it was given. *)
Lemma sec_get_spec (σ : store) (self : loc) (s : SectionObj) (key : string)
    (default : pyval) :
  sections σ !! self = Some s ->
  Sec.get self key default σ
  = match List.filter (key_is σ key) (Sec.iter_options s) with
    | l :: _ => (Return (POption l), σ)
    | [] => (Return default, σ)
    end.
Proof.
  intros Hs. unfold Sec.get. run. rewrite Hs.
  by destruct (List.filter _ _).
Qed.

Lemma lower_ascii_idempotent (c : ascii) : lower_ascii (lower_ascii c) = lower_ascii c.
Proof. by destruct c as [[] [] [] [] [] [] [] []]. Qed.

Lemma optionxform_idempotent (key : string) :
  optionxform (optionxform key) = optionxform key.
Proof.
  unfold optionxform. induction key as [|c key IH]; simpl; [done|].
  by rewrite lower_ascii_idempotent, IH.
Qed.

(** On a key in normalized form [get] finds what bracket access finds. *)
Lemma sec_get_normalized_key (σ : store) (self : loc) (s : SectionObj) (key : string)
    (default : pyval) :
  sections σ !! self = Some s ->
  optionxform key = key ->
  Sec.get self key default σ
  = match Sec.__getitem__ self key σ with
    | (Return l, _) => (Return (POption l), σ)
    | (Raise _, _) => (Return default, σ)
    end.
Proof.
  intros Hs Hkey. rewrite (sec_get_spec _ _ _ _ _ Hs), (sec_getitem_spec _ _ _ _ Hs), Hkey.
  by destruct (List.filter _ _).
Qed.

(** On any other key [get] finds nothing, whatever the section holds. *)
Lemma sec_get_other_key (σ : store) (self : loc) (s : SectionObj) (key : string)
    (default : pyval) :
  sections σ !! self = Some s ->
  optionxform key <> key ->
  Sec.get self key default σ = (Return default, σ).
Proof.
  intros Hs Hkey. apply (section_get_absent _ _ s); [done|].
  intros (l & Hl & Ho)%list_elem_of_omap.
  destruct (options σ !! l) as [o|]; [|done]. injection Ho as Ho.
  apply Hkey. rewrite <-Ho. apply optionxform_idempotent.
Qed.

(** C5: bracket access and [get] disagree on a key that is not in
    normalized form.  In the section [a] of the small document, which
    holds the option [foo], [section["FOO"]] returns that option while
    [section.get("FOO")] reports absence; [get] finds it under [foo]
    only. *)
Theorem section_get_not_normalized :
  Sec.__getitem__ 0 "FOO" ex_store = (Return 0, ex_store) /\
  Sec.get 0 "FOO" PNone ex_store = (Return PNone, ex_store) /\
  Sec.get 0 "foo" PNone ex_store = (Return (POption 0), ex_store).
Proof. repeat split; vm_compute; reflexivity. Qed.

(** ** Deleting an option *)

(** C7: [__delitem__] compares the keys of the options with the key as it
    was given.  In the section [a] of the small document, which holds the
    option [foo], [del section["FOO"]] raises [KeyError] and leaves the
    section as it was, although [section["FOO"]] finds the option;
    [del section["foo"]] removes it. *)
Theorem section_delitem_not_normalized :
  Sec.__getitem__ 0 "FOO" ex_store = (Return 0, ex_store) /\
  Sec.__delitem__ 0 "FOO" ex_store = (Raise (KeyError "FOO"), ex_store) /\
  (exists σ',
     Sec.__delitem__ 0 "foo" ex_store = (Return tt, σ') /\
     sec_structure <$> sections σ' !! 0 = Some [SC_Space [LF]; SC_Option 1]).
Proof.
  split; [vm_compute; reflexivity|].
  split; [vm_compute; reflexivity|].
  eexists. split; [reflexivity|]. vm_compute. reflexivity.
Qed.

(** ** The first block that matches *)

Lemma enumerate_first_from {A : Type} (p : A -> bool) (pre : list A) (x : A)
    (post : list A) (k : nat) :
  Forall (fun e => p e = false) pre ->
  p x = true ->
  exists rest,
    map fst (List.filter (fun '(_, e) => p e)
                         (imap (fun i e => (k + i, e)) (pre ++ x :: post)))
    = (k + length pre) :: rest.
Proof.
  revert k. induction pre as [|a pre IH]; intros k Hpre Hx.
  - simpl. rewrite Hx. simpl. rewrite Nat.add_0_r. eauto.
  - inversion Hpre as [|? ? Ha Hpre']; subst. simpl. rewrite Ha.
    destruct (IH (S k) Hpre' Hx) as [rest Hrest]. exists rest.
    rewrite <-Nat.add_succ_comm, <-Hrest. do 2 f_equal.
    apply imap_ext. intros i e _. simpl. f_equal. lia.
Qed.

Lemma enumerate_first {A : Type} (p : A -> bool) (pre : list A) (x : A) (post : list A) :
  Forall (fun e => p e = false) pre ->
  p x = true ->
  exists rest,
    map fst (List.filter (fun '(_, e) => p e) (enumerate (pre ++ x :: post)))
    = length pre :: rest.
Proof. intros Hpre Hx. exact (enumerate_first_from p pre x post 0 Hpre Hx). Qed.

Lemma enumerate_none_from {A : Type} (p : A -> bool) (l : list A) (k : nat) :
  Forall (fun e => p e = false) l ->
  List.filter (fun '(_, e) => p e) (imap (fun i e => (k + i, e)) l) = [].
Proof.
  revert k. induction l as [|a l IH]; intros k Hl; [done|].
  inversion Hl as [|? ? Ha Hl']; subst. simpl. rewrite Ha.
  rewrite <-(IH (S k) Hl'). f_equal.
  apply imap_ext. intros i e _. simpl. f_equal. lia.
Qed.

Lemma enumerate_none {A : Type} (p : A -> bool) (l : list A) :
  Forall (fun e => p e = false) l ->
  List.filter (fun '(_, e) => p e) (enumerate l) = [].
Proof. exact (enumerate_none_from p l 0). Qed.

Lemma first_match_split {A : Type} (p : A -> bool) (l : list A) :
  existsb p l = true ->
  exists pre x post,
    l = pre ++ x :: post /\ Forall (fun e => p e = false) pre /\ p x = true.
Proof.
  induction l as [|a l IH]; simpl; [done|].
  destruct (p a) eqn:Ha.
  - intros _. by exists [], a, l.
  - simpl. intros (pre & x & post & -> & Hpre & Hx)%IH.
    exists (a :: pre), x, post. split; [done|]. split; [|done]. by constructor.
Qed.

Lemma list_index_first {A : Type} `{EqDecision A} (x : A) (pre post : list A) :
  x ∉ pre -> list_index x (pre ++ x :: post) = Some (length pre).
Proof.
  induction pre as [|a pre IH]; intros Hx; simpl.
  - by rewrite decide_True.
  - rewrite decide_False by (intros ->; apply Hx; left).
    rewrite IH; [done|]. intros H. apply Hx. by right.
Qed.

Lemma delete_middle {A : Type} (pre post : list A) (x : A) :
  delete (length pre) (pre ++ x :: post) = pre ++ post.
Proof. induction pre as [|a pre IH]; simpl; [done|]. by rewrite IH. Qed.

Lemma list_insert_at_middle {A : Type} (pre post : list A) (x : A) :
  list_insert_at (length pre) x (pre ++ post) = pre ++ x :: post.
Proof.
  unfold list_insert_at.
  by rewrite take_app_length, drop_app_length.
Qed.

(** ** Putting a section under a key *)

Lemma doc_contains_spec (σ : store) (self : loc) (d : DocumentObj) (key : string) :
  documents σ !! self = Some d ->
  Doc.__contains__ self key σ = (Return (bool_decide (key ∈ Doc.names_of σ d)), σ).
Proof. exact (has_section_spec σ self d key). Qed.

Lemma get_section_idx_first (σ : store) (self : loc) (d : DocumentObj) (name : string)
    (pre : list ConfigContent) (l : loc) (post : list ConfigContent) :
  documents σ !! self = Some d ->
  doc_structure d = pre ++ CC_Section l :: post ->
  Forall (fun e => Doc.is_section_with_name σ name e = false) pre ->
  Doc.name_is σ name l = true ->
  Doc._get_section_idx self name σ = (Return (length pre), σ).
Proof.
  intros Hd Hsplit Hpre Hl. unfold Doc._get_section_idx. run. rewrite Hd, Hsplit.
  destruct (enumerate_first (Doc.is_section_with_name σ name) pre (CC_Section l) post
              Hpre Hl) as [rest ->].
  done.
Qed.

Lemma doc_del_at_spec (σ : store) (self : loc) (d : DocumentObj) (idx : nat) :
  documents σ !! self = Some d ->
  idx < length (doc_structure d) ->
  Doc.del_at self idx σ
  = (Return tt, mkStore (options σ) (sections σ)
                  (<[self := mkDocument (delete idx (doc_structure d))]> (documents σ))).
Proof.
  intros Hd Hlt. unfold Doc.del_at, Doc.set_structure. run. rewrite Hd.
  apply Nat.ltb_lt in Hlt. rewrite Hlt. simpl. by rewrite Hd.
Qed.

Lemma doc_insert_spec (σ : store) (self : loc) (d : DocumentObj) (idx : nat)
    (block : ConfigContent) :
  documents σ !! self = Some d ->
  Doc.insert self idx block σ
  = (Return tt, mkStore (options σ) (sections σ)
                  (<[self := mkDocument (list_insert_at idx block (doc_structure d))]>
                     (documents σ))).
Proof.
  intros Hd. unfold Doc.insert, Doc.set_structure. run.
  rewrite Hd. simpl. by rewrite Hd.
Qed.

Lemma set_name_spec (σ : store) (l : loc) (s : SectionObj) (value : string) :
  sections σ !! l = Some s ->
  Sec.set_name l value σ
  = (Return tt,
     mkStore (options σ)
       (<[l := mkSection (sec_container s) value (sec_structure s) true (sec_lines s)]>
          (sections σ))
       (documents σ)).
Proof. intros Hs. unfold Sec.set_name. run. by rewrite Hs. Qed.

(** The names of a document with a section of the key, split at the first
    such section. *)
Lemma names_of_split (σ : store) (d : DocumentObj) (key : string) :
  key ∈ Doc.names_of σ d ->
  exists pre l post,
    doc_structure d = pre ++ CC_Section l :: post /\
    Forall (fun e => Doc.is_section_with_name σ key e = false) pre /\
    Doc.name_is σ key l = true.
Proof.
  intros Hin.
  destruct (first_match_split (Doc.is_section_with_name σ key) (doc_structure d))
    as (pre & x & post & Hsplit & Hpre & Hx).
  - apply existsb_exists.
    apply list_elem_of_omap in Hin as (l & Hl & Hname).
    apply list_elem_of_omap in Hl as (e & He & Hel).
    exists e. split; [by apply list_elem_of_In|].
    destruct e; try done. injection Hel as ->. simpl.
    apply name_is_true. destruct (sections σ !! l) as [s|]; [|done].
    injection Hname as <-. eauto.
  - destruct x as [l| |]; try done. by exists pre, l, post.
Qed.

(** [Document.__setitem__] with a Section object as value. *)
Lemma doc_setitem_run (σ : store) (self v : loc) (d : DocumentObj) (s : SectionObj)
    (key : string) :
  documents σ !! self = Some d ->
  sections σ !! v = Some s ->
  let s' := mkSection (sec_container s) key (sec_structure s) true (sec_lines s) in
  let σ1 := mkStore (options σ) (<[v := s']> (sections σ)) (documents σ) in
  (key ∉ Doc.names_of σ d ->
   Doc.__setitem__ self key (PSection v) σ
   = if bool_decide (v ∈ Doc.iter_sections d)
     then (Raise (DuplicateSectionError key), σ1)
     else (Return tt,
           mkStore (options σ) (<[v := s']> (sections σ))
             (<[self := mkDocument (doc_structure d ++ [CC_Section v])]> (documents σ)))) /\
  (forall pre l post,
     doc_structure d = pre ++ CC_Section l :: post ->
     Forall (fun e => Doc.is_section_with_name σ key e = false) pre ->
     Doc.name_is σ key l = true ->
     Doc.__setitem__ self key (PSection v) σ
     = (Return tt,
        mkStore (options σ) (sections σ)
          (<[self := mkDocument (pre ++ CC_Section v :: post)]> (documents σ)))).
Proof.
  intros Hd Hs s' σ1. split.
  - intros Hnot. unfold Doc.__setitem__, bind at 1.
    rewrite (doc_contains_spec _ _ _ _ Hd), bool_decide_eq_false_2 by done.
    unfold bind. rewrite (set_name_spec _ _ _ _ Hs). fold s'. fold σ1.
    assert (sections σ1 !! v = Some s') as Hs1 by apply lookup_insert_eq.
    rewrite (add_section_object σ1 self v d s' Hd Hs1). simpl.
    destruct (decide (v ∈ Doc.iter_sections d)) as [Hheld|Hheld].
    + rewrite (bool_decide_eq_true_2 (v ∈ _)) by done.
      rewrite bool_decide_eq_true_2; [done|].
      apply list_elem_of_omap. exists v. split; [done|]. by rewrite Hs1.
    + rewrite (bool_decide_eq_false_2 (v ∈ _)) by done.
      rewrite bool_decide_eq_false_2; [done|].
      rewrite (names_of_agree σ σ1 d); [done|].
      intros l Hl. simpl. apply lookup_insert_ne. by intros ->.
  - intros pre l post Hsplit Hpre Hl.
    assert (key ∈ Doc.names_of σ d) as Hin.
    { apply name_is_true in Hl as (sl & Hsl & Hname).
      apply list_elem_of_omap. exists l. split; [|by rewrite Hsl, <-Hname].
      apply list_elem_of_omap. exists (CC_Section l). split; [|done].
      rewrite Hsplit. apply elem_of_app. right. left. }
    unfold Doc.__setitem__, bind at 1.
    rewrite (doc_contains_spec _ _ _ _ Hd), bool_decide_eq_true_2 by done.
    unfold bind at 1.
    rewrite (get_section_idx_first _ _ _ _ _ _ _ Hd Hsplit Hpre Hl).
    unfold bind. rewrite (doc_del_at_spec _ _ _ _ Hd).
    2:{ rewrite Hsplit, length_app. simpl. lia. }
    erewrite doc_insert_spec by (simpl; apply lookup_insert_eq).
    simpl. rewrite Hsplit, delete_middle, list_insert_at_middle.
    by rewrite insert_insert_eq.
Qed.

(** C9, as far as it holds: [Document.__setitem__] with a key that is not
    yet a section name renames the Section object it was given to the key,
    which marks it dirty, whatever happens next; it then appends that
    object to the document, provided the document does not hold it
    already.  With a key that names a section, the object is put in the
    place of the first section of that name and no section is renamed. *)
Theorem doc_setitem_renames_argument (σ : store) (self v : loc) (d : DocumentObj)
    (s : SectionObj) (key : string) :
  documents σ !! self = Some d ->
  sections σ !! v = Some s ->
  let renamed := mkSection (sec_container s) key (sec_structure s) true (sec_lines s) in
  (key ∉ Doc.names_of σ d ->
   sections (Doc.__setitem__ self key (PSection v) σ).2 !! v = Some renamed /\
   Block_updated (sec_updated renamed) (sec_lines renamed) = true /\
   (v ∉ Doc.iter_sections d ->
    exists σ',
      Doc.__setitem__ self key (PSection v) σ = (Return tt, σ') /\
      documents σ' !! self = Some (mkDocument (doc_structure d ++ [CC_Section v])))) /\
  (key ∈ Doc.names_of σ d ->
   exists pre l post σ',
     doc_structure d = pre ++ CC_Section l :: post /\
     Forall (fun e => Doc.is_section_with_name σ key e = false) pre /\
     Doc.name_is σ key l = true /\
     Doc.__setitem__ self key (PSection v) σ = (Return tt, σ') /\
     documents σ' !! self = Some (mkDocument (pre ++ CC_Section v :: post)) /\
     sections σ' = sections σ).
Proof.
  intros Hd Hs renamed.
  destruct (doc_setitem_run σ self v d s key Hd Hs) as [Hnew Hold]. split.
  - intros Hnot. rewrite (Hnew Hnot). split; [|split; [done|]].
    + case_bool_decide; simpl; apply lookup_insert_eq.
    + intros Hfree. rewrite bool_decide_eq_false_2 by done.
      eexists. split; [done|]. simpl. apply lookup_insert_eq.
  - intros Hin. destruct (names_of_split σ d key Hin) as (pre & l & post & H1 & H2 & H3).
    exists pre, l, post. eexists. split; [done|]. split; [done|]. split; [done|].
    split; [exact (Hold pre l post H1 H2 H3)|]. split; [|done].
    simpl. apply lookup_insert_eq.
Qed.

Lemma doc_setitem_renames_argument_witness :
  sections (Doc.__setitem__ 0 "z" (PSection 2) ex_store).2 !! 2
  = Some (mkSection 0 "z" [] true []) /\
  (exists σ',
     Doc.__setitem__ 0 "z" (PSection 2) ex_store = (Return tt, σ') /\
     documents σ' !! 0
     = Some (mkDocument
               [CC_Section 0; CC_Comment ["# end" +:+ LF]; CC_Section 1; CC_Section 2])) /\
  (exists pre l post σ',
     [CC_Section 0; CC_Comment ["# end" +:+ LF]; CC_Section 1] = pre ++ CC_Section l :: post /\
     Forall (fun e => Doc.is_section_with_name ex_store "a" e = false) pre /\
     Doc.name_is ex_store "a" l = true /\
     Doc.__setitem__ 0 "a" (PSection 2) ex_store = (Return tt, σ') /\
     documents σ' !! 0 = Some (mkDocument (pre ++ CC_Section 2 :: post)) /\
     sections σ' = sections ex_store).
Proof.
  destruct (doc_setitem_renames_argument ex_store 0 2 _ _ "z" eq_refl eq_refl)
    as [Hnew _].
  destruct Hnew as (Hname & _ & Happ);
    [apply (bool_decide_unpack _); vm_compute; exact I|].
  split; [exact Hname|].
  split; [apply Happ, (bool_decide_unpack _); vm_compute; exact I|].
  destruct (doc_setitem_renames_argument ex_store 0 2 _ _ "a" eq_refl eq_refl)
    as [_ Hold].
  apply Hold, (bool_decide_unpack _). vm_compute. exact I.
Defined.

(** C9, as stated, fails when the document already holds the Section
    object: [doc["z"] = doc["a"]] on the small document renames the
    section and then raises [DuplicateSectionError]; nothing is appended. *)
Lemma doc_setitem_held_section_not_appended :
  ("z" ∉ Doc.names_of ex_store
           (mkDocument [CC_Section 0; CC_Comment ["# end" +:+ LF]; CC_Section 1])) /\
  (exists σ',
     Doc.__setitem__ 0 "z" (PSection 0) ex_store = (Raise (DuplicateSectionError "z"), σ') /\
     documents σ' !! 0
     = Some (mkDocument [CC_Section 0; CC_Comment ["# end" +:+ LF]; CC_Section 1]) /\
     sec_name <$> sections σ' !! 0 = Some "z").
Proof.
  split; [apply (bool_decide_unpack _); vm_compute; exact I|].
  eexists. split; [reflexivity|]. split; vm_compute; reflexivity.
Qed.

(** ** Rendering *)

Lemma append_nil_r (s : string) : s +:+ "" = s.
Proof.
  induction s as [|c s IH]; [done|].
  change (String c (s +:+ "") = String c s). by rewrite IH.
Qed.

Lemma append_assoc (s1 s2 s3 : string) : (s1 +:+ s2) +:+ s3 = s1 +:+ (s2 +:+ s3).
Proof.
  induction s1 as [|c s1 IH]; [done|].
  change (String c ((s1 +:+ s2) +:+ s3) = String c (s1 +:+ (s2 +:+ s3))).
  by rewrite IH.
Qed.

Lemma join_app (l1 l2 : list string) : join (l1 ++ l2) = join l1 +:+ join l2.
Proof.
  induction l1 as [|x l1 IH]; simpl; [done|].
  by rewrite IH, append_assoc.
Qed.

Lemma join_snoc (l : list string) (x : string) : join (l ++ [x]) = join l +:+ x.
Proof. rewrite join_app. simpl. by rewrite append_nil_r. Qed.

Section TextProperties.
Variable option_text : OptionObj -> string.

Lemma str_entry_spec (σ : store) (entry : SectionContent) :
  Forall (fun l => is_Some (options σ !! l)) (option_refs [entry]) ->
  Sec.str_entry option_text entry σ = (Return (entry_text option_text σ entry), σ).
Proof.
  destruct entry as [l| |]; simpl; [|done..].
  intros [[o Ho] _]%Forall_cons. run. by rewrite Ho.
Qed.

Lemma str_entries_spec (σ : store) (entries : list SectionContent) (acc : string) :
  Forall (fun l => is_Some (options σ !! l)) (option_refs entries) ->
  foldM (fun s entry => t <- Sec.str_entry option_text entry ;; ret (s +:+ t))
        entries acc σ
  = (Return (acc +:+ join (map (entry_text option_text σ) entries)), σ).
Proof.
  revert acc. induction entries as [|e es IH]; intros acc Hheld; simpl.
  - by rewrite append_nil_r.
  - assert (Forall (fun l => is_Some (options σ !! l)) (option_refs [e])
            /\ Forall (fun l => is_Some (options σ !! l)) (option_refs es)) as [He Hes].
    { destruct e; simpl in *; [|by split; [constructor|]..].
      apply Forall_cons in Hheld as [? ?]. split; [by repeat constructor|done]. }
    unfold bind. rewrite (str_entry_spec _ _ He). simpl.
    rewrite (IH _ Hes). by rewrite append_assoc.
Qed.

Lemma sec_str_spec (σ : store) (self : loc) (s : SectionObj) :
  sections σ !! self = Some s ->
  section_closed σ s ->
  Sec.__str__ option_text self σ = (Return (section_text option_text σ s), σ).
Proof.
  intros Hs Hheld. unfold Sec.__str__, bind, read_section. rewrite Hs.
  rewrite (str_entries_spec _ _ _ Hheld). unfold section_text.
  by destruct (Block_updated _ _).
Qed.

(** C8: the [name] setter sets the dirty flag of a section, and a newly
    constructed section has it set; a section whose flag is set renders
    as the header line [[name]] followed by the texts of its blocks, and a
    section whose flag is not set renders its header from the captured
    text. *)
Theorem section_dirty_flag (σ : store) (self : loc) (s : SectionObj) :
  sections σ !! self = Some s ->
  section_closed σ s ->
  (forall value,
     exists σ' s',
       Sec.set_name self value σ = (Return tt, σ') /\
       sections σ' !! self = Some s' /\
       sec_name s' = value /\
       Block_updated (sec_updated s') (sec_lines s') = true) /\
  (forall name container,
     Block_updated (sec_updated (Sec.__init__ name container))
                   (sec_lines (Sec.__init__ name container)) = true) /\
  (Block_updated (sec_updated s) (sec_lines s) = true ->
   Sec.__str__ option_text self σ
   = (Return (("[" +:+ sec_name s +:+ "]" +:+ LF)
              +:+ join (map (entry_text option_text σ) (sec_structure s))), σ)) /\
  (Block_updated (sec_updated s) (sec_lines s) = false ->
   Sec.__str__ option_text self σ
   = (Return (join (sec_lines s)
              +:+ join (map (entry_text option_text σ) (sec_structure s))), σ)).
Proof.
  intros Hs Hheld. split; [|split; [done|]].
  - intros value. rewrite (set_name_spec _ _ _ _ Hs). do 2 eexists.
    split; [done|]. split; [apply lookup_insert_eq|]. done.
  - rewrite (sec_str_spec _ _ _ Hs Hheld). unfold section_text.
    split; by intros ->.
Qed.
End TextProperties.

Lemma section_dirty_flag_witness :
  (exists σ' s',
     Sec.set_name 0 "renamed" ex_store = (Return tt, σ') /\
     sections σ' !! 0 = Some s' /\
     sec_name s' = "renamed" /\
     Block_updated (sec_updated s') (sec_lines s') = true) /\
  Sec.__str__ ex_option_text 2 ex_store = (Return ("[c]" +:+ LF), ex_store) /\
  Sec.__str__ ex_option_text 0 ex_store
  = (Return ("[a]" +:+ LF +:+ "foo = 1" +:+ LF +:+ LF +:+ "bar = 2" +:+ LF), ex_store).
Proof.
  assert (forall l s, sections ex_store !! l = Some s -> l < 3 -> section_closed ex_store s)
    as Hheld.
  { intros l s Hs Hl. destruct l as [|[|[|l]]]; [..|lia]; injection Hs as <-;
      repeat constructor; by eexists. }
  split; [|split].
  - exact (proj1 (section_dirty_flag ex_option_text ex_store 0 _ eq_refl
                    (Hheld 0 _ eq_refl ltac:(lia))) "renamed").
  - exact (proj1 (proj2 (proj2 (section_dirty_flag ex_option_text ex_store 2 _ eq_refl
                                  (Hheld 2 _ eq_refl ltac:(lia))))) eq_refl).
  - exact (proj2 (proj2 (proj2 (section_dirty_flag ex_option_text ex_store 0 _ eq_refl
                                  (Hheld 0 _ eq_refl ltac:(lia))))) eq_refl).
Defined.

(** ** Setting an option of a section *)

Lemma bind_Return {A B : Type} (m : M A) (k : A -> M B) (σ σ' : store) (a : A) :
  m σ = (Return a, σ') -> bind m k σ = k a σ'.
Proof. intros H. unfold bind. by rewrite H. Qed.

Lemma bind_Raise {A B : Type} (m : M A) (k : A -> M B) (σ σ' : store) (e : exn) :
  m σ = (Raise e, σ') -> bind m k σ = (Raise e, σ').
Proof. intros H. unfold bind. by rewrite H. Qed.

Lemma option_refs_app (l1 l2 : list SectionContent) :
  option_refs (l1 ++ l2) = option_refs l1 ++ option_refs l2.
Proof. apply omap_app. Qed.

Lemma filter_key_option_refs (σ : store) (key : string) (blocks : list SectionContent) :
  Forall (fun e => Sec.is_option_with_key σ key e = false) blocks ->
  List.filter (key_is σ key) (option_refs blocks) = [].
Proof.
  induction blocks as [|e es IH]; intros H; [done|].
  inversion H as [|? ? He Hes]; subst.
  destruct e as [l| |]; simpl in *; [|by apply IH..].
  rewrite He. by apply IH.
Qed.

Lemma keys_of_split (σ : store) (s : SectionObj) (key : string) :
  key ∈ Sec.keys_of σ s ->
  exists pre l o post,
    sec_structure s = pre ++ SC_Option l :: post /\
    Forall (fun e => Sec.is_option_with_key σ key e = false) pre /\
    options σ !! l = Some o /\ Option_key o = key.
Proof.
  intros Hin.
  destruct (first_match_split (Sec.is_option_with_key σ key) (sec_structure s))
    as (pre & x & post & Hsplit & Hpre & Hx).
  - apply existsb_exists.
    apply list_elem_of_omap in Hin as (l & Hl & Hkey).
    apply list_elem_of_omap in Hl as (e & He & Hel).
    exists e. split; [by apply list_elem_of_In|].
    destruct e; try done. injection Hel as ->. simpl.
    apply key_is_true. destruct (options σ !! l) as [o|]; [|done].
    injection Hkey as <-. eauto.
  - destruct x as [l| |]; try done. simpl in Hx.
    apply key_is_true in Hx as (o & Ho & Hk). by exists pre, l, o, post.
Qed.

Lemma split_keys_of (σ : store) (s : SectionObj) (key : string)
    (pre : list SectionContent) (l : loc) (o : OptionObj) (post : list SectionContent) :
  sec_structure s = pre ++ SC_Option l :: post ->
  options σ !! l = Some o ->
  Option_key o = key ->
  key ∈ Sec.keys_of σ s.
Proof.
  intros Hsplit Ho Hk. apply list_elem_of_omap. exists l.
  split; [|by rewrite Ho, <-Hk].
  apply list_elem_of_omap. exists (SC_Option l). split; [|done].
  unfold iter_blocks. rewrite Hsplit. apply elem_of_app. right. left.
Qed.

Lemma sec_getitem_first (σ : store) (self : loc) (s : SectionObj) (key : string)
    (pre : list SectionContent) (l : loc) (o : OptionObj) (post : list SectionContent) :
  sections σ !! self = Some s ->
  sec_structure s = pre ++ SC_Option l :: post ->
  Forall (fun e => Sec.is_option_with_key σ (optionxform key) e = false) pre ->
  options σ !! l = Some o ->
  Option_key o = optionxform key ->
  Sec.__getitem__ self key σ = (Return l, σ).
Proof.
  intros Hs Hsplit Hpre Ho Hk. rewrite (sec_getitem_spec _ _ _ _ Hs).
  unfold Sec.iter_options, iter_blocks. rewrite Hsplit, option_refs_app.
  rewrite List.filter_app, (filter_key_option_refs _ _ _ Hpre). simpl.
  assert (key_is σ (optionxform key) l = true) as -> by (apply key_is_true; eauto).
  done.
Qed.

Lemma container_idx_spec (σ : store) (l c : loc) (o : OptionObj) (s : SectionObj)
    (pre post : list SectionContent) :
  options σ !! l = Some o ->
  opt_container o = Some c ->
  sections σ !! c = Some s ->
  sec_structure s = pre ++ SC_Option l :: post ->
  SC_Option l ∉ pre ->
  container_idx l σ = (Return (length pre), σ).
Proof.
  intros Ho Hc Hs Hsplit Hpre. unfold container_idx. run.
  rewrite Ho, Hc. simpl. rewrite Hs, Hsplit.
  by rewrite (list_index_first _ _ _ Hpre).
Qed.

Lemma sec_append_spec (σ : store) (self : loc) (s : SectionObj) (block : SectionContent) :
  sections σ !! self = Some s ->
  Sec.append self block σ
  = (Return tt,
     mkStore (options σ)
       (<[self := mkSection (sec_container s) (sec_name s) (sec_structure s ++ [block])
                    (sec_updated s) (sec_lines s)]> (sections σ))
       (documents σ)).
Proof.
  intros Hs. unfold Sec.append, Sec.set_structure. run.
  rewrite Hs. simpl. by rewrite Hs.
Qed.

Lemma sec_del_at_spec (σ : store) (self : loc) (s : SectionObj) (idx : nat) :
  sections σ !! self = Some s ->
  idx < length (sec_structure s) ->
  Sec.del_at self idx σ
  = (Return tt,
     mkStore (options σ)
       (<[self := mkSection (sec_container s) (sec_name s) (delete idx (sec_structure s))
                    (sec_updated s) (sec_lines s)]> (sections σ))
       (documents σ)).
Proof.
  intros Hs Hlt. unfold Sec.del_at, Sec.set_structure. run. rewrite Hs.
  apply Nat.ltb_lt in Hlt. rewrite Hlt. simpl. by rewrite Hs.
Qed.

Lemma sec_insert_spec (σ : store) (self : loc) (s : SectionObj) (idx : nat)
    (block : SectionContent) :
  sections σ !! self = Some s ->
  Sec.insert self idx block σ
  = (Return tt,
     mkStore (options σ)
       (<[self := mkSection (sec_container s) (sec_name s)
                    (list_insert_at idx block (sec_structure s))
                    (sec_updated s) (sec_lines s)]> (sections σ))
       (documents σ)).
Proof.
  intros Hs. unfold Sec.insert, Sec.set_structure. run.
  rewrite Hs. simpl. by rewrite Hs.
Qed.

Lemma set_value_spec (σ : store) (l : loc) (o : OptionObj) (value : pyval) :
  options σ !! l = Some o ->
  Option_set_value l value σ
  = (Return tt,
     mkStore (<[l := mkOption (opt_container o) (opt_lines o) true (opt_key o) value]>
                (options σ))
       (sections σ) (documents σ)).
Proof. intros Ho. unfold Option_set_value. run. by rewrite Ho. Qed.

(** [__delitem__] removes the first option whose key is the key as it was
    given, and raises [KeyError], changing nothing, when there is none. *)
Lemma sec_delitem_spec (σ : store) (self : loc) (s : SectionObj) (key : string) :
  sections σ !! self = Some s ->
  (Forall (fun e => Sec.is_option_with_key σ key e = false) (sec_structure s) ->
   Sec.__delitem__ self key σ = (Raise (KeyError key), σ)) /\
  (forall pre l post,
     sec_structure s = pre ++ SC_Option l :: post ->
     Forall (fun e => Sec.is_option_with_key σ key e = false) pre ->
     key_is σ key l = true ->
     Sec.__delitem__ self key σ
     = (Return tt,
        mkStore (options σ)
          (<[self := mkSection (sec_container s) (sec_name s) (pre ++ post)
                       (sec_updated s) (sec_lines s)]> (sections σ))
          (documents σ))).
Proof.
  intros Hs. split.
  - intros Hnone. unfold Sec.__delitem__, try_except, Sec._get_option_idx, bind at 1.
    unfold bind, read_section, get_store. rewrite Hs.
    by rewrite (enumerate_none _ _ Hnone).
  - intros pre l post Hsplit Hpre Hl.
    unfold Sec.__delitem__, try_except, Sec._get_option_idx, bind at 1.
    unfold bind at 1, read_section. rewrite Hs. unfold bind at 1, get_store.
    rewrite Hsplit.
    destruct (enumerate_first (Sec.is_option_with_key σ key) pre (SC_Option l) post
                Hpre Hl) as [rest ->].
    simpl. rewrite (sec_del_at_spec _ _ _ _ Hs).
    + by rewrite Hsplit, delete_middle.
    + rewrite Hsplit, length_app. simpl. lia.
Qed.

(** The key exists and the value is an Option of that key: the Option
    takes the place of the existing one. *)
Lemma sec_setitem_replace (σ : store) (self : loc) (s : SectionObj) (key : string)
    (pre : list SectionContent) (l : loc) (o : OptionObj) (post : list SectionContent)
    (v : loc) (vo : OptionObj) :
  sections σ !! self = Some s ->
  sec_structure s = pre ++ SC_Option l :: post ->
  Forall (fun e => Sec.is_option_with_key σ (optionxform key) e = false) pre ->
  options σ !! l = Some o ->
  Option_key o = optionxform key ->
  opt_container o = Some self ->
  options σ !! v = Some vo ->
  Option_key vo = key ->
  Sec.__setitem__ self key (POption v) σ
  = (Return tt,
     mkStore (options σ)
       (<[self := mkSection (sec_container s) (sec_name s) (pre ++ SC_Option v :: post)
                    (sec_updated s) (sec_lines s)]> (sections σ))
       (documents σ)).
Proof.
  intros Hs Hsplit Hpre Ho Hk Hc Hv Hvk.
  assert (SC_Option l ∉ pre) as Hfirst.
  { intros Hin. rewrite Forall_forall in Hpre. specialize (Hpre _ Hin). simpl in Hpre.
    assert (key_is σ (optionxform key) l = true) by (apply key_is_true; eauto).
    congruence. }
  unfold Sec.__setitem__.
  rewrite (bind_Return _ _ _ _ _ (sec_contains_spec _ _ _ _ Hs)).
  rewrite bool_decide_eq_true_2 by (by eapply split_keys_of).
  unfold bind at 1, read_option. rewrite Hv, Hvk, String.eqb_refl. simpl.
  rewrite (bind_Return _ _ _ _ _ (sec_getitem_first _ _ _ _ _ _ _ _ Hs Hsplit Hpre Ho Hk)).
  rewrite (bind_Return _ _ _ _ _ (container_idx_spec _ _ _ _ _ _ _ Ho Hc Hs Hsplit Hfirst)).
  erewrite bind_Return.
  2:{ apply (sec_del_at_spec _ _ _ _ Hs). rewrite Hsplit, length_app. simpl. lia. }
  erewrite sec_insert_spec by (simpl; apply lookup_insert_eq).
  simpl. rewrite Hsplit, delete_middle, list_insert_at_middle.
  by rewrite insert_insert_eq.
Qed.

(** The key exists and the value is an Option of another key. *)
Lemma sec_setitem_mismatch (σ : store) (self : loc) (s : SectionObj) (key : string)
    (v : loc) (vo : OptionObj) :
  sections σ !! self = Some s ->
  optionxform key ∈ Sec.keys_of σ s ->
  options σ !! v = Some vo ->
  Option_key vo <> key ->
  Sec.__setitem__ self key (POption v) σ
  = (Raise (ValueError "Set key does not equal option key"), σ).
Proof.
  intros Hs Hin Hv Hvk. unfold Sec.__setitem__.
  rewrite (bind_Return _ _ _ _ _ (sec_contains_spec _ _ _ _ Hs)).
  rewrite bool_decide_eq_true_2 by done.
  unfold bind at 1, read_option. rewrite Hv.
  apply String.eqb_neq in Hvk. by rewrite Hvk.
Qed.

(** The key exists and the value is not an Option: the value of the
    existing Option is set. *)
Lemma sec_setitem_in_place (σ : store) (self : loc) (s : SectionObj) (key : string)
    (l : loc) (o : OptionObj) (value : pyval) :
  sections σ !! self = Some s ->
  optionxform key ∈ Sec.keys_of σ s ->
  Sec.__getitem__ self key σ = (Return l, σ) ->
  options σ !! l = Some o ->
  (forall v, value <> POption v) ->
  Sec.__setitem__ self key value σ
  = (Return tt,
     mkStore (<[l := mkOption (opt_container o) (opt_lines o) true (opt_key o) value]>
                (options σ))
       (sections σ) (documents σ)).
Proof.
  intros Hs Hin Hget Ho Hval. unfold Sec.__setitem__.
  rewrite (bind_Return _ _ _ _ _ (sec_contains_spec _ _ _ _ Hs)).
  rewrite bool_decide_eq_true_2 by done.
  destruct value; try (by rewrite (bind_Return _ _ _ _ _ Hget), (set_value_spec _ _ _ _ Ho)).
  by destruct (Hval l0).
Qed.

(** The key does not exist: an Option is appended, the one given or a
    new one. *)
Lemma sec_setitem_append (σ : store) (self : loc) (s : SectionObj) (key : string)
    (value : pyval) :
  sections σ !! self = Some s ->
  optionxform key ∉ Sec.keys_of σ s ->
  Sec.__setitem__ self key value σ
  = match value with
    | POption v =>
        (Return tt,
         mkStore (options σ)
           (<[self := mkSection (sec_container s) (sec_name s)
                        (sec_structure s ++ [SC_Option v])
                        (sec_updated s) (sec_lines s)]> (sections σ))
           (documents σ))
    | _ =>
        (Return tt,
         mkStore (<[fresh_option σ := mkOption (Some self) [] true key value]> (options σ))
           (<[self := mkSection (sec_container s) (sec_name s)
                        (sec_structure s ++ [SC_Option (fresh_option σ)])
                        (sec_updated s) (sec_lines s)]> (sections σ))
           (documents σ))
    end.
Proof.
  intros Hs Hnot. unfold Sec.__setitem__.
  rewrite (bind_Return _ _ _ _ _ (sec_contains_spec _ _ _ _ Hs)).
  rewrite bool_decide_eq_false_2 by done.
  destruct value;
    try (unfold bind at 1; unfold bind at 1; unfold new_option;
         erewrite bind_Return
           by (apply set_value_spec; simpl; apply lookup_insert_eq);
         unfold ret; erewrite sec_append_spec by (simpl; exact Hs);
         simpl; by rewrite insert_insert_eq).
  unfold bind at 1, ret. by rewrite (sec_append_spec _ _ _ _ Hs).
Qed.




(** ** Uniqueness of names and keys *)

Lemma keys_of_snoc (σ σ' : store) (s s' : SectionObj) (l : loc) (o : OptionObj) :
  sec_structure s' = sec_structure s ++ [SC_Option l] ->
  options σ' !! l = Some o ->
  (forall l', l' ∈ Sec.iter_options s -> options σ' !! l' = options σ !! l') ->
  Sec.keys_of σ' s' = Sec.keys_of σ s ++ [Option_key o].
Proof.
  intros Hstr Ho Hagree.
  rewrite <-(keys_of_agree σ σ' s Hagree).
  unfold Sec.keys_of, Sec.iter_options, iter_blocks.
  rewrite Hstr, option_refs_app, omap_app. simpl. by rewrite Ho.
Qed.

Lemma NoDup_snoc_fresh {A : Type} (l : list A) (x : A) :
  NoDup l -> x ∉ l -> NoDup (l ++ [x]).
Proof.
  intros Hl Hx. apply NoDup_app. split; [done|]. split.
  - intros y Hy ->%list_elem_of_singleton. done.
  - apply NoDup_singleton.
Qed.

Lemma names_of_replace (σ : store) (pre post : list ConfigContent) (l v : loc)
    (key : string) (s : SectionObj) :
  Doc.name_is σ key l = true ->
  sections σ !! v = Some s ->
  sec_name s = key ->
  Doc.names_of σ (mkDocument (pre ++ CC_Section v :: post))
  = Doc.names_of σ (mkDocument (pre ++ CC_Section l :: post)).
Proof.
  intros (sl & Hsl & Hname)%name_is_true Hs Hkey.
  unfold Doc.names_of, Doc.iter_sections. cbn [doc_structure].
  induction pre as [|e pre IH]; simpl.
  - rewrite Hs, Hsl. simpl. by rewrite Hname, Hkey.
  - destruct e as [l0| |]; simpl; [|exact IH..].
    destruct (sections σ !! l0); simpl; [f_equal|]; exact IH.
Qed.

Lemma names_of_snoc (σ : store) (pre : list ConfigContent) (l : loc) (s : SectionObj) :
  sections σ !! l = Some s ->
  Doc.names_of σ (mkDocument (pre ++ [CC_Section l]))
  = Doc.names_of σ (mkDocument pre) ++ [sec_name s].
Proof.
  intros Hs. unfold Doc.names_of, Doc.iter_sections. cbn [doc_structure].
  unfold section_refs. rewrite !omap_app. simpl. by rewrite Hs.
Qed.

(** [add_section] keeps the names of the sections unique. *)
Lemma add_section_keeps_names_unique (σ σ' : store) (self : loc) (d : DocumentObj)
    (section : pyval) :
  documents σ !! self = Some d ->
  names_unique σ d ->
  Doc.add_section self section σ = (Return tt, σ') ->
  exists d', documents σ' !! self = Some d' /\ names_unique σ' d'.
Proof.
  intros Hd Huniq Hrun. destruct section as [| | |name| |l|l]; try done.
  - rewrite (add_section_string _ _ _ _ Hd) in Hrun.
    case_bool_decide as Hin; [done|]. injection Hrun as <-.
    eexists. split; [simpl; apply lookup_insert_eq|].
    unfold names_unique. erewrite names_of_snoc by (simpl; apply lookup_insert_eq).
    erewrite (names_of_agree σ _ (mkDocument (doc_structure d))).
    + by apply NoDup_snoc_fresh.
    + intros l Hl. simpl. apply lookup_insert_ne. intros <-.
      by apply (fresh_section_not_held σ self d).
  - destruct (sections σ !! l) as [s|] eqn:Hs.
    + rewrite (add_section_object _ _ _ _ _ Hd Hs) in Hrun.
      case_bool_decide as Hin; [done|]. injection Hrun as <-.
      eexists. split; [simpl; apply lookup_insert_eq|].
      unfold names_unique. erewrite names_of_snoc by (simpl; exact Hs).
      erewrite (names_of_agree σ _ (mkDocument (doc_structure d))) by done.
      by apply NoDup_snoc_fresh.
    + unfold Doc.add_section, Sec.name in Hrun. run in Hrun. by rewrite Hs in Hrun.
Qed.

(** ** Lines of a text *)

Lemma splitlines_from_join (cur text : string) :
  join (splitlines_from cur text) = cur +:+ text.
Proof.
  revert cur. induction text as [|c text IH]; intros cur.
  - rewrite append_nil_r. destruct cur; [done|]. simpl. by rewrite append_nil_r.
  - simpl. destruct (Ascii.eqb c (ascii_of_nat 10)) eqn:Hc.
    + apply Ascii.eqb_eq in Hc as ->. simpl. rewrite IH.
      unfold LF. by rewrite append_assoc.
    + rewrite IH. by rewrite append_assoc.
Qed.

Lemma splitlines_join (text : string) : join (splitlines text) = text.
Proof. unfold splitlines. by rewrite splitlines_from_join. Qed.

(** ** The text of a document *)

Section DocumentTextProperties.
Variable option_text : OptionObj -> string.

Lemma str_blocks_spec (σ : store) (blocks : list ConfigContent) (acc : list string) :
  Forall (fun l => exists s, sections σ !! l = Some s /\ section_closed σ s)
         (section_refs blocks) ->
  foldM (fun acc block => t <- Doc.str_block option_text block ;; ret (acc ++ [t]))
        blocks acc σ
  = (Return (acc ++ map (block_text option_text σ) blocks), σ).
Proof.
  revert acc. induction blocks as [|b bs IH]; intros acc Hheld; simpl.
  - by rewrite app_nil_r.
  - assert (Doc.str_block option_text b σ = (Return (block_text option_text σ b), σ)
            /\ Forall (fun l => exists s, sections σ !! l = Some s /\ section_closed σ s)
                 (section_refs bs)) as [Hb Hbs].
    { destruct b as [l| |]; simpl in *; [|by split..].
      apply Forall_cons in Hheld as [(s & Hs & Hc) ?]. split; [|done].
      by rewrite (sec_str_spec option_text _ _ _ Hs Hc), Hs. }
    unfold bind. rewrite Hb. simpl.
    rewrite (IH _ Hbs). by rewrite <-app_assoc.
Qed.

Lemma doc_str_spec (σ : store) (self : loc) (d : DocumentObj) :
  documents σ !! self = Some d ->
  document_closed σ d ->
  Doc.__str__ option_text self σ = (Return (document_text option_text σ d), σ).
Proof.
  intros Hd Hheld. unfold Doc.__str__, bind at 1, read_document. rewrite Hd.
  unfold bind. by rewrite (str_blocks_spec _ _ _ Hheld).
Qed.

Lemma entries_text_agree (σ σ' : store) (entries : list SectionContent) :
  (forall o, o ∈ option_refs entries -> options σ' !! o = options σ !! o) ->
  map (entry_text option_text σ') entries = map (entry_text option_text σ) entries.
Proof.
  induction entries as [|e es IH]; intros H; [done|]. simpl. f_equal.
  - destruct e as [l| |]; simpl; [|done..]. rewrite H; [done|]. simpl. left.
  - apply IH. intros o Ho. apply H. destruct e; simpl; [by right|done..].
Qed.

Lemma section_text_agree (σ σ' : store) (s : SectionObj) :
  (forall o, o ∈ option_refs (sec_structure s) -> options σ' !! o = options σ !! o) ->
  section_text option_text σ' s = section_text option_text σ s.
Proof. intros H. unfold section_text. by rewrite (entries_text_agree _ _ _ H). Qed.

Lemma section_closed_agree (σ σ' : store) (s : SectionObj) :
  (forall o, o ∈ option_refs (sec_structure s) -> options σ' !! o = options σ !! o) ->
  section_closed σ s -> section_closed σ' s.
Proof.
  intros H. unfold section_closed, Sec.iter_options, iter_blocks.
  rewrite !Forall_forall. intros Hc o Ho. rewrite (H o Ho). by apply Hc.
Qed.

Lemma same_on_cons (σ σ' : store) (b : ConfigContent) (bs : list ConfigContent) :
  same_on σ σ' (b :: bs) -> same_on σ σ' [b] /\ same_on σ σ' bs.
Proof.
  intros H. split; intros l Hl; apply H.
  - destruct b; simpl in *; [|by apply elem_of_nil in Hl..].
    apply list_elem_of_singleton in Hl as ->. left.
  - destruct b; simpl; [by right|done..].
Qed.

Lemma blocks_text_agree (σ σ' : store) (blocks : list ConfigContent) :
  same_on σ σ' blocks ->
  map (block_text option_text σ') blocks = map (block_text option_text σ) blocks.
Proof.
  induction blocks as [|b bs IH]; intros H; [done|].
  apply same_on_cons in H as [Hb Hbs]. simpl. f_equal; [|by apply IH].
  destruct b as [l| |]; simpl; [|done..].
  destruct (Hb l) as [Hl Ho]; [simpl; left|]. rewrite Hl.
  destruct (sections σ !! l) as [s|] eqn:Hs; [|done]. simpl.
  apply section_text_agree. intros o Hin. by apply (Ho s).
Qed.

Lemma blocks_closed_agree (σ σ' : store) (blocks : list ConfigContent) :
  same_on σ σ' blocks ->
  Forall (fun l => exists s, sections σ !! l = Some s /\ section_closed σ s)
         (section_refs blocks) ->
  Forall (fun l => exists s, sections σ' !! l = Some s /\ section_closed σ' s)
         (section_refs blocks).
Proof.
  intros H. rewrite !Forall_forall. intros Hc l Hl.
  destruct (Hc l Hl) as (s & Hs & Hsc). destruct (H l Hl) as [Hl' Ho].
  exists s. split; [by rewrite Hl'|].
  apply (section_closed_agree σ); [|done]. intros o Hin. by apply (Ho s).
Qed.

Lemma section_refs_app (l1 l2 : list ConfigContent) :
  section_refs (l1 ++ l2) = section_refs l1 ++ section_refs l2.
Proof. apply omap_app. Qed.

Lemma join_map_snoc {A : Type} (f : A -> string) (l : list A) (x : A) :
  join (map f (l ++ [x])) = join (map f l) +:+ f x.
Proof. rewrite map_app. apply join_snoc. Qed.
End DocumentTextProperties.

(** ** Runs of comment and blank lines *)

Section RunProperties.
Variable option_text : OptionObj -> string.

Lemma last_removelast {A : Type} (l : list A) (x : A) :
  last l = Some x -> l = removelast l ++ [x].
Proof.
  intros (l' & ->)%last_Some. by rewrite removelast_last.
Qed.

Lemma extends_entries_append (line : string) (old : list SectionContent)
    (block : SectionContent) :
  option_refs [block] = [] ->
  (forall σ, entry_text option_text σ block = line) ->
  extends_entries option_text line old (old ++ [block]).
Proof.
  intros Hrefs Htext. split.
  - by rewrite option_refs_app, Hrefs, app_nil_r.
  - intros σ. by rewrite join_map_snoc, Htext.
Qed.

Lemma extends_entries_merge (line : string) (old : list SectionContent)
    (block block' : SectionContent) :
  last old = Some block ->
  option_refs [block] = [] ->
  option_refs [block'] = [] ->
  (forall σ, entry_text option_text σ block'
             = entry_text option_text σ block +:+ line) ->
  extends_entries option_text line old (removelast old ++ [block']).
Proof.
  intros Hlast Hrefs Hrefs' Htext. split.
  - rewrite (last_removelast _ _ Hlast) at 2.
    by rewrite !option_refs_app, Hrefs, Hrefs'.
  - intros σ. rewrite (last_removelast _ _ Hlast) at 2.
    by rewrite !join_map_snoc, Htext, append_assoc.
Qed.

Lemma join_one (line : string) : join [line] = line.
Proof. simpl. apply append_nil_r. Qed.

Lemma sec_add_space_spec (σ : store) (self : loc) (s : SectionObj) (line : string) :
  sections σ !! self = Some s ->
  exists structure,
    Sec.add_space self line σ
    = (Return self,
       mkStore (options σ)
         (<[self := mkSection (sec_container s) (sec_name s) structure
                      (sec_updated s) (sec_lines s)]> (sections σ))
         (documents σ)) /\
    extends_entries option_text line (sec_structure s) structure.
Proof.
  intros Hs. unfold Sec.add_space, bind at 1, read_section. rewrite Hs.
  unfold last_block.
  destruct (last (sec_structure s)) as [[l|lines|lines]|] eqn:Hlast;
    try (eexists; split;
         [by rewrite (bind_Return _ _ _ _ _ (sec_append_spec _ _ _ _ Hs))|];
         apply extends_entries_append; [done|]; intros σ'; apply join_one).
  eexists. split.
  - unfold bind, Sec.set_structure, bind, read_section. rewrite Hs. reflexivity.
  - eapply extends_entries_merge; [done..|].
    intros σ'. simpl. unfold Block__str__. apply join_snoc.
Qed.

Lemma sec_add_comment_spec (σ : store) (self : loc) (s : SectionObj) (line : string) :
  sections σ !! self = Some s ->
  exists structure,
    Sec.add_comment self line σ
    = (Return self,
       mkStore (options σ)
         (<[self := mkSection (sec_container s) (sec_name s) structure
                      (sec_updated s) (sec_lines s)]> (sections σ))
         (documents σ)) /\
    extends_entries option_text line (sec_structure s) structure.
Proof.
  intros Hs. unfold Sec.add_comment, bind at 1, read_section. rewrite Hs.
  unfold last_block.
  destruct (last (sec_structure s)) as [[l|lines|lines]|] eqn:Hlast;
    try (eexists; split;
         [by rewrite (bind_Return _ _ _ _ _ (sec_append_spec _ _ _ _ Hs))|];
         apply extends_entries_append; [done|]; intros σ'; apply join_one).
  eexists. split.
  - unfold bind, Sec.set_structure, bind, read_section. rewrite Hs. reflexivity.
  - eapply extends_entries_merge; [done..|].
    intros σ'. simpl. unfold Block__str__. apply join_snoc.
Qed.

Lemma extends_blocks_append (line : string) (old : list ConfigContent)
    (block : ConfigContent) :
  section_refs [block] = [] ->
  (forall σ, block_text option_text σ block = line) ->
  extends_blocks option_text line old (old ++ [block]).
Proof.
  intros Hrefs Htext. split.
  - by rewrite section_refs_app, Hrefs, app_nil_r.
  - intros σ. by rewrite join_map_snoc, Htext.
Qed.

Lemma extends_blocks_merge (line : string) (old : list ConfigContent)
    (block block' : ConfigContent) :
  last old = Some block ->
  section_refs [block] = [] ->
  section_refs [block'] = [] ->
  (forall σ, block_text option_text σ block'
             = block_text option_text σ block +:+ line) ->
  extends_blocks option_text line old (removelast old ++ [block']).
Proof.
  intros Hlast Hrefs Hrefs' Htext. split.
  - rewrite (last_removelast _ _ Hlast) at 2.
    by rewrite !section_refs_app, Hrefs, Hrefs'.
  - intros σ. rewrite (last_removelast _ _ Hlast) at 2.
    by rewrite !join_map_snoc, Htext, append_assoc.
Qed.

Lemma doc_set_structure_spec (σ : store) (self : loc) (d : DocumentObj)
    (structure : list ConfigContent) :
  documents σ !! self = Some d ->
  Doc.set_structure self structure σ
  = (Return tt, mkStore (options σ) (sections σ)
                  (<[self := mkDocument structure]> (documents σ))).
Proof. intros Hd. unfold Doc.set_structure. run. by rewrite Hd. Qed.

Lemma document_add_space_spec (σ : store) (self : loc) (d : DocumentObj) (line : string) :
  documents σ !! self = Some d ->
  exists structure,
    Parser.document_add_space self line σ
    = (Return tt, mkStore (options σ) (sections σ)
                    (<[self := mkDocument structure]> (documents σ))) /\
    extends_blocks option_text line (doc_structure d) structure.
Proof.
  intros Hd. unfold Parser.document_add_space, bind at 1, read_document. rewrite Hd.
  destruct (last (doc_structure d)) as [[l|lines|lines]|] eqn:Hlast;
    try (eexists; split; [by rewrite (doc_append_spec _ _ _ _ Hd)|];
         apply extends_blocks_append; [done|]; intros σ'; apply join_one).
  eexists. split; [by rewrite (doc_set_structure_spec _ _ _ _ Hd)|].
  eapply extends_blocks_merge; [done..|].
  intros σ'. simpl. unfold Block__str__. apply join_snoc.
Qed.

Lemma document_add_comment_spec (σ : store) (self : loc) (d : DocumentObj)
    (line : string) :
  documents σ !! self = Some d ->
  exists structure,
    Parser.document_add_comment self line σ
    = (Return tt, mkStore (options σ) (sections σ)
                    (<[self := mkDocument structure]> (documents σ))) /\
    extends_blocks option_text line (doc_structure d) structure.
Proof.
  intros Hd. unfold Parser.document_add_comment, bind at 1, read_document. rewrite Hd.
  destruct (last (doc_structure d)) as [[l|lines|lines]|] eqn:Hlast;
    try (eexists; split; [by rewrite (doc_append_spec _ _ _ _ Hd)|];
         apply extends_blocks_append; [done|]; intros σ'; apply join_one).
  eexists. split; [by rewrite (doc_set_structure_spec _ _ _ _ Hd)|].
  eapply extends_blocks_merge; [done..|].
  intros σ'. simpl. unfold Block__str__. apply join_snoc.
Qed.
End RunProperties.

(** ** The parser keeps the text *)

Section ParserProperties.
Variable classify : string -> line_kind.
Variable option_text : OptionObj -> string.

Lemma document_closed_app (σ : store) (pre : list ConfigContent) (section : loc) :
  document_closed σ (mkDocument (pre ++ [CC_Section section])) <->
  Forall (fun l => exists s, sections σ !! l = Some s /\ section_closed σ s)
         (section_refs pre)
  /\ exists s, sections σ !! section = Some s /\ section_closed σ s.
Proof.
  unfold document_closed, Doc.iter_sections. simpl.
  rewrite section_refs_app, Forall_app. simpl.
  by rewrite Forall_singleton.
Qed.

Lemma blocks_text_snoc (σ : store) (pre : list ConfigContent) (section : loc)
    (s : SectionObj) :
  sections σ !! section = Some s ->
  join (map (block_text option_text σ) (pre ++ [CC_Section section]))
  = join (map (block_text option_text σ) pre) +:+ section_text option_text σ s.
Proof. intros Hs. rewrite join_map_snoc. simpl. by rewrite Hs. Qed.

(** A step that touches the section at hand only, and options that no
    earlier section holds. *)
Lemma section_step (σ σ' : store) (document : loc) (d : DocumentObj)
    (pre : list ConfigContent) (section : loc) (s s' : SectionObj) (line : string) :
  documents σ !! document = Some d ->
  document_closed σ d ->
  doc_structure d = pre ++ [CC_Section section] ->
  section ∉ section_refs pre ->
  sections σ !! section = Some s ->
  documents σ' = documents σ ->
  sections σ' = <[section := s']> (sections σ) ->
  (forall l s0 o, l ∈ section_refs pre -> sections σ !! l = Some s0 ->
                  o ∈ option_refs (sec_structure s0) ->
                  options σ' !! o = options σ !! o) ->
  section_closed σ' s' ->
  section_text option_text σ' s' = section_text option_text σ s +:+ line ->
  documents σ' !! document = Some d /\
  document_closed σ' d /\
  document_text option_text σ' d = document_text option_text σ d +:+ line /\
  sections σ' !! section = Some s'.
Proof.
  intros Hd Hclosed Hsplit Hfirst Hs Hdocs Hsecs Hopts Hclosed' Htext.
  assert (sections σ' !! section = Some s') as Hs'
    by (rewrite Hsecs; apply lookup_insert_eq).
  assert (same_on σ σ' pre) as Hsame.
  { intros l Hl. split.
    - rewrite Hsecs. apply lookup_insert_ne. by intros <-.
    - intros s0 o Hs0 Ho. by apply (Hopts l s0). }
  destruct d as [structure]. simpl in Hsplit. subst structure.
  apply document_closed_app in Hclosed as [Hpre _].
  split; [by rewrite Hdocs|]. split; [|split; [|done]].
  - apply document_closed_app. split; [by apply (blocks_closed_agree σ)|eauto].
  - unfold document_text. cbn [doc_structure].
    rewrite (blocks_text_snoc _ _ _ _ Hs), (blocks_text_snoc _ _ _ _ Hs').
    by rewrite (blocks_text_agree option_text _ _ _ Hsame), Htext, append_assoc.
Qed.

(** A section header. *)
Lemma header_step (σ : store) (document : loc) (st : parser_state) (text : string)
    (name line : string) :
  parser_inv option_text σ document st text ->
  exists σ' section,
    (section <- new_section (Sec.__init__ name document) ;;
     Parser.section_add_line section line ;;
     Doc.append document (CC_Section section) ;;
     ret (InSectionHeader section)) σ
    = (Return (InSectionHeader section), σ') /\
    parser_inv option_text σ' document (InSectionHeader section) (text +:+ line).
Proof.
  intros (d & Hd & Hclosed & Htext & _).
  set (section := fresh_section σ).
  set (s := mkSection document name [] false [line]).
  set (σ' := mkStore (options σ)
               (<[section := s]> (<[section := Sec.__init__ name document]> (sections σ)))
               (<[document := mkDocument (doc_structure d ++ [CC_Section section])]>
                  (documents σ))).
  assert (section ∉ section_refs (doc_structure d)) as Hfresh
    by apply (fresh_section_not_held σ document d Hd).
  assert (same_on σ σ' (doc_structure d)) as Hsame.
  { intros l Hl. split; [|done]. simpl.
    rewrite !lookup_insert_ne; [done|by intros <-..]. }
  assert (sections σ' !! section = Some s) as Hs by apply lookup_insert_eq.
  exists σ', section. split.
  - unfold bind at 1, new_section. fold section.
    erewrite bind_Return.
    2:{ unfold Parser.section_add_line, bind, read_section, write_section. simpl.
        rewrite lookup_insert_eq. reflexivity. }
    erewrite bind_Return by (apply doc_append_spec; simpl; exact Hd).
    reflexivity.
  - exists (mkDocument (doc_structure d ++ [CC_Section section])).
    split; [apply lookup_insert_eq|]. split; [|split].
    + apply document_closed_app. split; [by apply (blocks_closed_agree σ)|].
      exists s. split; [done|]. constructor.
    + unfold document_text. cbn [doc_structure].
      rewrite (blocks_text_snoc _ _ _ _ Hs).
      rewrite (blocks_text_agree option_text _ _ _ Hsame).
      unfold document_text in Htext. rewrite Htext. f_equal.
      unfold section_text. simpl. by rewrite !append_nil_r.
    + simpl. by exists (doc_structure d), s.
Qed.

Lemma inv_section (σ : store) (document : loc) (st : parser_state) (text : string)
    (section : loc) :
  parser_inv option_text σ document st text ->
  current_section st = Some section ->
  exists d pre s,
    documents σ !! document = Some d /\
    document_closed σ d /\
    document_text option_text σ d = text /\
    doc_structure d = pre ++ [CC_Section section] /\
    (section ∉ section_refs pre) /\
    sections σ !! section = Some s /\
    section_closed σ s.
Proof.
  intros (d & Hd & Hclosed & Htext & Hcur) Hst. rewrite Hst in Hcur.
  destruct Hcur as (pre & s & Hsplit & Hfirst & Hs & _).
  exists d, pre, s. repeat (split; [done|]).
  destruct d as [structure]. simpl in Hsplit. subst structure.
  apply document_closed_app in Hclosed as [_ (s' & Hs' & Hc)]. congruence.
Qed.

Lemma not_updated_inv (o : OptionObj) :
  Block_updated (opt_updated o) (opt_lines o) = false ->
  opt_updated o = false /\ opt_lines o <> [].
Proof.
  unfold Block_updated. destruct (opt_updated o), (opt_lines o); simpl; try done.
Qed.

Lemma not_updated_snoc (updated : bool) (lines : list string) (line : string) :
  updated = false -> Block_updated updated (lines ++ [line]) = false.
Proof. intros ->. by destruct lines. Qed.

(** A [key = value] line inside a section. *)
Lemma option_step (σ : store) (document : loc) (st : parser_state) (text : string)
    (section : loc) (key : string) (value : pyval) (line : string) :
  parser_inv option_text σ document st text ->
  current_section st = Some section ->
  exists σ' option,
    (option <- new_option (mkOption (Some section) [line] false key value) ;;
     Sec.add_option section option ;;
     ret (InOptionValue section option)) σ
    = (Return (InOptionValue section option), σ') /\
    parser_inv option_text σ' document (InOptionValue section option) (text +:+ line).
Proof.
  intros Hinv Hst.
  destruct (inv_section _ _ _ _ _ Hinv Hst)
    as (d & pre & s & Hd & Hclosed & Htext & Hsplit & Hfirst & Hs & Hsc).
  set (option := fresh_option σ).
  set (o := mkOption (Some section) [line] false key value).
  set (s' := mkSection (sec_container s) (sec_name s) (sec_structure s ++ [SC_Option option])
               (sec_updated s) (sec_lines s)).
  set (σ' := mkStore (<[option := o]> (options σ)) (<[section := s']> (sections σ))
               (documents σ)).
  assert (forall l s0, sections σ !! l = Some s0 ->
                       option ∉ option_refs (sec_structure s0)) as Hfresh
    by (intros l s0 Hs0; apply (fresh_option_not_held σ l s0 Hs0)).
  assert (forall x, x ∈ option_refs (sec_structure s) ->
                    options σ' !! x = options σ !! x) as Hold.
  { intros x Hx. simpl. apply lookup_insert_ne. intros <-. by apply (Hfresh section s). }
  exists σ', option. split.
  - unfold bind at 1, new_option. fold option. fold o.
    erewrite bind_Return; [reflexivity|]. unfold Sec.add_option.
    erewrite bind_Return by (apply sec_append_spec; simpl; exact Hs). reflexivity.
  - destruct (section_step σ σ' document d pre section s s' line)
      as (Hd' & Hclosed' & Htext' & Hs'); try done.
    + intros l s0 x Hl Hs0 Hx. simpl. apply lookup_insert_ne. intros <-.
      by apply (Hfresh l s0).
    + unfold section_closed, Sec.iter_options, iter_blocks, s'. cbn [sec_structure].
      rewrite option_refs_app. apply Forall_app. split.
      * apply Forall_forall. intros x Hx. rewrite (Hold x Hx).
        unfold section_closed in Hsc. rewrite Forall_forall in Hsc. by apply Hsc.
      * apply Forall_singleton. simpl. rewrite lookup_insert_eq. by eexists.
    + unfold section_text. cbn [sec_updated sec_lines sec_name sec_structure s'].
      rewrite join_map_snoc, (entries_text_agree option_text _ _ _ Hold).
      rewrite append_assoc. do 2 f_equal. simpl. rewrite lookup_insert_eq. simpl.
      unfold Sec.Option__str__. simpl. apply append_nil_r.
    + exists d. repeat (split; [by rewrite ?Htext' , ?Htext|]).
      cbn [current_section]. exists pre, s'. repeat (split; [done|]).
      exists (sec_structure s), o. split; [done|]. split; [by apply (Hfresh section s)|].
      split; [apply lookup_insert_eq|]. split; [done|].
      intros l s0 Hl Hs0. apply (Hfresh l s0). rewrite <-Hs0. symmetry.
      simpl. apply lookup_insert_ne. by intros <-.
Qed.

(** A continuation line of the option at hand. *)
Lemma indented_step (σ : store) (document : loc) (text : string)
    (section option : loc) (line : string) :
  parser_inv option_text σ document (InOptionValue section option) text ->
  exists σ',
    (Parser.option_add_line option line ;; ret (InOptionValue section option)) σ
    = (Return (InOptionValue section option), σ') /\
    parser_inv option_text σ' document (InOptionValue section option) (text +:+ line).
Proof.
  intros Hinv.
  destruct (inv_section _ _ _ _ _ Hinv eq_refl)
    as (d & pre & s & Hd & Hclosed & Htext & Hsplit & Hfirst & Hs & Hsc).
  destruct Hinv as (d0 & Hd0 & _ & _ & Hcur). simpl in Hcur.
  destruct Hcur as (pre0 & s0 & Hsplit0 & _ & Hs0 & spre & o & Hssplit & Hofirst & Ho
                    & Hnot & Hpre).
  assert (d0 = d) as -> by congruence. assert (s0 = s) as -> by congruence.
  assert (pre0 = pre) as ->.
  { rewrite Hsplit in Hsplit0. by apply app_inj_tail in Hsplit0 as [-> _]. }
  destruct (not_updated_inv _ Hnot) as [Hupd Hlines].
  set (o' := mkOption (opt_container o) (opt_lines o ++ [line]) (opt_updated o) (opt_key o)
               (match opt_value o with PStr v => PStr (v +:+ line) | _ => PStr line end)).
  set (σ' := mkStore (<[option := o']> (options σ)) (sections σ) (documents σ)).
  assert (forall x, x ∈ option_refs spre -> options σ' !! x = options σ !! x) as Hold.
  { intros x Hx. simpl. apply lookup_insert_ne. by intros <-. }
  exists σ'. split.
  - unfold bind, Parser.option_add_line, bind, read_option, write_option.
    by rewrite Ho.
  - destruct (section_step σ σ' document d pre section s s line)
      as (Hd' & Hclosed' & Htext' & Hs'); try done.
    + simpl. by rewrite insert_id.
    + intros l s1 x Hl Hs1 Hx. simpl. apply lookup_insert_ne. intros <-.
      by apply (Hpre l s1).
    + unfold section_closed in *. rewrite Forall_forall in *. intros x Hx. simpl.
      destruct (decide (option = x)) as [->|Hne].
      * rewrite lookup_insert_eq. by eexists.
      * rewrite lookup_insert_ne by done. by apply Hsc.
    + unfold section_text. rewrite Hssplit, !join_map_snoc.
      rewrite (entries_text_agree option_text _ _ _ Hold).
      rewrite !append_assoc. do 2 f_equal. simpl. rewrite lookup_insert_eq, Ho. simpl.
      unfold Sec.Option__str__. cbn [opt_updated opt_lines o'].
      rewrite Hnot, (not_updated_snoc _ _ _ Hupd). unfold Block__str__.
      apply join_snoc.
    + exists d. repeat (split; [by rewrite ?Htext' , ?Htext|]).
      cbn [current_section]. exists pre, s. repeat (split; [done|]).
      exists spre, o'. split; [done|]. split; [done|].
      split; [apply lookup_insert_eq|]. split; [by apply not_updated_snoc|].
      exact Hpre.
Qed.

(** A comment or blank line inside a section. *)
Lemma section_run_step (σ : store) (document : loc) (st st' : parser_state)
    (text : string) (section : loc) (line : string) (op : M loc) :
  parser_inv option_text σ document st text ->
  current_section st = Some section ->
  (forall s, sections σ !! section = Some s ->
     exists structure,
       op σ = (Return section,
               mkStore (options σ)
                 (<[section := mkSection (sec_container s) (sec_name s) structure
                                 (sec_updated s) (sec_lines s)]> (sections σ))
                 (documents σ)) /\
       extends_entries option_text line (sec_structure s) structure) ->
  st' = InBlankRun (Some section) \/ st' = InCommentRun (Some section) ->
  exists σ',
    (op ;; ret st') σ = (Return st', σ') /\
    parser_inv option_text σ' document st' (text +:+ line).
Proof.
  intros Hinv Hst Hop Hst'.
  destruct (inv_section _ _ _ _ _ Hinv Hst)
    as (d & pre & s & Hd & Hclosed & Htext & Hsplit & Hfirst & Hs & Hsc).
  destruct (Hop s Hs) as (structure & Hrun & Hrefs & Hjoin).
  set (s' := mkSection (sec_container s) (sec_name s) structure
               (sec_updated s) (sec_lines s)).
  set (σ' := mkStore (options σ) (<[section := s']> (sections σ)) (documents σ)).
  exists σ'. split; [by rewrite (bind_Return _ _ _ _ _ Hrun)|].
  destruct (section_step σ σ' document d pre section s s' line)
    as (Hd' & Hclosed' & Htext' & Hs'); try done.
  - unfold section_closed, Sec.iter_options, iter_blocks, s'. cbn [sec_structure].
    by rewrite Hrefs.
  - unfold section_text, s'. cbn [sec_updated sec_lines sec_name sec_structure].
    rewrite Hjoin, append_assoc. reflexivity.
  - exists d. repeat (split; [by rewrite ?Htext' , ?Htext|]).
    assert (current_section st' = Some section) as -> by (by destruct Hst' as [->| ->]).
    exists pre, s'. repeat (split; [done|]). by destruct Hst' as [->| ->].
Qed.

(** A comment or blank line before any section. *)
Lemma document_run_step (σ : store) (document : loc) (st st' : parser_state)
    (text : string) (line : string) (op : M unit) :
  parser_inv option_text σ document st text ->
  (forall d, documents σ !! document = Some d ->
     exists structure,
       op σ = (Return tt,
               mkStore (options σ) (sections σ)
                 (<[document := mkDocument structure]> (documents σ))) /\
       extends_blocks option_text line (doc_structure d) structure) ->
  current_section st' = None ->
  exists σ',
    (op ;; ret st') σ = (Return st', σ') /\
    parser_inv option_text σ' document st' (text +:+ line).
Proof.
  intros (d & Hd & Hclosed & Htext & _) Hop Hst'.
  destruct (Hop d Hd) as (structure & Hrun & Hrefs & Hjoin).
  set (σ' := mkStore (options σ) (sections σ)
               (<[document := mkDocument structure]> (documents σ))).
  assert (forall blocks, same_on σ σ' blocks) as Hsame by (by intros blocks l Hl).
  exists σ'. split; [by rewrite (bind_Return _ _ _ _ _ Hrun)|].
  exists (mkDocument structure). split; [apply lookup_insert_eq|]. split; [|split].
  - unfold document_closed, Doc.iter_sections in *. cbn [doc_structure].
    rewrite Hrefs. exact Hclosed.
  - unfold document_text in *. cbn [doc_structure]. rewrite Hjoin, <-Htext.
    by rewrite (blocks_text_agree option_text _ _ _ (Hsame (doc_structure d))).
  - by rewrite Hst'.
Qed.

(** One line: the parser either stops with an error or has built a
    document whose text grew by that line. *)
Lemma parse_line_inv (σ σ' : store) (document : loc) (lineno : nat)
    (st st' : parser_state) (text line : string) :
  parser_inv option_text σ document st text ->
  Parser.parse_line classify document lineno st line σ = (Return st', σ') ->
  parser_inv option_text σ' document st' (text +:+ line).
Proof.
  intros Hinv. unfold Parser.parse_line. destruct (classify line) as [name|key value| | | |].
  - destruct (header_step σ document st text name line Hinv) as (σ1 & section & Hrun & Hinv').
    rewrite Hrun. intros [= <- <-]. exact Hinv'.
  - destruct (current_section st) as [section|] eqn:Hst; [|done].
    destruct (option_step σ document st text section key value line Hinv Hst)
      as (σ1 & option & Hrun & Hinv').
    rewrite Hrun. intros [= <- <-]. exact Hinv'.
  - destruct st as [|section|section option|section|section]; try done.
    destruct (indented_step σ document text section option line Hinv)
      as (σ1 & Hrun & Hinv').
    rewrite Hrun. intros [= <- <-]. exact Hinv'.
  - destruct (current_section st) as [section|] eqn:Hst.
    + destruct (section_run_step σ document st (InBlankRun (Some section)) text section line
                  (Sec.add_space section line) Hinv Hst) as (σ1 & Hrun & Hinv').
      { intros s Hs. apply (sec_add_space_spec option_text _ _ _ _ Hs). }
      { by left. }
      rewrite Hrun. intros [= <- <-]. exact Hinv'.
    + destruct (document_run_step σ document st (InBlankRun None) text line
                  (Parser.document_add_space document line) Hinv) as (σ1 & Hrun & Hinv').
      { intros d Hd. apply (document_add_space_spec option_text _ _ _ _ Hd). }
      { done. }
      rewrite Hrun. intros [= <- <-]. exact Hinv'.
  - destruct (current_section st) as [section|] eqn:Hst.
    + destruct (section_run_step σ document st (InCommentRun (Some section)) text section
                  line (Sec.add_comment section line) Hinv Hst) as (σ1 & Hrun & Hinv').
      { intros s Hs. apply (sec_add_comment_spec option_text _ _ _ _ Hs). }
      { by right. }
      rewrite Hrun. intros [= <- <-]. exact Hinv'.
    + destruct (document_run_step σ document st (InCommentRun None) text line
                  (Parser.document_add_comment document line) Hinv) as (σ1 & Hrun & Hinv').
      { intros d Hd. apply (document_add_comment_spec option_text _ _ _ _ Hd). }
      { done. }
      rewrite Hrun. intros [= <- <-]. exact Hinv'.
  - done.
Qed.

Lemma parse_lines_inv (lines : list string) (σ σ' : store) (document : loc) (lineno : nat)
    (st st' : parser_state) (text : string) :
  parser_inv option_text σ document st text ->
  Parser.parse_lines classify document lineno st lines σ = (Return st', σ') ->
  parser_inv option_text σ' document st' (text +:+ join lines).
Proof.
  revert σ lineno st text. induction lines as [|line lines IH]; intros σ lineno st text Hinv.
  - simpl. intros [= <- <-]. by rewrite append_nil_r.
  - simpl. unfold bind at 1.
    destruct (Parser.parse_line classify document lineno st line σ) as [[st1|e] σ1] eqn:Hline;
      [|done].
    intros Hrest. rewrite <-append_assoc.
    apply (IH σ1 (S lineno) st1); [|done].
    by apply (parse_line_inv σ σ1 document lineno st st1).
Qed.

(** C2: parsing a text and stringifying the document that results gives
    the text back. *)
Theorem parse_render_round_trip (σ0 σ : store) (text : string) (document : loc) :
  Parser.read_string classify text σ0 = (Return document, σ) ->
  Doc.__str__ option_text document σ = (Return text, σ).
Proof.
  unfold Parser.read_string, bind at 1, new_document.
  set (doc := fresh_document σ0).
  set (σ1 := mkStore (options σ0) (sections σ0) (<[doc := mkDocument []]> (documents σ0))).
  assert (parser_inv option_text σ1 doc BeforeAnySection "") as Hinv.
  { exists (mkDocument []). split; [apply lookup_insert_eq|]. split; [constructor|done]. }
  unfold bind.
  destruct (Parser.parse_lines classify doc 1 BeforeAnySection (splitlines text) σ1)
    as [[st|e] σ2] eqn:Hparse; [|done].
  intros [= <- <-].
  apply (parse_lines_inv _ _ _ _ _ _ _ _ Hinv) in Hparse.
  destruct Hparse as (d & Hd & Hclosed & Htext & _).
  rewrite (doc_str_spec option_text _ _ _ Hd Hclosed), Htext.
  by rewrite splitlines_join.
Qed.
End ParserProperties.

Lemma parse_render_round_trip_witness :
  exists document σ,
    Parser.read_string ex_classify ex_text (mkStore ∅ ∅ ∅) = (Return document, σ) /\
    Doc.__str__ ex_option_text document σ = (Return ex_text, σ).
Proof.
  do 2 eexists. split; [vm_compute; reflexivity|].
  apply (parse_render_round_trip ex_classify ex_option_text (mkStore ∅ ∅ ∅)).
  vm_compute. reflexivity.
Defined.

(** * Further properties of the mapping facades *)

(** ** Indices of blocks *)

Lemma existsb_false_Forall {A : Type} (p : A -> bool) (l : list A) :
  existsb p l = false <-> Forall (fun e => p e = false) l.
Proof.
  induction l as [|a l IH]; simpl; [by split; [constructor|]|].
  rewrite orb_false_iff, IH, Forall_cons. done.
Qed.

Lemma first_match_lookup {A : Type} (p : A -> bool) (pre : list A) (x : A)
    (post : list A) :
  Forall (fun e => p e = false) pre ->
  (pre ++ x :: post) !! length pre = Some x /\
  forall j e, j < length pre -> (pre ++ x :: post) !! j = Some e -> p e = false.
Proof.
  intros Hpre. split; [by rewrite list_lookup_middle|].
  intros j e Hj He. rewrite lookup_app_l in He by done.
  rewrite Forall_forall in Hpre. apply Hpre. by eapply list_elem_of_lookup_2.
Qed.

(** X1: [Section._get_option_idx] returns the index of the first Option
    block whose key is the key given, an index within the block list; it
    raises [StopIteration] exactly when the section has no such block.
    The store is left as it was. *)
Theorem get_option_idx_spec (σ : store) (self : loc) (s : SectionObj) (key : string) :
  sections σ !! self = Some s ->
  (exists i entry,
     Sec._get_option_idx self key σ = (Return i, σ) /\
     sec_structure s !! i = Some entry /\
     Sec.is_option_with_key σ key entry = true /\
     forall j e, j < i -> sec_structure s !! j = Some e ->
                 Sec.is_option_with_key σ key e = false)
  \/ (Sec._get_option_idx self key σ = (Raise StopIteration, σ) /\
      Forall (fun e => Sec.is_option_with_key σ key e = false) (sec_structure s)).
Proof.
  intros Hs. unfold Sec._get_option_idx, bind, read_section, get_store. rewrite Hs.
  destruct (existsb (Sec.is_option_with_key σ key) (sec_structure s)) eqn:Hex.
  - left. apply first_match_split in Hex as (pre & x & post & Hsplit & Hpre & Hx).
    destruct (enumerate_first _ pre x post Hpre Hx) as [rest Hrest].
    destruct (first_match_lookup _ pre x post Hpre) as [Hat Hbefore].
    exists (length pre), x. rewrite Hsplit, Hrest. by repeat split.
  - right. apply existsb_false_Forall in Hex.
    by rewrite (enumerate_none _ _ Hex).
Qed.

Lemma get_option_idx_spec_witness :
  (exists i entry,
     Sec._get_option_idx 0 "bar" ex_store = (Return i, ex_store) /\
     [SC_Option 0; SC_Space [LF]; SC_Option 1] !! i = Some entry /\
     Sec.is_option_with_key ex_store "bar" entry = true /\
     forall j e, j < i -> [SC_Option 0; SC_Space [LF]; SC_Option 1] !! j = Some e ->
                 Sec.is_option_with_key ex_store "bar" e = false)
  \/ (Sec._get_option_idx 0 "bar" ex_store = (Raise StopIteration, ex_store) /\
      Forall (fun e => Sec.is_option_with_key ex_store "bar" e = false)
             [SC_Option 0; SC_Space [LF]; SC_Option 1]).
Proof. exact (get_option_idx_spec ex_store 0 _ "bar" eq_refl). Defined.

(** X2: [Document._get_section_idx] returns the index of the first Section
    block of the name given, an index within the block list; it raises
    [StopIteration] exactly when the document has no such block.  The
    store is left as it was. *)
Theorem get_section_idx_spec (σ : store) (self : loc) (d : DocumentObj) (name : string) :
  documents σ !! self = Some d ->
  (exists i entry,
     Doc._get_section_idx self name σ = (Return i, σ) /\
     doc_structure d !! i = Some entry /\
     Doc.is_section_with_name σ name entry = true /\
     forall j e, j < i -> doc_structure d !! j = Some e ->
                 Doc.is_section_with_name σ name e = false)
  \/ (Doc._get_section_idx self name σ = (Raise StopIteration, σ) /\
      Forall (fun e => Doc.is_section_with_name σ name e = false) (doc_structure d)).
Proof.
  intros Hd. unfold Doc._get_section_idx, bind, read_document, get_store. rewrite Hd.
  destruct (existsb (Doc.is_section_with_name σ name) (doc_structure d)) eqn:Hex.
  - left. apply first_match_split in Hex as (pre & x & post & Hsplit & Hpre & Hx).
    destruct (enumerate_first _ pre x post Hpre Hx) as [rest Hrest].
    destruct (first_match_lookup _ pre x post Hpre) as [Hat Hbefore].
    exists (length pre), x. rewrite Hsplit, Hrest. by repeat split.
  - right. apply existsb_false_Forall in Hex.
    by rewrite (enumerate_none _ _ Hex).
Qed.

Lemma get_section_idx_spec_witness :
  (exists i entry,
     Doc._get_section_idx 0 "b" ex_store = (Return i, ex_store) /\
     [CC_Section 0; CC_Comment ["# end" +:+ LF]; CC_Section 1] !! i = Some entry /\
     Doc.is_section_with_name ex_store "b" entry = true /\
     forall j e, j < i ->
                 [CC_Section 0; CC_Comment ["# end" +:+ LF]; CC_Section 1] !! j = Some e ->
                 Doc.is_section_with_name ex_store "b" e = false)
  \/ (Doc._get_section_idx 0 "b" ex_store = (Raise StopIteration, ex_store) /\
      Forall (fun e => Doc.is_section_with_name ex_store "b" e = false)
             [CC_Section 0; CC_Comment ["# end" +:+ LF]; CC_Section 1]).
Proof. exact (get_section_idx_spec ex_store 0 _ "b" eq_refl). Defined.

(** ** Removing and finding sections *)

Lemma names_absent_Forall (σ : store) (d : DocumentObj) (name : string) :
  name ∉ Doc.names_of σ d <->
  Forall (fun e => Doc.is_section_with_name σ name e = false) (doc_structure d).
Proof.
  split.
  - intros Hnot. apply existsb_false_Forall.
    destruct (existsb _ _) eqn:Hex; [|done]. exfalso. apply Hnot.
    apply existsb_exists in Hex as (e & He & Hmatch).
    destruct e as [l| |]; try done. simpl in Hmatch.
    apply name_is_true in Hmatch as (s & Hs & <-).
    apply list_elem_of_omap. exists l. split; [|by rewrite Hs].
    apply list_elem_of_omap. exists (CC_Section l). split; [by apply list_elem_of_In|done].
  - intros Hall (pre & l & post & Hsplit & _ & Hl)%names_of_split.
    rewrite Forall_forall in Hall. specialize (Hall (CC_Section l)). simpl in Hall.
    rewrite Hall in Hl; [done|]. rewrite Hsplit. apply elem_of_app. right. left.
Qed.

Lemma doc_getitem_spec (σ : store) (self : loc) (d : DocumentObj) (key : string) :
  documents σ !! self = Some d ->
  Doc.__getitem__ self key σ
  = match List.filter (Doc.name_is σ key) (Doc.iter_sections d) with
    | l :: _ => (Return l, σ)
    | [] => (Raise (KeyError key), σ)
    end.
Proof.
  intros Hd. unfold Doc.__getitem__, Doc.section_blocks. run. rewrite Hd.
  by destruct (List.filter _ _).
Qed.

Lemma doc_getitem_found (σ : store) (self l : loc) (d : DocumentObj) (key : string) :
  documents σ !! self = Some d ->
  Doc.__getitem__ self key σ = (Return l, σ) ->
  l ∈ Doc.iter_sections d /\ exists s, sections σ !! l = Some s /\ sec_name s = key.
Proof.
  intros Hd. rewrite (doc_getitem_spec _ _ _ _ Hd).
  destruct (List.filter _ _) as [|l' ls] eqn:E; [done|]. intros [= ->].
  assert (l ∈ List.filter (Doc.name_is σ key) (Doc.iter_sections d)) as Hl
    by (rewrite E; left).
  apply list_elem_of_In, filter_In in Hl as [Hl Hname].
  split; [by apply list_elem_of_In|]. by apply name_is_true.
Qed.

Lemma names_of_app (σ : store) (pre post : list ConfigContent) :
  Doc.names_of σ (mkDocument (pre ++ post))
  = Doc.names_of σ (mkDocument pre) ++ Doc.names_of σ (mkDocument post).
Proof.
  unfold Doc.names_of, Doc.iter_sections, section_refs. cbn [doc_structure].
  by rewrite !omap_app.
Qed.

Lemma names_of_pre_absent (σ : store) (pre : list ConfigContent) (name : string) :
  Forall (fun e => Doc.is_section_with_name σ name e = false) pre ->
  name ∉ Doc.names_of σ (mkDocument pre).
Proof. intros H. by apply names_absent_Forall. Qed.

Lemma names_of_cons_section (σ : store) (l : loc) (s : SectionObj)
    (post : list ConfigContent) :
  sections σ !! l = Some s ->
  Doc.names_of σ (mkDocument (CC_Section l :: post))
  = sec_name s :: Doc.names_of σ (mkDocument post).
Proof.
  intros Hs. unfold Doc.names_of, Doc.iter_sections. cbn [doc_structure]. simpl.
  by rewrite Hs.
Qed.

(** [remove_section] on a document split at the first section of the
    name. *)
Lemma remove_section_first (σ : store) (self : loc) (d : DocumentObj) (name : string)
    (pre : list ConfigContent) (l : loc) (post : list ConfigContent) :
  documents σ !! self = Some d ->
  doc_structure d = pre ++ CC_Section l :: post ->
  Forall (fun e => Doc.is_section_with_name σ name e = false) pre ->
  Doc.name_is σ name l = true ->
  Doc.remove_section self name σ
  = (Return true,
     mkStore (options σ) (sections σ)
       (<[self := mkDocument (pre ++ post)]> (documents σ))).
Proof.
  intros Hd Hsplit Hpre Hl. unfold Doc.remove_section, try_except.
  rewrite (bind_Return _ _ _ _ _
             (get_section_idx_first σ self d name pre l post Hd Hsplit Hpre Hl)).
  erewrite bind_Return.
  2:{ apply (doc_del_at_spec _ _ _ _ Hd). rewrite Hsplit, length_app. simpl. lia. }
  by rewrite Hsplit, delete_middle.
Qed.

Lemma remove_section_absent (σ : store) (self : loc) (d : DocumentObj) (name : string) :
  documents σ !! self = Some d ->
  name ∉ Doc.names_of σ d ->
  Doc.remove_section self name σ = (Return false, σ).
Proof.
  intros Hd Hnot. apply names_absent_Forall in Hnot.
  unfold Doc.remove_section, try_except, Doc._get_section_idx, bind, read_document,
    get_store.
  rewrite Hd. by rewrite (enumerate_none _ _ Hnot).
Qed.

(** X3: [Document.remove_section] never raises.  It answers [False] and
    changes nothing when no section has the name; otherwise it answers
    [True] and takes the first section of that name out of the block
    list, whose other blocks keep their order. *)
Theorem remove_section_spec (σ : store) (self : loc) (d : DocumentObj) (name : string) :
  documents σ !! self = Some d ->
  (name ∉ Doc.names_of σ d -> Doc.remove_section self name σ = (Return false, σ)) /\
  (name ∈ Doc.names_of σ d ->
   exists pre l post,
     doc_structure d = pre ++ CC_Section l :: post /\
     Forall (fun e => Doc.is_section_with_name σ name e = false) pre /\
     Doc.name_is σ name l = true /\
     Doc.remove_section self name σ
     = (Return true,
        mkStore (options σ) (sections σ)
          (<[self := mkDocument (pre ++ post)]> (documents σ)))).
Proof.
  intros Hd. split; [by apply remove_section_absent|].
  intros (pre & l & post & Hsplit & Hpre & Hl)%names_of_split.
  exists pre, l, post. repeat (split; [done|]).
  exact (remove_section_first σ self d name pre l post Hd Hsplit Hpre Hl).
Qed.

Lemma remove_section_spec_witness :
  Doc.remove_section 0 "z" ex_store = (Return false, ex_store) /\
  (exists pre l post,
     [CC_Section 0; CC_Comment ["# end" +:+ LF]; CC_Section 1] = pre ++ CC_Section l :: post /\
     Forall (fun e => Doc.is_section_with_name ex_store "b" e = false) pre /\
     Doc.name_is ex_store "b" l = true /\
     Doc.remove_section 0 "b" ex_store
     = (Return true,
        mkStore ex_options ex_sections (<[0 := mkDocument (pre ++ post)]> ex_documents))).
Proof.
  split.
  - apply (proj1 (remove_section_spec ex_store 0 _ "z" eq_refl)).
    apply (bool_decide_unpack _). vm_compute. exact I.
  - apply (proj2 (remove_section_spec ex_store 0 _ "b" eq_refl)).
    apply (bool_decide_unpack _). vm_compute. exact I.
Defined.

(** X4: [del document[key]] raises [KeyError] and changes nothing when no
    section has the name.  When the names of the document are unique and
    one of them is the key, it succeeds, the key is no longer in the
    document and every other name still is. *)
Theorem doc_delitem_spec (σ : store) (self : loc) (d : DocumentObj) (key : string) :
  documents σ !! self = Some d ->
  (key ∉ Doc.names_of σ d -> Doc.__delitem__ self key σ = (Raise (KeyError key), σ)) /\
  (key ∈ Doc.names_of σ d ->
   names_unique σ d ->
   exists σ',
     Doc.__delitem__ self key σ = (Return tt, σ') /\
     Doc.__contains__ self key σ' = (Return false, σ') /\
     forall other, other ∈ Doc.names_of σ d -> other <> key ->
                   Doc.__contains__ self other σ' = (Return true, σ')).
Proof.
  intros Hd. split.
  - intros Hnot. unfold Doc.__delitem__.
    by rewrite (bind_Return _ _ _ _ _ (remove_section_absent _ _ _ _ Hd Hnot)).
  - intros Hin Huniq.
    destruct (names_of_split σ d key Hin) as (pre & l & post & Hsplit & Hpre & Hl).
    pose proof Hl as (s & Hs & Hname)%name_is_true.
    eexists. unfold Doc.__delitem__.
    rewrite (bind_Return _ _ _ _ _
               (remove_section_first σ self d key pre l post Hd Hsplit Hpre Hl)).
    split; [done|].
    assert (Doc.names_of σ d
            = Doc.names_of σ (mkDocument pre) ++ key :: Doc.names_of σ (mkDocument post))
      as Hnames.
    { destruct d as [structure]. simpl in Hsplit. subst structure.
      by rewrite names_of_app, (names_of_cons_section _ _ _ _ Hs), Hname. }
    unfold names_unique in Huniq. rewrite Hnames in Huniq.
    apply NoDup_app in Huniq as (_ & Hdisj & Hpost).
    apply NoDup_cons in Hpost as [Hpost _].
    set (σ' := mkStore (options σ) (sections σ)
                 (<[self := mkDocument (pre ++ post)]> (documents σ))).
    assert (documents σ' !! self = Some (mkDocument (pre ++ post))) as Hd'
      by apply lookup_insert_eq.
    assert (Doc.names_of σ' (mkDocument (pre ++ post))
            = Doc.names_of σ (mkDocument pre) ++ Doc.names_of σ (mkDocument post))
      as Hnames' by (by rewrite (names_of_agree σ σ'), names_of_app).
    split.
    + rewrite (doc_contains_spec _ _ _ _ Hd'), Hnames'.
      rewrite bool_decide_eq_false_2; [done|].
      intros [Hin'|Hin']%elem_of_app; [|done].
      by apply (names_of_pre_absent σ pre key).
    + intros other Hother Hne.
      rewrite (doc_contains_spec _ _ _ _ Hd'), Hnames'.
      rewrite bool_decide_eq_true_2; [done|].
      rewrite Hnames in Hother.
      apply elem_of_app in Hother as [?|Hother]; [apply elem_of_app; by left|].
      apply elem_of_cons in Hother as [->|?]; [done|]. apply elem_of_app. by right.
Qed.

Lemma doc_delitem_spec_witness :
  Doc.__delitem__ 0 "z" ex_store = (Raise (KeyError "z"), ex_store) /\
  (exists σ',
     Doc.__delitem__ 0 "a" ex_store = (Return tt, σ') /\
     Doc.__contains__ 0 "a" σ' = (Return false, σ') /\
     forall other,
       other ∈ Doc.names_of ex_store
                 (mkDocument [CC_Section 0; CC_Comment ["# end" +:+ LF]; CC_Section 1]) ->
       other <> "a" ->
       Doc.__contains__ 0 other σ' = (Return true, σ')).
Proof.
  split.
  - apply (proj1 (doc_delitem_spec ex_store 0 _ "z" eq_refl)).
    apply (bool_decide_unpack _). vm_compute. exact I.
  - apply (proj2 (doc_delitem_spec ex_store 0 _ "a" eq_refl)).
    + apply (bool_decide_unpack _). vm_compute. exact I.
    + unfold names_unique. apply (bool_decide_unpack _). vm_compute. exact I.
Defined.

Lemma doc_sections_spec (σ : store) (self : loc) (d : DocumentObj) :
  documents σ !! self = Some d ->
  Doc.sections self σ = (Return (Doc.names_of σ d), σ).
Proof. intros Hd. unfold Doc.sections. run. by rewrite Hd. Qed.

(** X5: after [add_section(name)] with a name the document does not have,
    [document[name]] is the new Section object, which has that name and no
    blocks, the name is in the document, and [sections()] lists it last,
    after the names there were. *)
Theorem add_section_then_lookup (σ : store) (self : loc) (d : DocumentObj)
    (name : string) :
  documents σ !! self = Some d ->
  name ∉ Doc.names_of σ d ->
  exists l σ',
    Doc.add_section self (PStr name) σ = (Return tt, σ') /\
    Doc.__getitem__ self name σ' = (Return l, σ') /\
    sections σ' !! l = Some (Sec.__init__ name self) /\
    Doc.__contains__ self name σ' = (Return true, σ') /\
    Doc.sections self σ' = (Return (Doc.names_of σ d ++ [name]), σ').
Proof.
  intros Hd Hnot. set (l := fresh_section σ).
  set (σ' := mkStore (options σ) (<[l := Sec.__init__ name self]> (sections σ))
               (<[self := mkDocument (doc_structure d ++ [CC_Section l])]> (documents σ))).
  assert (documents σ' !! self = Some (mkDocument (doc_structure d ++ [CC_Section l])))
    as Hd' by apply lookup_insert_eq.
  assert (sections σ' !! l = Some (Sec.__init__ name self)) as Hl
    by apply lookup_insert_eq.
  assert (Doc.names_of σ' (mkDocument (doc_structure d)) = Doc.names_of σ d) as Hold.
  { apply (names_of_agree σ σ' (mkDocument (doc_structure d))).
    intros l' Hl'. simpl. apply lookup_insert_ne. intros <-.
    by apply (fresh_section_not_held σ self d). }
  assert (Doc.names_of σ' (mkDocument (doc_structure d ++ [CC_Section l]))
          = Doc.names_of σ d ++ [name]) as Hnames
    by (by rewrite (names_of_snoc _ _ _ _ Hl), Hold).
  exists l, σ'. split; [|split; [|split; [done|split]]].
  - rewrite (add_section_string _ _ _ _ Hd). by rewrite bool_decide_eq_false_2.
  - rewrite (doc_getitem_spec _ _ _ _ Hd').
    unfold Doc.iter_sections. cbn [doc_structure].
    rewrite section_refs_app, List.filter_app.
    assert (List.filter (Doc.name_is σ' name) (section_refs (doc_structure d)) = []) as ->.
    { apply (names_of_filter σ' (mkDocument (doc_structure d))). by rewrite Hold. }
    assert (Doc.name_is σ' name l = true) as Hname by (apply name_is_true; eauto).
    simpl. by rewrite Hname.
  - rewrite (doc_contains_spec _ _ _ _ Hd'), Hnames.
    rewrite bool_decide_eq_true_2; [done|]. apply elem_of_app. right. left.
  - by rewrite (doc_sections_spec _ _ _ Hd'), Hnames.
Qed.

Lemma add_section_then_lookup_witness :
  exists l σ',
    Doc.add_section 0 (PStr "d") ex_store = (Return tt, σ') /\
    Doc.__getitem__ 0 "d" σ' = (Return l, σ') /\
    sections σ' !! l = Some (Sec.__init__ "d" 0) /\
    Doc.__contains__ 0 "d" σ' = (Return true, σ') /\
    Doc.sections 0 σ'
    = (Return (Doc.names_of ex_store
                 (mkDocument [CC_Section 0; CC_Comment ["# end" +:+ LF]; CC_Section 1])
               ++ ["d"]), σ').
Proof.
  apply (add_section_then_lookup ex_store 0 _ "d" eq_refl).
  apply (bool_decide_unpack _). vm_compute. exact I.
Defined.

(** X6: the three ways to look a section up agree.  When a section of the
    name exists, [document[key]], [get_section(key, default)] and
    [key in document] all find it, the first such section, whose name is
    the key; when none exists, bracket access raises [KeyError],
    [get_section] gives the default and membership is [False]. *)
Theorem section_lookups_agree (σ : store) (self : loc) (d : DocumentObj)
    (key : string) (default : pyval) :
  documents σ !! self = Some d ->
  (key ∈ Doc.names_of σ d ->
   exists l s,
     Doc.__getitem__ self key σ = (Return l, σ) /\
     sections σ !! l = Some s /\ sec_name s = key /\
     Doc.get_section self key default σ = (Return (PSection l), σ) /\
     Doc.__contains__ self key σ = (Return true, σ)) /\
  (key ∉ Doc.names_of σ d ->
   Doc.__getitem__ self key σ = (Raise (KeyError key), σ) /\
   Doc.get_section self key default σ = (Return default, σ) /\
   Doc.__contains__ self key σ = (Return false, σ)).
Proof.
  intros Hd. split.
  - intros Hin.
    assert (exists l, Doc.__getitem__ self key σ = (Return l, σ)) as [l Hget].
    { rewrite (doc_getitem_spec _ _ _ _ Hd).
      destruct (List.filter _ _) eqn:E; [|eauto].
      by apply names_of_filter in E. }
    destruct (doc_getitem_found _ _ _ _ _ Hd Hget) as (_ & s & Hs & Hname).
    exists l, s. repeat (split; [done|]). split.
    + by apply getitem_get_section.
    + rewrite (doc_contains_spec _ _ _ _ Hd). by rewrite bool_decide_eq_true_2.
  - intros Hnot. split; [|split].
    + rewrite (doc_getitem_spec _ _ _ _ Hd).
      apply names_of_filter in Hnot. by rewrite Hnot.
    + by apply (get_section_missing _ _ d).
    + rewrite (doc_contains_spec _ _ _ _ Hd). by rewrite bool_decide_eq_false_2.
Qed.

Lemma section_lookups_agree_witness :
  (exists l s,
     Doc.__getitem__ 0 "b" ex_store = (Return l, ex_store) /\
     sections ex_store !! l = Some s /\ sec_name s = "b" /\
     Doc.get_section 0 "b" PNone ex_store = (Return (PSection l), ex_store) /\
     Doc.__contains__ 0 "b" ex_store = (Return true, ex_store)) /\
  Doc.__getitem__ 0 "B" ex_store = (Raise (KeyError "B"), ex_store) /\
  Doc.get_section 0 "B" PNone ex_store = (Return PNone, ex_store) /\
  Doc.__contains__ 0 "B" ex_store = (Return false, ex_store).
Proof.
  split.
  - apply (proj1 (section_lookups_agree ex_store 0 _ "b" PNone eq_refl)).
    apply (bool_decide_unpack _). vm_compute. exact I.
  - apply (proj2 (section_lookups_agree ex_store 0 _ "B" PNone eq_refl)).
    apply (bool_decide_unpack _). vm_compute. exact I.
Defined.

(** ** Setting a value and reading it back *)

Lemma key_is_set_value (σ : store) (lo : loc) (o o' : OptionObj) (key : string) (x : loc)
    (secs : gmap loc SectionObj) (docs : gmap loc DocumentObj) :
  options σ !! lo = Some o ->
  opt_key o' = opt_key o ->
  key_is (mkStore (<[lo := o']> (options σ)) secs docs) key x = key_is σ key x.
Proof.
  intros Ho Hkey. unfold key_is. simpl. destruct (decide (lo = x)) as [->|Hne].
  - rewrite lookup_insert_eq, Ho. unfold Option_key. by rewrite Hkey.
  - by rewrite lookup_insert_ne.
Qed.

Lemma sec_setitem_new_value (σ : store) (self : loc) (s : SectionObj) (key : string)
    (value : pyval) :
  sections σ !! self = Some s ->
  optionxform key ∉ Sec.keys_of σ s ->
  (forall v, value <> POption v) ->
  Sec.__setitem__ self key value σ
  = (Return tt,
     mkStore (<[fresh_option σ := mkOption (Some self) [] true key value]> (options σ))
       (<[self := mkSection (sec_container s) (sec_name s)
                    (sec_structure s ++ [SC_Option (fresh_option σ)])
                    (sec_updated s) (sec_lines s)]> (sections σ))
       (documents σ)).
Proof.
  intros Hs Hnot Hval. rewrite (sec_setitem_append _ _ _ _ value Hs Hnot).
  destruct value; try done. by destruct (Hval l).
Qed.

(** The step [Section.set] and [Document.set] share: set the value of the
    option of a normalized key, or append a new option; bracket access
    then finds an option with that value. *)
Lemma set_then_getitem (σ : store) (l : loc) (s : SectionObj) (key : string)
    (value : pyval) :
  sections σ !! l = Some s ->
  optionxform key = key ->
  (forall v, value <> POption v) ->
  exists σ' s' lo o,
    (if bool_decide (key ∈ Sec.keys_of σ s)
     then o0 <- Sec.__getitem__ l key ;; Option_set_value o0 value
     else Sec.__setitem__ l key value) σ = (Return tt, σ') /\
    documents σ' = documents σ /\
    sections σ' = <[l := s']> (sections σ) /\
    sec_name s' = sec_name s /\
    (key ∈ Sec.keys_of σ s -> s' = s) /\
    Sec.__getitem__ l key σ' = (Return lo, σ') /\
    options σ' !! lo = Some o /\
    Option_value o = value.
Proof.
  intros Hs Hkey Hval. case_bool_decide as Hin.
  - rewrite <-Hkey in Hin.
    destruct (proj1 (sec_getitem_normalized _ _ _ key Hs) Hin)
      as (lo & o & Hget & _ & Ho & _).
    set (o' := mkOption (opt_container o) (opt_lines o) true (opt_key o) value).
    set (σ' := mkStore (<[lo := o']> (options σ)) (sections σ) (documents σ)).
    exists σ', s, lo, o'. split; [|split; [done|split; [|split; [done|split; [done|]]]]].
    + by rewrite (bind_Return _ _ _ _ _ Hget), (set_value_spec _ _ _ _ Ho).
    + simpl. by rewrite insert_id.
    + split; [|split; [apply lookup_insert_eq|done]].
      assert (sections σ' !! l = Some s) as Hs' by done.
      rewrite (sec_getitem_spec _ _ _ _ Hs) in Hget.
      rewrite (sec_getitem_spec _ _ _ _ Hs').
      erewrite (List.filter_ext (key_is σ' (optionxform key))
                  (key_is σ (optionxform key))).
      * by destruct (List.filter _ _); [|injection Hget as ->].
      * intros x. exact (key_is_set_value σ lo o o' _ x _ _ Ho eq_refl).
  - assert (optionxform key ∉ Sec.keys_of σ s) as Hnot by (by rewrite Hkey).
    set (lo := fresh_option σ).
    set (o := mkOption (Some l) [] true key value).
    set (s' := mkSection (sec_container s) (sec_name s) (sec_structure s ++ [SC_Option lo])
                 (sec_updated s) (sec_lines s)).
    set (σ' := mkStore (<[lo := o]> (options σ)) (<[l := s']> (sections σ)) (documents σ)).
    exists σ', s', lo, o.
    split; [by apply sec_setitem_new_value|].
    split; [done|]. split; [done|]. split; [done|]. split; [done|].
    split; [|split; [apply lookup_insert_eq|done]].
    assert (sections σ' !! l = Some s') as Hs' by apply lookup_insert_eq.
    rewrite (sec_getitem_spec _ _ _ _ Hs'), Hkey.
    unfold Sec.iter_options, iter_blocks, s'. cbn [sec_structure].
    rewrite option_refs_app, List.filter_app.
    assert (List.filter (key_is σ' key) (option_refs (sec_structure s)) = []) as ->.
    { apply filter_nil_iff. intros x Hx.
      assert (x <> lo) as Hne by (intros ->; by apply (fresh_option_not_held σ l s)).
      unfold key_is. simpl. rewrite lookup_insert_ne by done.
      rewrite Hkey in Hnot. apply keys_of_filter in Hnot.
      rewrite filter_nil_iff in Hnot. by apply Hnot. }
    simpl. unfold key_is. simpl. rewrite lookup_insert_eq.
    unfold Option_key. simpl. by rewrite Hkey, String.eqb_refl.
Qed.

Lemma sec_options_spec (σ : store) (self : loc) (s : SectionObj) :
  sections σ !! self = Some s ->
  Sec.options self σ = (Return (Sec.keys_of σ s), σ).
Proof. intros Hs. unfold Sec.options. run. by rewrite Hs. Qed.

(** X12: [Section.set] returns the section itself, for chaining; with a
    value that is not an Option, bracket access with the same option name
    then finds an option holding that value.  When the section already had
    the key, its list of blocks is as before: the value was set in place. *)
Theorem section_set_then_getitem (σ : store) (self : loc) (s : SectionObj)
    (option : string) (value : pyval) :
  sections σ !! self = Some s ->
  (forall v, value <> POption v) ->
  exists σ' s' lo o,
    Sec.set self option value σ = (Return self, σ') /\
    sections σ' !! self = Some s' /\
    (optionxform option ∈ Sec.keys_of σ s -> sec_structure s' = sec_structure s) /\
    Sec.__getitem__ self option σ' = (Return lo, σ') /\
    options σ' !! lo = Some o /\
    Option_value o = value.
Proof.
  intros Hs Hval.
  destruct (set_then_getitem σ self s (optionxform option) value Hs
              (optionxform_idempotent option) Hval)
    as (σ' & s' & lo & o & Hrun & _ & Hsecs & _ & Hsame & Hget & Ho & Hv).
  exists σ', s', lo, o. split; [|split; [|split; [|split; [|done]]]].
  - unfold Sec.set. rewrite (bind_Return _ _ _ _ _ (sec_options_spec _ _ _ Hs)).
    by rewrite (bind_Return _ _ _ _ _ Hrun).
  - rewrite Hsecs. apply lookup_insert_eq.
  - intros Hin. by rewrite (Hsame Hin).
  - unfold Sec.__getitem__ in *. by rewrite optionxform_idempotent in Hget.
Qed.

Lemma section_set_then_getitem_witness :
  exists σ' s' lo o,
    Sec.set 0 "FOO" (PStr "9") ex_store = (Return 0, σ') /\
    sections σ' !! 0 = Some s' /\
    (optionxform "FOO" ∈ Sec.keys_of ex_store
       (mkSection 0 "a" [SC_Option 0; SC_Space [LF]; SC_Option 1] false ["[a]" +:+ LF]) ->
     sec_structure s' = [SC_Option 0; SC_Space [LF]; SC_Option 1]) /\
    Sec.__getitem__ 0 "FOO" σ' = (Return lo, σ') /\
    options σ' !! lo = Some o /\
    Option_value o = PStr "9".
Proof.
  apply (section_set_then_getitem ex_store 0 _ "FOO" (PStr "9") eq_refl). discriminate.
Defined.

Lemma doc_getitem_agree (σ σ' : store) (self l : loc) (d : DocumentObj)
    (s s' : SectionObj) (key : string) (x : loc) :
  documents σ !! self = Some d ->
  documents σ' = documents σ ->
  sections σ !! l = Some s ->
  sections σ' = <[l := s']> (sections σ) ->
  sec_name s' = sec_name s ->
  Doc.__getitem__ self key σ = (Return x, σ) ->
  Doc.__getitem__ self key σ' = (Return x, σ').
Proof.
  intros Hd Hdocs Hs Hsecs Hname.
  assert (documents σ' !! self = Some d) as Hd' by (by rewrite Hdocs).
  rewrite (doc_getitem_spec _ _ _ _ Hd), (doc_getitem_spec _ _ _ _ Hd').
  erewrite (List.filter_ext (Doc.name_is σ' key) (Doc.name_is σ key)).
  - destruct (List.filter _ _); [done|]. by intros [= ->].
  - intros y. unfold Doc.name_is. rewrite Hsecs.
    destruct (decide (l = y)) as [->|Hne].
    + by rewrite lookup_insert_eq, Hs, Hname.
    + by rewrite lookup_insert_ne.
Qed.

Lemma try_getitem_found (σ : store) (self l : loc) (section : string) :
  Doc.__getitem__ self section σ = (Return l, σ) ->
  try_except (Doc.__getitem__ self section)
    (fun ex => match ex with
               | KeyError _ => Some (raise (NoSectionError section))
               | _ => None
               end) σ
  = (Return l, σ).
Proof. intros H. unfold try_except. by rewrite H. Qed.

Lemma try_getitem_missing (σ : store) (self : loc) (d : DocumentObj) (section : string) :
  documents σ !! self = Some d ->
  section ∉ Doc.names_of σ d ->
  try_except (Doc.__getitem__ self section)
    (fun ex => match ex with
               | KeyError _ => Some (raise (NoSectionError section))
               | _ => None
               end) σ
  = (Raise (NoSectionError section), σ).
Proof.
  intros Hd Hnot. unfold try_except. rewrite (doc_getitem_spec _ _ _ _ Hd).
  apply names_of_filter in Hnot. by rewrite Hnot.
Qed.

Lemma names_of_getitem (σ : store) (self : loc) (d : DocumentObj) (key : string) :
  documents σ !! self = Some d ->
  key ∈ Doc.names_of σ d ->
  exists l s,
    Doc.__getitem__ self key σ = (Return l, σ) /\
    sections σ !! l = Some s /\ sec_name s = key.
Proof.
  intros Hd Hin.
  assert (exists l, Doc.__getitem__ self key σ = (Return l, σ)) as [l Hget].
  { rewrite (doc_getitem_spec _ _ _ _ Hd).
    destruct (List.filter _ _) eqn:E; [|eauto]. by apply names_of_filter in E. }
  destruct (doc_getitem_found _ _ _ _ _ Hd Hget) as (_ & s & Hs & Hname).
  by exists l, s.
Qed.

(** X7: [Document.set] raises [NoSectionError], changing nothing, for a
    section the document does not have.  For a section it has, and a value
    that is not an Option, it returns the document itself and
    [Document.get] with the same section and option then gives an option
    that holds the value. *)
Theorem document_set_then_get (σ : store) (self : loc) (d : DocumentObj)
    (section option : string) (value fallback : pyval) :
  documents σ !! self = Some d ->
  (forall v, value <> POption v) ->
  (section ∉ Doc.names_of σ d ->
   Doc.set self section option value σ = (Raise (NoSectionError section), σ)) /\
  (section ∈ Doc.names_of σ d ->
   exists σ' lo o,
     Doc.set self section option value σ = (Return self, σ') /\
     Doc.get self section option fallback σ' = (Return (POption lo), σ') /\
     options σ' !! lo = Some o /\
     Option_value o = value).
Proof.
  intros Hd Hval. split.
  - intros Hnot. unfold Doc.set.
    by rewrite (bind_Raise _ _ _ _ _ (try_getitem_missing _ _ _ _ Hd Hnot)).
  - intros Hin. destruct (names_of_getitem _ _ _ _ Hd Hin) as (l & s & Hget & Hs & Hname).
    destruct (set_then_getitem σ l s (optionxform option) value Hs
                (optionxform_idempotent option) Hval)
      as (σ' & s' & lo & o & Hrun & Hdocs & Hsecs & Hname' & _ & Hfind & Ho & Hv).
    assert (sections σ' !! l = Some s') as Hs' by (rewrite Hsecs; apply lookup_insert_eq).
    exists σ', lo, o. split; [|split; [|done]].
    + unfold Doc.set. rewrite (bind_Return _ _ _ _ _ (try_getitem_found _ _ _ _ Hget)).
      rewrite (bind_Return _ _ _ _ _ (sec_contains_spec _ _ _ _ Hs)).
      by rewrite (bind_Return _ _ _ _ _ Hrun).
    + pose proof (doc_getitem_agree σ σ' self l d s s' section l Hd Hdocs Hs Hsecs Hname'
                    Hget) as Hget'.
      unfold Doc.get.
      rewrite (bind_Return _ _ _ _ _ (getitem_get_section _ _ _ _ PUnset Hget')).
      simpl. unfold bind.
      rewrite (sec_get_normalized_key _ _ _ _ fallback Hs' (optionxform_idempotent option)).
      by rewrite Hfind.
Qed.

Lemma document_set_then_get_witness :
  Doc.set 0 "z" "foo" (PStr "9") ex_store = (Raise (NoSectionError "z"), ex_store) /\
  (exists σ' lo o,
     Doc.set 0 "a" "New" (PStr "9") ex_store = (Return 0, σ') /\
     Doc.get 0 "a" "New" PUnset σ' = (Return (POption lo), σ') /\
     options σ' !! lo = Some o /\
     Option_value o = PStr "9").
Proof.
  split.
  - apply (proj1 (document_set_then_get ex_store 0 _ "z" "foo" (PStr "9") PUnset eq_refl
                    ltac:(discriminate))).
    apply (bool_decide_unpack _). vm_compute. exact I.
  - apply (proj2 (document_set_then_get ex_store 0 _ "a" "New" (PStr "9") PUnset eq_refl
                    ltac:(discriminate))).
    apply (bool_decide_unpack _). vm_compute. exact I.
Defined.

(** ** Removing options through the document *)

Lemma keys_unique_split (σ : store) (s : SectionObj) (key : string)
    (pre : list SectionContent) (lo : loc) (post : list SectionContent) :
  keys_unique σ s ->
  sec_structure s = pre ++ SC_Option lo :: post ->
  key_is σ key lo = true ->
  key ∉ omap (fun l => Option_key <$> options σ !! l) (option_refs (pre ++ post)).
Proof.
  intros Huniq Hsplit (o & Ho & Hk)%key_is_true.
  unfold keys_unique, Sec.keys_of, Sec.iter_options, iter_blocks in Huniq.
  rewrite Hsplit, option_refs_app, omap_app in Huniq. simpl in Huniq.
  rewrite Ho in Huniq. simpl in Huniq. rewrite Hk in Huniq.
  apply NoDup_app in Huniq as (_ & Hdisj & Hpost).
  apply NoDup_cons in Hpost as [Hpost _].
  rewrite option_refs_app, omap_app.
  intros [Hin|Hin]%elem_of_app; [|done].
  apply (Hdisj key Hin). left.
Qed.

Lemma keys_other_kept (σ : store) (s : SectionObj) (key other : string)
    (pre : list SectionContent) (lo : loc) (post : list SectionContent) :
  sec_structure s = pre ++ SC_Option lo :: post ->
  key_is σ key lo = true ->
  other ∈ Sec.keys_of σ s ->
  other <> key ->
  other ∈ omap (fun l => Option_key <$> options σ !! l) (option_refs (pre ++ post)).
Proof.
  intros Hsplit (o & Ho & Hk)%key_is_true Hin Hne.
  unfold Sec.keys_of, Sec.iter_options, iter_blocks in Hin.
  rewrite Hsplit, option_refs_app, omap_app in Hin. simpl in Hin.
  rewrite Ho in Hin. simpl in Hin. rewrite Hk in Hin.
  rewrite option_refs_app, omap_app.
  apply elem_of_app in Hin as [?|Hin]; [apply elem_of_app; by left|].
  apply elem_of_cons in Hin as [->|?]; [done|]. apply elem_of_app. by right.
Qed.

(** X9: [Document.remove_option] raises [NoSectionError] for a section the
    document does not have, and never [KeyError].  In a section the
    document has, it answers [False] and changes nothing when the
    normalized option name is not a key; otherwise it answers [True] and
    takes the first option of that key out of the section, and when the
    keys of the section were unique [has_option] then answers [False]. *)
Theorem remove_option_spec (σ : store) (self : loc) (d : DocumentObj)
    (section option : string) :
  documents σ !! self = Some d ->
  (section ∉ Doc.names_of σ d ->
   Doc.remove_option self section option σ = (Raise (NoSectionError section), σ)) /\
  (forall l s,
     Doc.__getitem__ self section σ = (Return l, σ) ->
     sections σ !! l = Some s ->
     (optionxform option ∉ Sec.keys_of σ s ->
      Doc.remove_option self section option σ = (Return false, σ)) /\
     (optionxform option ∈ Sec.keys_of σ s ->
      exists pre lo post σ',
        sec_structure s = pre ++ SC_Option lo :: post /\
        Forall (fun e => Sec.is_option_with_key σ (optionxform option) e = false) pre /\
        key_is σ (optionxform option) lo = true /\
        Doc.remove_option self section option σ = (Return true, σ') /\
        sections σ' !! l
        = Some (mkSection (sec_container s) (sec_name s) (pre ++ post)
                  (sec_updated s) (sec_lines s)) /\
        (keys_unique σ s ->
         Doc.has_option self section option σ' = (Return false, σ')))).
Proof.
  intros Hd. split.
  - intros Hnot. unfold Doc.remove_option.
    by rewrite (bind_Raise _ _ _ _ _ (try_getitem_missing _ _ _ _ Hd Hnot)).
  - intros l s Hget Hs. split.
    + intros Hnot. unfold Doc.remove_option.
      rewrite (bind_Return _ _ _ _ _ (try_getitem_found _ _ _ _ Hget)).
      rewrite (bind_Return _ _ _ _ _ (sec_options_spec _ _ _ Hs)).
      by rewrite bool_decide_eq_false_2.
    + intros Hin.
      destruct (keys_of_split σ s _ Hin) as (pre & lo & o & post & Hsplit & Hpre & Ho & Hk).
      assert (key_is σ (optionxform option) lo = true) as Hlo
        by (apply key_is_true; eauto).
      set (s' := mkSection (sec_container s) (sec_name s) (pre ++ post)
                   (sec_updated s) (sec_lines s)).
      set (σ' := mkStore (options σ) (<[l := s']> (sections σ)) (documents σ)).
      exists pre, lo, post, σ'. repeat (split; [done|]).
      assert (sections σ' !! l = Some s') as Hs' by apply lookup_insert_eq.
      split; [|split; [done|]].
      * unfold Doc.remove_option.
        rewrite (bind_Return _ _ _ _ _ (try_getitem_found _ _ _ _ Hget)).
        rewrite (bind_Return _ _ _ _ _ (sec_options_spec _ _ _ Hs)).
        rewrite bool_decide_eq_true_2 by done.
        by rewrite (bind_Return _ _ _ _ _
                      (proj2 (sec_delitem_spec σ l s (optionxform option) Hs)
                         pre lo post Hsplit Hpre Hlo)).
      * intros Huniq.
        pose proof (doc_getitem_agree σ σ' self l d s s' section l Hd eq_refl Hs eq_refl
                      eq_refl Hget) as Hget'.
        unfold Doc.has_option.
        rewrite (bind_Return _ _ _ _ _ (getitem_get_section _ _ _ _ PEmptyDict Hget')).
        simpl. rewrite (sec_contains_spec _ _ _ _ Hs').
        rewrite bool_decide_eq_false_2; [done|].
        exact (keys_unique_split σ s _ pre lo post Huniq Hsplit Hlo).
Qed.

Lemma remove_option_spec_witness :
  Doc.remove_option 0 "z" "foo" ex_store = (Raise (NoSectionError "z"), ex_store) /\
  Doc.remove_option 0 "a" "nope" ex_store = (Return false, ex_store) /\
  (exists pre lo post σ',
     [SC_Option 0; SC_Space [LF]; SC_Option 1] = pre ++ SC_Option lo :: post /\
     Forall (fun e => Sec.is_option_with_key ex_store (optionxform "BAR") e = false) pre /\
     key_is ex_store (optionxform "BAR") lo = true /\
     Doc.remove_option 0 "a" "BAR" ex_store = (Return true, σ') /\
     sections σ' !! 0 = Some (mkSection 0 "a" (pre ++ post) false ["[a]" +:+ LF]) /\
     (keys_unique ex_store
        (mkSection 0 "a" [SC_Option 0; SC_Space [LF]; SC_Option 1] false ["[a]" +:+ LF]) ->
      Doc.has_option 0 "a" "BAR" σ' = (Return false, σ'))).
Proof.
  split; [|split].
  - apply (proj1 (remove_option_spec ex_store 0 _ "z" "foo" eq_refl)).
    apply (bool_decide_unpack _). vm_compute. exact I.
  - apply (proj1 (proj2 (remove_option_spec ex_store 0 _ "a" "nope" eq_refl)
                    0 _ eq_refl eq_refl)).
    apply (bool_decide_unpack _). vm_compute. exact I.
  - apply (proj2 (proj2 (remove_option_spec ex_store 0 _ "a" "BAR" eq_refl)
                    0 _ eq_refl eq_refl)).
    apply (bool_decide_unpack _). vm_compute. exact I.
Defined.

(** X10: [Document.has_option] always answers, and it answers [True]
    exactly when [Document.get], called for the same section and option
    with no fallback, returns an option. *)
Theorem has_option_iff_get (σ : store) (self : loc) (d : DocumentObj)
    (section option : string) :
  documents σ !! self = Some d ->
  exists b,
    Doc.has_option self section option σ = (Return b, σ) /\
    (b = true <->
     exists lo, Doc.get self section option PUnset σ = (Return (POption lo), σ)).
Proof.
  intros Hd. destruct (decide (section ∈ Doc.names_of σ d)) as [Hin|Hnot].
  - destruct (names_of_getitem _ _ _ _ Hd Hin) as (l & s & Hget & Hs & Hname).
    exists (bool_decide (optionxform option ∈ Sec.keys_of σ s)). split.
    + unfold Doc.has_option.
      rewrite (bind_Return _ _ _ _ _ (getitem_get_section _ _ _ _ PEmptyDict Hget)).
      simpl. by rewrite (sec_contains_spec _ _ _ _ Hs).
    + unfold Doc.get.
      rewrite (bind_Return _ _ _ _ _ (getitem_get_section _ _ _ _ PUnset Hget)).
      simpl. unfold bind. rewrite (sec_get_spec _ _ _ _ _ Hs).
      rewrite bool_decide_eq_true.
      destruct (List.filter _ _) as [|lo rest] eqn:E; simpl.
      * apply keys_of_filter in E. split; [done|]. by intros [lo ?].
      * split; [eauto|]. intros _.
        destruct (decide (optionxform option ∈ Sec.keys_of σ s)) as [?|Hn]; [done|].
        apply keys_of_filter in Hn. congruence.
  - exists false. split.
    + unfold Doc.has_option.
      by rewrite (bind_Return _ _ _ _ _ (get_section_missing _ _ _ _ PEmptyDict Hd Hnot)).
    + split; [done|]. intros [lo Hrun]. unfold Doc.get in Hrun.
      by rewrite (bind_Return _ _ _ _ _ (get_section_missing _ _ _ _ PUnset Hd Hnot))
        in Hrun.
Qed.

Lemma has_option_iff_get_witness :
  exists b,
    Doc.has_option 0 "a" "Foo" ex_store = (Return b, ex_store) /\
    (b = true <->
     exists lo, Doc.get 0 "a" "Foo" PUnset ex_store = (Return (POption lo), ex_store)).
Proof. exact (has_option_iff_get ex_store 0 _ "a" "Foo" eq_refl). Defined.

(** X11: the option name reaches the Document-level operations through
    [optionxform] only: two names with the same normalized form are
    interchangeable in [get], [has_option], [set] and [remove_option], and
    so are a name and its normalized form. *)
Theorem option_name_normalized (σ : store) (self : loc) (section a b : string)
    (value fallback : pyval) :
  optionxform a = optionxform b ->
  Doc.get self section a fallback σ = Doc.get self section b fallback σ /\
  Doc.has_option self section a σ = Doc.has_option self section b σ /\
  Doc.set self section a value σ = Doc.set self section b value σ /\
  Doc.remove_option self section a σ = Doc.remove_option self section b σ /\
  Doc.get self section (optionxform a) fallback σ = Doc.get self section a fallback σ.
Proof.
  intros Hab. unfold Doc.get, Doc.has_option, Doc.set, Doc.remove_option.
  rewrite optionxform_idempotent. by rewrite Hab.
Qed.

Lemma option_name_normalized_witness :
  Doc.get 0 "a" "FOO" PNone ex_store = Doc.get 0 "a" "foo" PNone ex_store /\
  Doc.has_option 0 "a" "FOO" ex_store = Doc.has_option 0 "a" "foo" ex_store /\
  Doc.set 0 "a" "FOO" (PStr "9") ex_store = Doc.set 0 "a" "foo" (PStr "9") ex_store /\
  Doc.remove_option 0 "a" "FOO" ex_store = Doc.remove_option 0 "a" "foo" ex_store /\
  Doc.get 0 "a" (optionxform "FOO") PNone ex_store = Doc.get 0 "a" "FOO" PNone ex_store.
Proof.
  exact (option_name_normalized ex_store 0 "a" "FOO" "foo" (PStr "9") PNone eq_refl).
Defined.

(** ** Options of a section: put, add, delete, then look up *)

Lemma keys_absent_Forall (σ : store) (s : SectionObj) (key : string) :
  key ∉ Sec.keys_of σ s <->
  Forall (fun e => Sec.is_option_with_key σ key e = false) (sec_structure s).
Proof.
  split.
  - intros Hnot. apply existsb_false_Forall.
    destruct (existsb _ _) eqn:Hex; [|done]. exfalso. apply Hnot.
    apply existsb_exists in Hex as (e & He & Hmatch).
    destruct e as [l| |]; try done. simpl in Hmatch.
    apply key_is_true in Hmatch as (o & Ho & <-).
    apply list_elem_of_omap. exists l. split; [|by rewrite Ho].
    apply list_elem_of_omap. exists (SC_Option l). split; [by apply list_elem_of_In|done].
  - intros Hall (pre & l & o & post & Hsplit & _ & Ho & Hk)%keys_of_split.
    rewrite Forall_forall in Hall. specialize (Hall (SC_Option l)). simpl in Hall.
    assert (key_is σ key l = true) as Hl by (apply key_is_true; eauto).
    rewrite Hall in Hl; [done|]. rewrite Hsplit. apply elem_of_app. right. left.
Qed.

(** X13: after [section[key] = option] has put an Option in the place of
    the existing one, [section[key]] is that very Option object. *)
Theorem section_setitem_then_getitem (σ : store) (self : loc) (s : SectionObj)
    (key : string) (pre : list SectionContent) (l : loc) (o : OptionObj)
    (post : list SectionContent) (v : loc) (vo : OptionObj) :
  sections σ !! self = Some s ->
  sec_structure s = pre ++ SC_Option l :: post ->
  Forall (fun e => Sec.is_option_with_key σ (optionxform key) e = false) pre ->
  options σ !! l = Some o ->
  Option_key o = optionxform key ->
  opt_container o = Some self ->
  options σ !! v = Some vo ->
  Option_key vo = key ->
  exists σ',
    Sec.__setitem__ self key (POption v) σ = (Return tt, σ') /\
    Sec.__getitem__ self key σ' = (Return v, σ').
Proof.
  intros Hs Hsplit Hpre Ho Hk Hc Hv Hvk. eexists.
  split; [by apply (sec_setitem_replace σ self s key pre l o post v vo)|].
  eapply (sec_getitem_first _ self _ key pre v vo post);
    [simpl; apply lookup_insert_eq|done|exact Hpre|exact Hv|].
  rewrite <-Hvk. unfold Option_key. by rewrite optionxform_idempotent.
Qed.

Lemma section_setitem_then_getitem_witness :
  exists σ',
    Sec.__setitem__ 0 "foo" (POption 2) ex_store = (Return tt, σ') /\
    Sec.__getitem__ 0 "foo" σ' = (Return 2, σ').
Proof.
  exact (section_setitem_then_getitem ex_store 0 _ "foo" [] 0 _
           [SC_Space [LF]; SC_Option 1] 2 _
           eq_refl eq_refl (Forall_nil_2 _) eq_refl eq_refl eq_refl eq_refl eq_refl).
Defined.

(** X16: [Section.add_option] appends and never shadows: every lookup
    that succeeded before the call returns the same Option object after
    it, and when the section did not have the key of the entry, bracket
    access with that key finds the entry. *)
Theorem add_option_then_getitem (σ : store) (self : loc) (s : SectionObj)
    (entry : loc) (o : OptionObj) :
  sections σ !! self = Some s ->
  options σ !! entry = Some o ->
  exists σ',
    Sec.add_option self entry σ = (Return self, σ') /\
    (forall key l, Sec.__getitem__ self key σ = (Return l, σ) ->
                   Sec.__getitem__ self key σ' = (Return l, σ')) /\
    (Option_key o ∉ Sec.keys_of σ s ->
     Sec.__getitem__ self (opt_key o) σ' = (Return entry, σ')).
Proof.
  intros Hs Ho.
  set (s' := mkSection (sec_container s) (sec_name s) (sec_structure s ++ [SC_Option entry])
               (sec_updated s) (sec_lines s)).
  set (σ' := mkStore (options σ) (<[self := s']> (sections σ)) (documents σ)).
  assert (sections σ' !! self = Some s') as Hs' by apply lookup_insert_eq.
  exists σ'. split; [|split].
  - unfold Sec.add_option. by rewrite (bind_Return _ _ _ _ _ (sec_append_spec _ _ _ _ Hs)).
  - intros key l. rewrite (sec_getitem_spec _ _ _ _ Hs), (sec_getitem_spec _ _ _ _ Hs').
    unfold Sec.iter_options, iter_blocks, s'. cbn [sec_structure].
    rewrite option_refs_app, List.filter_app.
    change (key_is σ' (optionxform key)) with (key_is σ (optionxform key)).
    destruct (List.filter _ (option_refs (sec_structure s))); [done|].
    by intros [= ->].
  - intros Hnot. rewrite (sec_getitem_spec _ _ _ _ Hs').
    unfold Sec.iter_options, iter_blocks, s'. cbn [sec_structure].
    rewrite option_refs_app, List.filter_app.
    change (key_is σ' (optionxform (opt_key o))) with (key_is σ (Option_key o)).
    apply keys_of_filter in Hnot. unfold Sec.iter_options, iter_blocks in Hnot.
    rewrite Hnot. simpl.
    assert (key_is σ (Option_key o) entry = true) as -> by (apply key_is_true; eauto).
    done.
Qed.

Lemma add_option_then_getitem_witness :
  exists σ',
    Sec.add_option 0 3 ex_store = (Return 0, σ') /\
    (forall key l, Sec.__getitem__ 0 key ex_store = (Return l, ex_store) ->
                   Sec.__getitem__ 0 key σ' = (Return l, σ')) /\
    (Option_key (mkOption None [] false "baz" (PStr "4"))
     ∉ Sec.keys_of ex_store
         (mkSection 0 "a" [SC_Option 0; SC_Space [LF]; SC_Option 1] false ["[a]" +:+ LF]) ->
     Sec.__getitem__ 0 "baz" σ' = (Return 3, σ')).
Proof. exact (add_option_then_getitem ex_store 0 _ 3 _ eq_refl eq_refl). Defined.

(** X17: [del section[key]] raises [KeyError] and changes nothing when no
    option has the key as it was given.  When the keys of the section are
    unique and one of them is the key, it succeeds, the key is no longer
    in the section and every other key still is. *)
Theorem section_delitem_then_contains (σ : store) (self : loc) (s : SectionObj)
    (key : string) :
  sections σ !! self = Some s ->
  (key ∉ Sec.keys_of σ s -> Sec.__delitem__ self key σ = (Raise (KeyError key), σ)) /\
  (key ∈ Sec.keys_of σ s ->
   keys_unique σ s ->
   exists σ',
     Sec.__delitem__ self key σ = (Return tt, σ') /\
     Sec.__contains__ self key σ' = (Return false, σ') /\
     forall other, other ∈ Sec.keys_of σ s -> other <> key ->
                   Sec.__contains__ self other σ' = (Return true, σ')).
Proof.
  intros Hs. split.
  - intros Hnot. apply (proj1 (sec_delitem_spec σ self s key Hs)).
    by apply keys_absent_Forall.
  - intros Hin Huniq.
    destruct (keys_of_split σ s _ Hin) as (pre & lo & o & post & Hsplit & Hpre & Ho & Hk).
    assert (key_is σ key lo = true) as Hlo by (apply key_is_true; eauto).
    set (s' := mkSection (sec_container s) (sec_name s) (pre ++ post)
                 (sec_updated s) (sec_lines s)).
    set (σ' := mkStore (options σ) (<[self := s']> (sections σ)) (documents σ)).
    assert (sections σ' !! self = Some s') as Hs' by apply lookup_insert_eq.
    exists σ'. split; [|split].
    + exact (proj2 (sec_delitem_spec σ self s key Hs) pre lo post Hsplit Hpre Hlo).
    + rewrite (sec_contains_spec _ _ _ _ Hs').
      rewrite bool_decide_eq_false_2; [done|].
      exact (keys_unique_split σ s key pre lo post Huniq Hsplit Hlo).
    + intros other Hother Hne. rewrite (sec_contains_spec _ _ _ _ Hs').
      rewrite bool_decide_eq_true_2; [done|].
      exact (keys_other_kept σ s key other pre lo post Hsplit Hlo Hother Hne).
Qed.

Lemma section_delitem_then_contains_witness :
  Sec.__delitem__ 0 "nope" ex_store = (Raise (KeyError "nope"), ex_store) /\
  (exists σ',
     Sec.__delitem__ 0 "foo" ex_store = (Return tt, σ') /\
     Sec.__contains__ 0 "foo" σ' = (Return false, σ') /\
     forall other,
       other ∈ Sec.keys_of ex_store
                 (mkSection 0 "a" [SC_Option 0; SC_Space [LF]; SC_Option 1] false
                    ["[a]" +:+ LF]) ->
       other <> "foo" ->
       Sec.__contains__ 0 other σ' = (Return true, σ')).
Proof.
  split.
  - apply (proj1 (section_delitem_then_contains ex_store 0 _ "nope" eq_refl)).
    apply (bool_decide_unpack _). vm_compute. exact I.
  - apply (proj2 (section_delitem_then_contains ex_store 0 _ "foo" eq_refl)).
    + apply (bool_decide_unpack _). vm_compute. exact I.
    + unfold keys_unique. apply (bool_decide_unpack _). vm_compute. exact I.
Defined.

(** ** Comment and blank lines added to a section *)

Lemma sec_add_comment_run (σ : store) (self : loc) (s : SectionObj) (line : string) :
  sections σ !! self = Some s ->
  Sec.add_comment self line σ
  = (Return self,
     mkStore (options σ)
       (<[self := mkSection (sec_container s) (sec_name s)
                    (match last (sec_structure s) with
                     | Some (SC_Comment lines) =>
                         removelast (sec_structure s) ++ [SC_Comment (lines ++ [line])]
                     | _ => sec_structure s ++ [SC_Comment [line]]
                     end)
                    (sec_updated s) (sec_lines s)]> (sections σ))
       (documents σ)).
Proof.
  intros Hs. unfold Sec.add_comment, bind at 1, read_section. rewrite Hs.
  unfold last_block.
  destruct (last (sec_structure s)) as [[l|lines|lines]|] eqn:Hlast;
    try (by rewrite (bind_Return _ _ _ _ _ (sec_append_spec _ _ _ _ Hs))).
  unfold bind, Sec.set_structure, bind, read_section. rewrite Hs. reflexivity.
Qed.

Lemma sec_add_space_run (σ : store) (self : loc) (s : SectionObj) (line : string) :
  sections σ !! self = Some s ->
  Sec.add_space self line σ
  = (Return self,
     mkStore (options σ)
       (<[self := mkSection (sec_container s) (sec_name s)
                    (match last (sec_structure s) with
                     | Some (SC_Space lines) =>
                         removelast (sec_structure s) ++ [SC_Space (lines ++ [line])]
                     | _ => sec_structure s ++ [SC_Space [line]]
                     end)
                    (sec_updated s) (sec_lines s)]> (sections σ))
       (documents σ)).
Proof.
  intros Hs. unfold Sec.add_space, bind at 1, read_section. rewrite Hs.
  unfold last_block.
  destruct (last (sec_structure s)) as [[l|lines|lines]|] eqn:Hlast;
    try (by rewrite (bind_Return _ _ _ _ _ (sec_append_spec _ _ _ _ Hs))).
  unfold bind, Sec.set_structure, bind, read_section. rewrite Hs. reflexivity.
Qed.

Lemma last_snoc_Some {A : Type} (l : list A) (x : A) : last (l ++ [x]) = Some x.
Proof. apply last_Some. by exists l. Qed.

(** X15: consecutive comment lines are merged into one Comment block and
    a blank line after them opens a new Space block: after
    [add_comment(a)], [add_comment(b)], [add_space(c)] the section ends
    in a Comment block whose last two lines are [a] and [b], followed by
    the Space block [c]; the blocks before them are those the section
    had, with the lines of a trailing Comment block taken into the
    merged one. *)
Theorem comment_lines_merge (σ : store) (self : loc) (s : SectionObj)
    (a b c : string) :
  sections σ !! self = Some s ->
  exists front lines σ1 σ2 σ3 s3,
    Sec.add_comment self a σ = (Return self, σ1) /\
    Sec.add_comment self b σ1 = (Return self, σ2) /\
    Sec.add_space self c σ2 = (Return self, σ3) /\
    sections σ3 !! self = Some s3 /\
    sec_structure s3 = front ++ [SC_Comment (lines ++ [a; b]); SC_Space [c]] /\
    sec_name s3 = sec_name s /\
    match last (sec_structure s) with
    | Some (SC_Comment old) => sec_structure s = front ++ [SC_Comment old] /\ lines = old
    | _ => sec_structure s = front /\ lines = []
    end.
Proof.
  intros Hs.
  assert (exists front lines,
            match last (sec_structure s) with
            | Some (SC_Comment old) =>
                removelast (sec_structure s) ++ [SC_Comment (old ++ [a])]
            | _ => sec_structure s ++ [SC_Comment [a]]
            end = front ++ [SC_Comment (lines ++ [a])] /\
            match last (sec_structure s) with
            | Some (SC_Comment old) =>
                sec_structure s = front ++ [SC_Comment old] /\ lines = old
            | _ => sec_structure s = front /\ lines = []
            end) as (front & lines & Hone & Hfront).
  { destruct (last (sec_structure s)) as [[l|old|old]|] eqn:Hlast;
      try (by exists (sec_structure s), []).
    exists (removelast (sec_structure s)), old.
    split; [done|]. split; [by apply last_removelast|done]. }
  pose proof (sec_add_comment_run σ self s a Hs) as H1. rewrite Hone in H1.
  match type of H1 with _ = (_, ?st) => set (σ1 := st) in * end.
  pose proof (sec_add_comment_run σ1 self _ b (lookup_insert_eq _ _ _)) as H2.
  cbn [sec_structure sec_container sec_name sec_updated sec_lines] in H2.
  rewrite last_snoc_Some, removelast_last, <-(app_assoc lines [a] [b]) in H2.
  match type of H2 with _ = (_, ?st) => set (σ2 := st) in * end.
  pose proof (sec_add_space_run σ2 self _ c (lookup_insert_eq _ _ _)) as H3.
  cbn [sec_structure sec_container sec_name sec_updated sec_lines] in H3.
  rewrite last_snoc_Some, <-app_assoc in H3.
  exists front, lines, σ1, σ2. do 2 eexists.
  split; [exact H1|]. split; [exact H2|]. split; [exact H3|].
  split; [apply lookup_insert_eq|]. split; [done|]. split; [done|exact Hfront].
Qed.

Lemma comment_lines_merge_witness :
  exists front lines σ1 σ2 σ3 s3,
    Sec.add_comment 0 "# a" ex_store = (Return 0, σ1) /\
    Sec.add_comment 0 "# b" σ1 = (Return 0, σ2) /\
    Sec.add_space 0 LF σ2 = (Return 0, σ3) /\
    sections σ3 !! 0 = Some s3 /\
    sec_structure s3 = front ++ [SC_Comment (lines ++ ["# a"; "# b"]); SC_Space [LF]] /\
    sec_name s3 = "a" /\
    ([SC_Option 0; SC_Space [LF]; SC_Option 1] = front /\ lines = []).
Proof. exact (comment_lines_merge ex_store 0 _ "# a" "# b" LF eq_refl). Defined.

Section AddLineText.
Variable option_text : OptionObj -> string.

Lemma add_line_text (σ : store) (self : loc) (s : SectionObj) (line : string)
    (structure : list SectionContent) :
  section_closed σ s ->
  extends_entries option_text line (sec_structure s) structure ->
  let σ' := mkStore (options σ)
              (<[self := mkSection (sec_container s) (sec_name s) structure
                           (sec_updated s) (sec_lines s)]> (sections σ))
              (documents σ) in
  Sec.__str__ option_text self σ'
  = (Return (section_text option_text σ s +:+ line), σ') /\
  Sec.options self σ' = (Return (Sec.keys_of σ s), σ').
Proof.
  intros Hclosed [Hrefs Htext] σ'.
  set (s' := mkSection (sec_container s) (sec_name s) structure
               (sec_updated s) (sec_lines s)).
  assert (sections σ' !! self = Some s') as Hs' by apply lookup_insert_eq.
  assert (section_closed σ' s') as Hclosed'.
  { unfold section_closed, Sec.iter_options, iter_blocks, s'. cbn [sec_structure].
    rewrite Hrefs. exact Hclosed. }
  split.
  - rewrite (sec_str_spec option_text _ _ _ Hs' Hclosed').
    unfold section_text, s'. cbn [sec_structure sec_updated sec_lines sec_name].
    rewrite (Htext σ'), append_assoc. reflexivity.
  - rewrite (sec_options_spec _ _ _ Hs').
    unfold Sec.keys_of, Sec.iter_options, iter_blocks, s'. cbn [sec_structure].
    rewrite Hrefs. reflexivity.
Qed.

(** X14: [Section.add_comment] and [Section.add_space] return the section
    itself, leave its option names as they were, and make the text of the
    section the text it had followed by the line. *)
Theorem add_line_extends_text (σ : store) (self : loc) (s : SectionObj)
    (line : string) :
  sections σ !! self = Some s ->
  section_closed σ s ->
  Sec.__str__ option_text self σ = (Return (section_text option_text σ s), σ) /\
  (exists σ',
     Sec.add_comment self line σ = (Return self, σ') /\
     Sec.__str__ option_text self σ'
     = (Return (section_text option_text σ s +:+ line), σ') /\
     Sec.options self σ' = (Return (Sec.keys_of σ s), σ')) /\
  (exists σ',
     Sec.add_space self line σ = (Return self, σ') /\
     Sec.__str__ option_text self σ'
     = (Return (section_text option_text σ s +:+ line), σ') /\
     Sec.options self σ' = (Return (Sec.keys_of σ s), σ')).
Proof.
  intros Hs Hclosed. split; [by apply sec_str_spec|]. split.
  - destruct (sec_add_comment_spec option_text σ self s line Hs)
      as (structure & Hrun & Hext).
    eexists. split; [exact Hrun|].
    exact (add_line_text σ self s line structure Hclosed Hext).
  - destruct (sec_add_space_spec option_text σ self s line Hs)
      as (structure & Hrun & Hext).
    eexists. split; [exact Hrun|].
    exact (add_line_text σ self s line structure Hclosed Hext).
Qed.
End AddLineText.

Lemma add_line_extends_text_witness :
  let s := mkSection 0 "a" [SC_Option 0; SC_Space [LF]; SC_Option 1] false ["[a]" +:+ LF] in
  Sec.__str__ ex_option_text 0 ex_store
  = (Return (section_text ex_option_text ex_store s), ex_store) /\
  (exists σ',
     Sec.add_comment 0 "# note" ex_store = (Return 0, σ') /\
     Sec.__str__ ex_option_text 0 σ'
     = (Return (section_text ex_option_text ex_store s +:+ "# note"), σ') /\
     Sec.options 0 σ' = (Return (Sec.keys_of ex_store s), σ')) /\
  (exists σ',
     Sec.add_space 0 "# note" ex_store = (Return 0, σ') /\
     Sec.__str__ ex_option_text 0 σ'
     = (Return (section_text ex_option_text ex_store s +:+ "# note"), σ') /\
     Sec.options 0 σ' = (Return (Sec.keys_of ex_store s), σ')).
Proof.
  apply (add_line_extends_text ex_option_text ex_store 0 _ "# note" eq_refl).
  unfold section_closed. repeat constructor; by eexists.
Defined.

(** ** The dict and the pairs of a section *)

Section DictFold.
Context {A V : Type}.
Variable kf : A -> string.
Variable vf : A -> V.

(** A dict comprehension [{kf(x): vf(x) for x in xs}], continued from
    [acc]. *)
Lemma dict_fold_other (xs : list A) (acc : gmap string V) (k : string) :
  (k ∉ kf <$> xs) ->
  foldl (fun (dict : gmap string V) (x : A) => <[kf x := vf x]> dict) acc xs !! k
  = acc !! k.
Proof.
  revert acc. induction xs as [|x xs IH]; intros acc Hnot; [done|].
  simpl. rewrite IH.
  - apply lookup_insert_ne. intros Heq. apply Hnot. rewrite <-Heq. left.
  - intros Hin. apply Hnot. by right.
Qed.

Lemma dict_fold_last (pre : list A) (x : A) (post : list A) :
  (kf x ∉ kf <$> post) ->
  foldl (fun (dict : gmap string V) (x : A) => <[kf x := vf x]> dict) ∅
        (pre ++ x :: post) !! kf x
  = Some (vf x).
Proof.
  intros Hnot. rewrite foldl_app. simpl.
  rewrite (dict_fold_other _ _ _ Hnot). apply lookup_insert_eq.
Qed.

Lemma dict_fold_dom (xs : list A) (k : string) :
  is_Some (foldl (fun (dict : gmap string V) (x : A) => <[kf x := vf x]> dict) ∅ xs !! k)
  <-> k ∈ kf <$> xs.
Proof.
  induction xs as [|x xs IH] using rev_ind.
  - simpl. rewrite lookup_empty. split; [by intros [? ?]|by intros ?%elem_of_nil].
  - rewrite foldl_snoc, fmap_app, elem_of_app. simpl.
    destruct (decide (kf x = k)) as [<-|Hne].
    + rewrite lookup_insert_eq. split; [intros _; right; left|by eexists].
    + rewrite lookup_insert_ne by done. rewrite IH. split; [by left|].
      intros [?|Hin]; [done|]. by apply list_elem_of_singleton in Hin.
Qed.
End DictFold.

Lemma keys_of_options (σ : store) (blocks : list loc) :
  omap (fun l => Option_key <$> options σ !! l) blocks
  = Option_key <$> omap (fun l => options σ !! l) blocks.
Proof. symmetry. apply list_fmap_omap. Qed.

Lemma option_refs_split (blocks : list SectionContent) (l : loc) :
  l ∈ option_refs blocks ->
  exists pre post, blocks = pre ++ SC_Option l :: post.
Proof.
  intros (e & He & Hel)%list_elem_of_omap.
  destruct e as [l'| |]; try done. injection Hel as ->.
  by apply list_elem_of_split.
Qed.

Lemma keys_nomatch (σ : store) (blocks : list SectionContent) (key : string) :
  (key ∉ omap (fun l => Option_key <$> options σ !! l) (option_refs blocks)) ->
  Forall (fun e => Sec.is_option_with_key σ key e = false) blocks.
Proof.
  intros Hnot.
  by apply (keys_absent_Forall σ (mkSection 0 "" blocks false []) key).
Qed.

(** X18: [Section.to_dict] gives a dict whose keys are the option names of
    the section.  Under a name it holds the value of the last option of
    that name, whereas bracket access returns the first one; when the
    names are unique the dict therefore agrees with bracket access. *)
Theorem section_to_dict_spec (σ : store) (self : loc) (s : SectionObj) :
  sections σ !! self = Some s ->
  exists dict,
    Sec.to_dict self σ = (Return dict, σ) /\
    (forall k, is_Some (dict !! k) <-> k ∈ Sec.keys_of σ s) /\
    (forall pre l o post,
       sec_structure s = pre ++ SC_Option l :: post ->
       options σ !! l = Some o ->
       Forall (fun e => Sec.is_option_with_key σ (Option_key o) e = false) post ->
       dict !! Option_key o = Some (Option_value o)) /\
    (keys_unique σ s ->
     forall key l o,
       Sec.__getitem__ self key σ = (Return l, σ) ->
       options σ !! l = Some o ->
       dict !! optionxform key = Some (Option_value o)).
Proof.
  intros Hs. eexists. split; [unfold Sec.to_dict; run; by rewrite Hs|].
  assert (forall pre l o post,
            sec_structure s = pre ++ SC_Option l :: post ->
            options σ !! l = Some o ->
            Forall (fun e => Sec.is_option_with_key σ (Option_key o) e = false) post ->
            foldl (fun (dict : gmap string pyval) (opt : OptionObj) =>
                     <[Option_key opt := Option_value opt]> dict) ∅
                  (omap (fun l => options σ !! l) (Sec.iter_options s))
            !! Option_key o = Some (Option_value o)) as Hlast.
  { intros pre l o post Hsplit Ho Hpost.
    unfold Sec.iter_options, iter_blocks. rewrite Hsplit, option_refs_app, omap_app.
    simpl. rewrite Ho. apply (dict_fold_last Option_key Option_value).
    rewrite <-keys_of_options. intros (l' & Hl' & Hk)%list_elem_of_omap.
    pose proof (filter_key_option_refs _ _ _ Hpost) as Hnone.
    rewrite filter_nil_iff in Hnone. specialize (Hnone l' Hl').
    destruct (options σ !! l') as [o'|] eqn:Ho'; [|done]. injection Hk as Hk.
    assert (key_is σ (Option_key o) l' = true) as Hyes by (apply key_is_true; eauto).
    congruence. }
  split; [|split; [exact Hlast|]].
  - intros k. rewrite (dict_fold_dom Option_key Option_value). unfold Sec.keys_of.
    by rewrite keys_of_options.
  - intros Huniq key l o. rewrite (sec_getitem_spec _ _ _ _ Hs).
    destruct (List.filter _ _) as [|l' ls] eqn:Hfilter; [done|]. intros [= ->] Ho.
    assert (l ∈ List.filter (key_is σ (optionxform key)) (Sec.iter_options s)) as Hl
      by (rewrite Hfilter; left).
    apply list_elem_of_In, filter_In in Hl as [Hl Hkey]. apply list_elem_of_In in Hl.
    destruct (option_refs_split _ _ Hl) as (pre & post & Hsplit).
    pose proof Hkey as (o' & Ho' & Hk)%key_is_true.
    assert (o' = o) as -> by congruence. rewrite <-Hk.
    apply (Hlast pre l o post Hsplit Ho).
    pose proof (keys_unique_split σ s _ pre l post Huniq Hsplit Hkey) as Hnot.
    rewrite Hk. apply keys_nomatch in Hnot.
    by apply Forall_app in Hnot as [_ ?].
Qed.

Lemma section_to_dict_spec_witness :
  let s := mkSection 0 "a" [SC_Option 0; SC_Space [LF]; SC_Option 1] false ["[a]" +:+ LF] in
  exists dict,
    Sec.to_dict 0 ex_store = (Return dict, ex_store) /\
    (forall k, is_Some (dict !! k) <-> k ∈ Sec.keys_of ex_store s) /\
    (forall pre l o post,
       sec_structure s = pre ++ SC_Option l :: post ->
       options ex_store !! l = Some o ->
       Forall (fun e => Sec.is_option_with_key ex_store (Option_key o) e = false) post ->
       dict !! Option_key o = Some (Option_value o)) /\
    (keys_unique ex_store s ->
     forall key l o,
       Sec.__getitem__ 0 key ex_store = (Return l, ex_store) ->
       options ex_store !! l = Some o ->
       dict !! optionxform key = Some (Option_value o)).
Proof. exact (section_to_dict_spec ex_store 0 _ eq_refl). Defined.

(** X19: [Section.items] pairs, in storage order, each option name with
    its Option object: the names are what [options] and iteration over the
    section give, the objects are what [option_blocks] gives, and when the
    names are unique, bracket access with the name of a pair returns the
    object of that pair. *)
Theorem section_items_spec (σ : store) (self : loc) (s : SectionObj) :
  sections σ !! self = Some s ->
  section_closed σ s ->
  exists pairs,
    Sec.items self σ = (Return pairs, σ) /\
    Sec.options self σ = (Return pairs.*1, σ) /\
    Sec.__iter__ self σ = (Return pairs.*1, σ) /\
    Sec.option_blocks self σ = (Return pairs.*2, σ) /\
    (keys_unique σ s ->
     forall k l, (k, l) ∈ pairs -> Sec.__getitem__ self k σ = (Return l, σ)).
Proof.
  intros Hs Hclosed. eexists.
  split; [unfold Sec.items, Sec.option_blocks; run; by rewrite Hs|].
  split; [|split; [|split]].
  - rewrite (sec_options_spec _ _ _ Hs). do 2 f_equal. unfold Sec.keys_of.
    rewrite list_fmap_omap. apply list_omap_ext, Forall_Forall2_diag.
    apply Forall_forall. intros l _. by destruct (options σ !! l).
  - unfold Sec.__iter__. run. rewrite Hs. do 2 f_equal.
    rewrite list_fmap_omap. apply list_omap_ext, Forall_Forall2_diag.
    apply Forall_forall. intros l _. by destruct (options σ !! l).
  - unfold Sec.option_blocks. run. rewrite Hs. do 2 f_equal.
    unfold section_closed in Hclosed.
    induction Hclosed as [|l ls [o Ho] _ IH]; [done|].
    cbn. rewrite Ho. cbn. by rewrite <-IH.
  - intros Huniq k l (l' & Hl & Hpair)%list_elem_of_omap.
    destruct (options σ !! l') as [o|] eqn:Ho; [|done].
    injection Hpair as <- ->.
    destruct (option_refs_split _ _ Hl) as (pre & post & Hsplit).
    assert (key_is σ (Option_key o) l = true) as Hkey by (apply key_is_true; eauto).
    pose proof (keys_unique_split σ s _ pre l post Huniq Hsplit Hkey) as Hnot.
    apply keys_nomatch, Forall_app in Hnot as [Hpre _].
    assert (optionxform (Option_key o) = Option_key o) as Hnorm
      by apply optionxform_idempotent.
    apply (sec_getitem_first σ self s _ pre l o post Hs Hsplit);
      rewrite ?Hnorm; done.
Qed.

Lemma section_items_spec_witness :
  exists pairs,
    Sec.items 0 ex_store = (Return pairs, ex_store) /\
    Sec.options 0 ex_store = (Return pairs.*1, ex_store) /\
    Sec.__iter__ 0 ex_store = (Return pairs.*1, ex_store) /\
    Sec.option_blocks 0 ex_store = (Return pairs.*2, ex_store) /\
    (keys_unique ex_store
       (mkSection 0 "a" [SC_Option 0; SC_Space [LF]; SC_Option 1] false ["[a]" +:+ LF]) ->
     forall k l, (k, l) ∈ pairs -> Sec.__getitem__ 0 k ex_store = (Return l, ex_store)).
Proof.
  apply (section_items_spec ex_store 0 _ eq_refl).
  unfold section_closed. repeat constructor; by eexists.
Defined.

(** ** The pairs and the dict of a document *)

Lemma section_refs_split (blocks : list ConfigContent) (l : loc) :
  l ∈ section_refs blocks ->
  exists pre post, blocks = pre ++ CC_Section l :: post.
Proof.
  intros (e & He & Hel)%list_elem_of_omap.
  destruct e as [l'| |]; try done. injection Hel as ->.
  by apply list_elem_of_split.
Qed.

(** With unique names, the section of a name is the one bracket access
    returns. *)
Lemma doc_getitem_unique (σ : store) (self l : loc) (d : DocumentObj) (s : SectionObj) :
  documents σ !! self = Some d ->
  names_unique σ d ->
  l ∈ Doc.iter_sections d ->
  sections σ !! l = Some s ->
  Doc.__getitem__ self (sec_name s) σ = (Return l, σ).
Proof.
  intros Hd Huniq Hl Hs. rewrite (doc_getitem_spec _ _ _ _ Hd).
  destruct (section_refs_split _ _ Hl) as (pre & post & Hsplit).
  unfold names_unique, Doc.names_of in Huniq.
  unfold Doc.iter_sections in *. rewrite Hsplit, section_refs_app in *.
  rewrite omap_app in Huniq. simpl in Huniq. rewrite Hs in Huniq. simpl in Huniq.
  apply NoDup_app in Huniq as (_ & Hdisj & _).
  rewrite List.filter_app.
  assert (List.filter (Doc.name_is σ (sec_name s)) (section_refs pre) = []) as ->.
  { apply filter_nil_iff. intros x Hx.
    destruct (Doc.name_is σ (sec_name s) x) eqn:Hname; [|done]. exfalso.
    apply name_is_true in Hname as (s' & Hs' & Hn).
    apply (Hdisj (sec_name s)); [|left].
    apply list_elem_of_omap. exists x. split; [done|]. by rewrite Hs', <-Hn. }
  simpl.
  assert (Doc.name_is σ (sec_name s) l = true) as -> by (apply name_is_true; eauto).
  done.
Qed.

(** X20: [Document.items()] pairs each section name with its Section
    object, in the order of [sections()]; with unique names bracket access
    with the name of a pair returns the object of that pair.
    [Document.items(section)] gives the pairs of that section, whose names
    are what [Document.options(section)] lists; for a section the document
    does not have, [items] raises [KeyError] whereas [options] raises
    [NoSectionError]. *)
Theorem document_items_spec (σ : store) (self : loc) (d : DocumentObj) :
  documents σ !! self = Some d ->
  (exists pairs,
     Doc.items self None σ = (Return pairs, σ) /\
     Doc.sections self σ = (Return pairs.*1, σ) /\
     (names_unique σ d ->
      forall k v, (k, v) ∈ pairs ->
                  exists l, v = PSection l /\ Doc.__getitem__ self k σ = (Return l, σ))) /\
  (forall section,
     section ∉ Doc.names_of σ d ->
     Doc.items self (Some section) σ = (Raise (KeyError section), σ) /\
     Doc.options self section σ = (Raise (NoSectionError section), σ)) /\
  (forall section,
     section ∈ Doc.names_of σ d ->
     exists l pairs,
       Doc.__getitem__ self section σ = (Return l, σ) /\
       Sec.items l σ = (Return pairs, σ) /\
       Doc.items self (Some section) σ
       = (Return (map (fun p => (p.1, POption p.2)) pairs), σ) /\
       Doc.options self section σ = (Return pairs.*1, σ)).
Proof.
  intros Hd. split; [|split].
  - eexists. split; [unfold Doc.items; run; by rewrite Hd|]. split.
    + rewrite (doc_sections_spec _ _ _ Hd). do 2 f_equal.
      unfold Doc.names_of, Doc.named_sections.
      rewrite <-list_fmap_compose, list_fmap_omap.
      apply list_omap_ext, Forall_Forall2_diag, Forall_forall.
      intros l _. by destruct (sections σ !! l).
    + intros Huniq k v ([k' l] & [= -> ->] & Hin)%list_elem_of_fmap.
      apply list_elem_of_omap in Hin as (l' & Hl & Hpair).
      destruct (sections σ !! l') as [s|] eqn:Hs; [|done].
      injection Hpair as <- ->. exists l. split; [done|].
      by apply (doc_getitem_unique σ self l d s).
  - intros section Hnot. split.
    + unfold Doc.items. apply bind_Raise.
      rewrite (doc_getitem_spec _ _ _ _ Hd).
      apply names_of_filter in Hnot. by rewrite Hnot.
    + unfold Doc.options.
      rewrite (bind_Return _ _ _ _ _ (has_section_spec _ _ _ _ Hd)).
      by rewrite bool_decide_eq_false_2.
  - intros section Hin.
    destruct (names_of_getitem σ self d section Hd Hin) as (l & s & Hget & Hs & Hname).
    exists l. eexists. split; [exact Hget|].
    assert (Sec.items l σ
            = (Return (omap (fun l => (fun opt => (Option_key opt, l)) <$> options σ !! l)
                            (Sec.iter_options s)), σ)) as Hitems
      by (unfold Sec.items, Sec.option_blocks; run; by rewrite Hs).
    split; [exact Hitems|]. split.
    + unfold Doc.items. rewrite (bind_Return _ _ _ _ _ Hget).
      by rewrite (bind_Return _ _ _ _ _ Hitems).
    + unfold Doc.options.
      rewrite (bind_Return _ _ _ _ _ (has_section_spec _ _ _ _ Hd)).
      rewrite bool_decide_eq_true_2 by done. simpl.
      rewrite (bind_Return _ _ _ _ _ Hget), (sec_options_spec _ _ _ Hs).
      do 2 f_equal. unfold Sec.keys_of. rewrite list_fmap_omap.
      apply list_omap_ext, Forall_Forall2_diag, Forall_forall.
      intros x _. by destruct (options σ !! x).
Qed.

Lemma document_items_spec_witness :
  let d := mkDocument [CC_Section 0; CC_Comment ["# end" +:+ LF]; CC_Section 1] in
  (exists pairs,
     Doc.items 0 None ex_store = (Return pairs, ex_store) /\
     Doc.sections 0 ex_store = (Return pairs.*1, ex_store) /\
     (names_unique ex_store d ->
      forall k v, (k, v) ∈ pairs ->
                  exists l, v = PSection l /\
                            Doc.__getitem__ 0 k ex_store = (Return l, ex_store))) /\
  (forall section,
     section ∉ Doc.names_of ex_store d ->
     Doc.items 0 (Some section) ex_store = (Raise (KeyError section), ex_store) /\
     Doc.options 0 section ex_store = (Raise (NoSectionError section), ex_store)) /\
  (forall section,
     section ∈ Doc.names_of ex_store d ->
     exists l pairs,
       Doc.__getitem__ 0 section ex_store = (Return l, ex_store) /\
       Sec.items l ex_store = (Return pairs, ex_store) /\
       Doc.items 0 (Some section) ex_store
       = (Return (map (fun p => (p.1, POption p.2)) pairs), ex_store) /\
       Doc.options 0 section ex_store = (Return pairs.*1, ex_store)).
Proof. exact (document_items_spec ex_store 0 _ eq_refl). Defined.

(** ** The text of a document after a section was added or removed *)

Section DocumentEdits.
Variable option_text : OptionObj -> string.

(** X21: [add_section(name)] with a name the document does not have makes
    the text of the document the text it had followed by the header line
    [[name]]. *)
Theorem add_section_extends_text (σ : store) (self : loc) (d : DocumentObj)
    (name : string) :
  documents σ !! self = Some d ->
  document_closed σ d ->
  (name ∉ Doc.names_of σ d) ->
  Doc.__str__ option_text self σ = (Return (document_text option_text σ d), σ) /\
  exists σ',
    Doc.add_section self (PStr name) σ = (Return tt, σ') /\
    Doc.__str__ option_text self σ'
    = (Return (document_text option_text σ d +:+ "[" +:+ name +:+ "]" +:+ LF), σ').
Proof.
  intros Hd Hclosed Hnot. split; [by apply doc_str_spec|].
  set (section := fresh_section σ).
  set (σ' := mkStore (options σ)
               (<[section := Sec.__init__ name self]> (sections σ))
               (<[self := mkDocument (doc_structure d ++ [CC_Section section])]>
                  (documents σ))).
  assert (section ∉ section_refs (doc_structure d)) as Hfresh
    by apply (fresh_section_not_held σ self d Hd).
  assert (same_on σ σ' (doc_structure d)) as Hsame.
  { intros l Hl. split; [|done]. simpl.
    rewrite lookup_insert_ne; [done|by intros <-]. }
  assert (sections σ' !! section = Some (Sec.__init__ name self)) as Hs
    by apply lookup_insert_eq.
  exists σ'. split.
  - rewrite (add_section_string _ _ _ _ Hd).
    by rewrite bool_decide_eq_false_2.
  - erewrite doc_str_spec; [|apply lookup_insert_eq|].
    + do 2 f_equal. unfold document_text. cbn [doc_structure].
      rewrite (blocks_text_snoc option_text _ _ _ _ Hs).
      rewrite (blocks_text_agree option_text _ _ _ Hsame). f_equal.
      unfold section_text. simpl. by rewrite !append_nil_r.
    + apply document_closed_app. split; [by apply (blocks_closed_agree σ)|].
      exists (Sec.__init__ name self). split; [done|]. constructor.
Qed.

(** X22: [remove_section(name)] of a section the document has takes the
    text of the first section of that name, and nothing else, out of the
    text of the document. *)
Theorem remove_section_text (σ : store) (self : loc) (d : DocumentObj)
    (name : string) :
  documents σ !! self = Some d ->
  document_closed σ d ->
  name ∈ Doc.names_of σ d ->
  exists pre l s post σ',
    doc_structure d = pre ++ CC_Section l :: post /\
    (name ∉ Doc.names_of σ (mkDocument pre)) /\
    sections σ !! l = Some s /\
    sec_name s = name /\
    Doc.__str__ option_text self σ
    = (Return (join (map (block_text option_text σ) pre)
               +:+ section_text option_text σ s
               +:+ join (map (block_text option_text σ) post)), σ) /\
    Doc.remove_section self name σ = (Return true, σ') /\
    Doc.__str__ option_text self σ'
    = (Return (join (map (block_text option_text σ) pre)
               +:+ join (map (block_text option_text σ) post)), σ').
Proof.
  intros Hd Hclosed Hin.
  destruct (names_of_split σ d name Hin) as (pre & l & post & Hsplit & Hpre & Hl).
  pose proof Hl as (s & Hs & Hname)%name_is_true.
  exists pre, l, s, post. eexists.
  split; [exact Hsplit|]. split; [by apply names_of_pre_absent|].
  split; [exact Hs|]. split; [exact Hname|]. split; [|split].
  - rewrite (doc_str_spec option_text _ _ _ Hd Hclosed). do 2 f_equal.
    unfold document_text. rewrite Hsplit, map_app, join_app. simpl.
    by rewrite Hs.
  - exact (remove_section_first σ self d name pre l post Hd Hsplit Hpre Hl).
  - erewrite doc_str_spec; [|apply lookup_insert_eq|].
    + do 2 f_equal. unfold document_text. cbn [doc_structure].
      by rewrite map_app, join_app.
    + unfold document_closed, Doc.iter_sections in *. cbn [doc_structure].
      rewrite Hsplit, section_refs_app in Hclosed. rewrite section_refs_app.
      apply Forall_app in Hclosed as [Hp Hq]. simpl in Hq.
      apply Forall_cons in Hq as [_ Hq]. apply Forall_app. by split.
Qed.
End DocumentEdits.

Lemma add_section_extends_text_witness :
  let d := mkDocument [CC_Section 0; CC_Comment ["# end" +:+ LF]; CC_Section 1] in
  Doc.__str__ ex_option_text 0 ex_store
  = (Return (document_text ex_option_text ex_store d), ex_store) /\
  exists σ',
    Doc.add_section 0 (PStr "new") ex_store = (Return tt, σ') /\
    Doc.__str__ ex_option_text 0 σ'
    = (Return (document_text ex_option_text ex_store d +:+ "[" +:+ "new" +:+ "]" +:+ LF),
       σ').
Proof.
  apply (add_section_extends_text ex_option_text ex_store 0 _ "new" eq_refl).
  - unfold document_closed. repeat constructor; eexists; (split; [reflexivity|]);
      unfold section_closed; repeat constructor; by eexists.
  - apply (bool_decide_unpack _). vm_compute. exact I.
Defined.

Lemma remove_section_text_witness :
  exists pre l s post σ',
    [CC_Section 0; CC_Comment ["# end" +:+ LF]; CC_Section 1]
    = pre ++ CC_Section l :: post /\
    ("b" ∉ Doc.names_of ex_store (mkDocument pre)) /\
    sections ex_store !! l = Some s /\
    sec_name s = "b" /\
    Doc.__str__ ex_option_text 0 ex_store
    = (Return (join (map (block_text ex_option_text ex_store) pre)
               +:+ section_text ex_option_text ex_store s
               +:+ join (map (block_text ex_option_text ex_store) post)), ex_store) /\
    Doc.remove_section 0 "b" ex_store = (Return true, σ') /\
    Doc.__str__ ex_option_text 0 σ'
    = (Return (join (map (block_text ex_option_text ex_store) pre)
               +:+ join (map (block_text ex_option_text ex_store) post)), σ').
Proof.
  apply (remove_section_text ex_option_text ex_store 0 _ "b" eq_refl).
  - unfold document_closed. repeat constructor; eexists; (split; [reflexivity|]);
      unfold section_closed; repeat constructor; by eexists.
  - apply (bool_decide_unpack _). vm_compute. exact I.
Defined.

(** ** The dict of a document *)

Lemma sec_to_dict_run (σ : store) (l : loc) (s : SectionObj) :
  sections σ !! l = Some s ->
  Sec.to_dict l σ = (Return (section_dict σ s), σ).
Proof. intros Hs. unfold Sec.to_dict. run. by rewrite Hs. Qed.

Lemma doc_to_dict_fold (σ : store) (refs : list loc)
    (acc : gmap string (gmap string pyval)) :
  Forall (fun l => is_Some (sections σ !! l)) refs ->
  foldM (fun (dict : gmap string (gmap string pyval)) (sect : loc) =>
           n <- Sec.name sect ;;
           inner <- Sec.to_dict sect ;;
           ret (<[n := inner]> dict)) refs acc σ
  = (Return (foldl (fun (dict : gmap string (gmap string pyval)) (s : SectionObj) =>
                      <[sec_name s := section_dict σ s]> dict)
                   acc (omap (fun l => sections σ !! l) refs)), σ).
Proof.
  intros Hall. revert acc. induction Hall as [|l ls [s Hs] _ IH]; intros acc; [done|].
  cbn [foldM]. erewrite bind_Return.
  2:{ rewrite (bind_Return _ _ _ _ _ (section_name_spec _ _ _ Hs)).
      rewrite (bind_Return _ _ _ _ _ (sec_to_dict_run _ _ _ Hs)). reflexivity. }
  rewrite IH. cbn. by rewrite Hs.
Qed.

(** X8: on a document whose Section blocks are objects of the store,
    [Document.to_dict] gives a dict whose keys are the section names; with
    unique names, the entry of a name is the dict of the section that
    bracket access returns for that name. *)
Theorem document_to_dict_spec (σ : store) (self : loc) (d : DocumentObj) :
  documents σ !! self = Some d ->
  Forall (fun l => is_Some (sections σ !! l)) (Doc.iter_sections d) ->
  exists dict,
    Doc.to_dict self σ = (Return dict, σ) /\
    (forall n, is_Some (dict !! n) <-> n ∈ Doc.names_of σ d) /\
    (names_unique σ d ->
     forall key l,
       Doc.__getitem__ self key σ = (Return l, σ) ->
       exists inner,
         Sec.to_dict l σ = (Return inner, σ) /\ dict !! key = Some inner).
Proof.
  intros Hd Hall. eexists. split.
  { unfold Doc.to_dict, bind at 1, read_document. rewrite Hd.
    apply (doc_to_dict_fold _ _ _ Hall). }
  assert (Doc.names_of σ d
          = sec_name <$> omap (fun l => sections σ !! l) (Doc.iter_sections d)) as Hnames
    by (unfold Doc.names_of; symmetry; apply list_fmap_omap).
  split.
  - intros n. by rewrite (dict_fold_dom sec_name (section_dict σ)), Hnames.
  - intros Huniq key l Hget.
    destruct (doc_getitem_found σ self l d key Hd Hget) as (Hl & s & Hs & <-).
    exists (section_dict σ s). split; [by apply sec_to_dict_run|].
    assert (s ∈ omap (fun l => sections σ !! l) (Doc.iter_sections d)) as Hin
      by (apply list_elem_of_omap; eauto).
    apply list_elem_of_split in Hin as (pre & post & Hsplit). rewrite Hsplit.
    apply (dict_fold_last sec_name (section_dict σ)).
    unfold names_unique in Huniq. rewrite Hnames, Hsplit, fmap_app in Huniq.
    apply NoDup_app in Huniq as (_ & _ & Hpost).
    by apply NoDup_cons in Hpost as [? _].
Qed.

Lemma document_to_dict_spec_witness :
  let d := mkDocument [CC_Section 0; CC_Comment ["# end" +:+ LF]; CC_Section 1] in
  exists dict,
    Doc.to_dict 0 ex_store = (Return dict, ex_store) /\
    (forall n, is_Some (dict !! n) <-> n ∈ Doc.names_of ex_store d) /\
    (names_unique ex_store d ->
     forall key l,
       Doc.__getitem__ 0 key ex_store = (Return l, ex_store) ->
       exists inner,
         Sec.to_dict l ex_store = (Return inner, ex_store) /\ dict !! key = Some inner).
Proof.
  apply (document_to_dict_spec ex_store 0 _ eq_refl).
  repeat constructor; by eexists.
Defined.

(** * Uniqueness of names and keys after every operation *)

(** ** Operations that only read *)

Lemma readonly_ret {A : Type} (a : A) : readonly (ret a).
Proof. by intros σ. Qed.

Lemma readonly_raise {A : Type} (e : exn) : readonly (@raise A e).
Proof. by intros σ. Qed.

Lemma readonly_bind {A B : Type} (m : M A) (k : A -> M B) :
  readonly m -> (forall a, readonly (k a)) -> readonly (bind m k).
Proof.
  intros Hm Hk σ. unfold bind. specialize (Hm σ).
  destruct (m σ) as [[a|e] σ1]; simpl in *; subst; [apply Hk|done].
Qed.

Lemma readonly_try_except {A : Type} (m : M A) (h : exn -> option (M A)) :
  readonly m -> (forall e k, h e = Some k -> readonly k) -> readonly (try_except m h).
Proof.
  intros Hm Hh σ. unfold try_except. specialize (Hm σ).
  destruct (m σ) as [[a|e] σ1]; simpl in *; subst; [done|].
  destruct (h e) as [k|] eqn:He; [by apply (Hh e k)|done].
Qed.

Lemma readonly_read_option (l : loc) : readonly (read_option l).
Proof. intros σ. unfold read_option. by destruct (options σ !! l). Qed.

Lemma readonly_read_section (l : loc) : readonly (read_section l).
Proof. intros σ. unfold read_section. by destruct (sections σ !! l). Qed.

Lemma readonly_read_document (l : loc) : readonly (read_document l).
Proof. intros σ. unfold read_document. by destruct (documents σ !! l). Qed.

Lemma readonly_get_store : readonly get_store.
Proof. by intros σ. Qed.

Lemma readonly_next {A : Type} (gen : list A) : readonly (next gen).
Proof. destruct gen; [apply readonly_raise|apply readonly_ret]. Qed.

Lemma readonly_foldM {A B : Type} (f : B -> A -> M B) (l : list A) (acc : B) :
  (forall b a, readonly (f b a)) -> readonly (foldM f l acc).
Proof.
  intros Hf. revert acc. induction l as [|x l IH]; intros acc; simpl.
  - apply readonly_ret.
  - apply readonly_bind; [apply Hf|exact IH].
Qed.

Ltac readonly_step :=
  first
    [ apply readonly_ret
    | apply readonly_raise
    | apply readonly_read_option
    | apply readonly_read_section
    | apply readonly_read_document
    | apply readonly_get_store
    | apply readonly_next
    | apply readonly_bind; [|intros ?]
    | apply readonly_foldM; intros ? ?
    | match goal with
      | |- readonly (match ?x with _ => _ end) => destruct x
      end ].

Ltac readonly_handler :=
  apply readonly_try_except;
  [|let e := fresh "e" in
    let k := fresh "k" in
    let H := fresh "H" in
    intros e k H; destruct e; inversion H; subst].

Lemma readonly_sec_getitem (self : loc) (key : string) : readonly (Sec.__getitem__ self key).
Proof.
  unfold Sec.__getitem__. do 2 (apply readonly_bind; [readonly_step|intros ?]).
  readonly_handler; repeat readonly_step.
Qed.

Lemma readonly_sec_contains (self : loc) (key : string) : readonly (Sec.__contains__ self key).
Proof. unfold Sec.__contains__. repeat readonly_step. Qed.

Lemma readonly_sec_options (self : loc) : readonly (Sec.options self).
Proof. unfold Sec.options. repeat readonly_step. Qed.

Lemma readonly_sec_name (self : loc) : readonly (Sec.name self).
Proof. unfold Sec.name. repeat readonly_step. Qed.

Lemma readonly_sec_get (self : loc) (key : string) (default : pyval) :
  readonly (Sec.get self key default).
Proof. unfold Sec.get. repeat readonly_step. Qed.

Lemma readonly_sec_items (self : loc) : readonly (Sec.items self).
Proof. unfold Sec.items, Sec.option_blocks. repeat readonly_step. Qed.

Lemma readonly_sec_to_dict (self : loc) : readonly (Sec.to_dict self).
Proof. unfold Sec.to_dict. repeat readonly_step. Qed.

Lemma readonly_sec_str (option_text : OptionObj -> string) (self : loc) :
  readonly (Sec.__str__ option_text self).
Proof. unfold Sec.__str__, Sec.str_entry. repeat readonly_step. Qed.

Lemma readonly_doc_getitem (self : loc) (key : string) : readonly (Doc.__getitem__ self key).
Proof. unfold Doc.__getitem__. repeat readonly_step. Qed.

Lemma readonly_doc_contains (self : loc) (key : string) : readonly (Doc.__contains__ self key).
Proof. unfold Doc.__contains__. repeat readonly_step. Qed.

Lemma readonly_doc_get_section (self : loc) (name : string) (default : pyval) :
  readonly (Doc.get_section self name default).
Proof. unfold Doc.get_section. repeat readonly_step. Qed.

(** The store after [m ;; ret x] is the store after [m]. *)
Lemma bind_ret_store {A B : Type} (m : M A) (k : A -> B) (σ σ' : store) (r : result B) :
  bind m (fun a => ret (k a)) σ = (r, σ') -> exists r0, m σ = (r0, σ').
Proof.
  unfold bind, ret. destruct (m σ) as [[a|e] σ1]; intros [= <- <-]; eauto.
Qed.

Lemma discard_store {A : Type} (m : M A) (σ σ' : store) (r : result unit) :
  discard m σ = (r, σ') -> exists r0, m σ = (r0, σ').
Proof. apply (bind_ret_store m (fun _ => tt)). Qed.

Lemma readonly_store {A : Type} (m : M A) (σ σ' : store) (r : result A) :
  readonly m -> m σ = (r, σ') -> σ' = σ.
Proof. intros Hm Hrun. specialize (Hm σ). by rewrite Hrun in Hm. Qed.

(** What a run of [bind] went through. *)
Lemma bind_run {A B : Type} (m : M A) (k : A -> M B) (σ σ' : store) (r : result B) :
  bind m k σ = (r, σ') ->
  (exists a σ1, m σ = (Return a, σ1) /\ k a σ1 = (r, σ')) \/
  (exists e, m σ = (Raise e, σ')).
Proof.
  unfold bind. destruct (m σ) as [[a|e] σ1]; [eauto|]. intros [= <- <-]. eauto.
Qed.

(** ** What a change of the store does to the invariant *)

Lemma NoDup_remove_middle {A : Type} (a b : list A) (y : A) :
  NoDup (a ++ y :: b) -> NoDup (a ++ b).
Proof.
  rewrite !NoDup_app, NoDup_cons. intros (Ha & Hab & _ & Hb).
  split; [done|]. split; [|done].
  intros x Hx Hin. apply (Hab x Hx). by right.
Qed.

Lemma NoDup_replace_middle {A : Type} (a b : list A) (x y : A) :
  NoDup (a ++ y :: b) -> x ∉ a ++ y :: b -> NoDup (a ++ x :: b).
Proof.
  rewrite !NoDup_app, !NoDup_cons. intros (Ha & Hab & _ & Hb) Hx.
  split; [done|]. split.
  - intros z Hz [->|Hin]%elem_of_cons.
    + apply Hx, elem_of_app. by left.
    + apply (Hab z Hz). by right.
  - split; [|done]. intros Hin. apply Hx, elem_of_app. right. by right.
Qed.

Lemma NoDup_omap_remove_middle {A B : Type} (f : A -> option B) (a b : list A) (x : A) :
  NoDup (omap f (a ++ x :: b)) -> NoDup (omap f (a ++ b)).
Proof.
  rewrite !omap_app. simpl. destruct (f x); [apply NoDup_remove_middle|done].
Qed.

(** Renaming one object keeps the names apart when the new name is not
    among them. *)
Lemma NoDup_omap_rename (f : loc -> option string) (v : loc) (n n' : string)
    (refs : list loc) :
  f v = Some n ->
  NoDup (omap f refs) ->
  n' ∉ omap f refs ->
  NoDup (omap (fun l => if decide (l = v) then Some n' else f l) refs).
Proof.
  intros Hv. induction refs as [|l refs IH]; [constructor|].
  csimpl. destruct (decide (l = v)) as [->|Hne].
  - rewrite Hv. intros [Hn Hnd]%NoDup_cons Hnot.
    assert (v ∉ refs) as Hfree.
    { intros Hin. apply Hn, list_elem_of_omap. by exists v. }
    assert (omap (fun l => if decide (l = v) then Some n' else f l) refs = omap f refs)
      as ->.
    { apply list_omap_ext, Forall_Forall2_diag, Forall_forall. intros x Hx.
      destruct (decide (x = v)) as [->|]; [done|done]. }
    apply NoDup_cons. split; [|done]. intros Hin. apply Hnot. by right.
  - destruct (f l) as [m|] eqn:Hl.
    + intros [Hm Hnd]%NoDup_cons Hnot.
      assert (n' ∉ omap f refs) as Hnot' by (intros Hin; apply Hnot; by right).
      apply NoDup_cons. split; [|by apply IH].
      intros (x & Hx & Hfx)%list_elem_of_omap.
      destruct (decide (x = v)) as [->|Hxv].
      * injection Hfx as ->. apply Hnot. left.
      * apply Hm, list_elem_of_omap. by exists x.
    + intros Hnd Hnot. by apply IH.
Qed.

Lemma unique_options (σ : store) (doc : loc) (opts : gmap loc OptionObj) :
  unique_inv σ doc ->
  (forall l s, sections σ !! l = Some s ->
               Sec.keys_of (mkStore opts (sections σ) (documents σ)) s = Sec.keys_of σ s) ->
  unique_inv (mkStore opts (sections σ) (documents σ)) doc.
Proof.
  intros [Hnames Hkeys] Hsame. split.
  - intros d Hd. exact (Hnames d Hd).
  - intros l s Hs. unfold keys_unique. rewrite (Hsame l s Hs). exact (Hkeys l s Hs).
Qed.

Lemma unique_set_value (σ : store) (doc l : loc) (o : OptionObj) (value : pyval) :
  unique_inv σ doc ->
  options σ !! l = Some o ->
  unique_inv
    (mkStore (<[l := mkOption (opt_container o) (opt_lines o) true (opt_key o) value]>
                (options σ))
       (sections σ) (documents σ)) doc.
Proof.
  intros Hinv Ho. apply unique_options; [done|]. intros l0 s0 _.
  unfold Sec.keys_of. apply list_omap_ext, Forall_Forall2_diag, Forall_forall.
  intros x _. simpl. destruct (decide (x = l)) as [->|Hne].
  - by rewrite lookup_insert_eq, Ho.
  - by rewrite lookup_insert_ne.
Qed.

Lemma unique_new_option (σ : store) (doc : loc) (o : OptionObj) :
  unique_inv σ doc ->
  unique_inv (mkStore (<[fresh_option σ := o]> (options σ)) (sections σ) (documents σ)) doc.
Proof.
  intros Hinv. apply unique_options; [done|]. intros l0 s0 Hs0.
  apply keys_of_agree. intros x Hx. simpl. apply lookup_insert_ne.
  intros <-. by apply (fresh_option_not_held σ l0 s0).
Qed.

Lemma names_of_same_names (σ σ' : store) (d : DocumentObj) :
  (forall l, l ∈ Doc.iter_sections d ->
             sec_name <$> sections σ' !! l = sec_name <$> sections σ !! l) ->
  Doc.names_of σ' d = Doc.names_of σ d.
Proof.
  intros H. unfold Doc.names_of.
  apply list_omap_ext, Forall_Forall2_diag, Forall_forall. intros l Hl. by apply H.
Qed.

(** A Section object is changed, its name apart. *)
Lemma unique_section (σ : store) (doc self : loc) (s s' : SectionObj) :
  unique_inv σ doc ->
  sections σ !! self = Some s ->
  sec_name s' = sec_name s ->
  NoDup (Sec.keys_of σ s') ->
  unique_inv (mkStore (options σ) (<[self := s']> (sections σ)) (documents σ)) doc.
Proof.
  intros [Hnames Hkeys] Hs Hname Hnew. split.
  - intros d Hd. unfold names_unique. rewrite (names_of_same_names σ).
    + exact (Hnames d Hd).
    + intros l _. simpl. destruct (decide (l = self)) as [->|Hne].
      * rewrite lookup_insert_eq, Hs. simpl. by rewrite Hname.
      * by rewrite lookup_insert_ne.
  - intros l s0. simpl. destruct (decide (l = self)) as [->|Hne].
    + rewrite lookup_insert_eq. intros [= <-]. exact Hnew.
    + rewrite lookup_insert_ne by done. apply Hkeys.
Qed.

(** A Section object is renamed. *)
Lemma unique_rename (σ : store) (doc v : loc) (s : SectionObj) (value : string) :
  unique_inv σ doc ->
  sections σ !! v = Some s ->
  (forall d, documents σ !! doc = Some d -> v ∈ Doc.iter_sections d ->
             value = sec_name s \/ value ∉ Doc.names_of σ d) ->
  unique_inv
    (mkStore (options σ)
       (<[v := mkSection (sec_container s) value (sec_structure s) true (sec_lines s)]>
          (sections σ))
       (documents σ)) doc.
Proof.
  intros [Hnames Hkeys] Hs Hcond. split.
  - intros d Hd. unfold names_unique.
    destruct (decide (v ∈ Doc.iter_sections d)) as [Hheld|Hfree].
    + destruct (Hcond d Hd Hheld) as [->|Hnot].
      * rewrite (names_of_same_names σ); [exact (Hnames d Hd)|].
        intros l _. simpl. destruct (decide (l = v)) as [->|Hne].
        -- by rewrite lookup_insert_eq, Hs.
        -- by rewrite lookup_insert_ne.
      * assert (Doc.names_of
                  (mkStore (options σ)
                     (<[v := mkSection (sec_container s) value (sec_structure s) true
                               (sec_lines s)]> (sections σ))
                     (documents σ)) d
                = omap (fun l => if decide (l = v) then Some value
                                 else sec_name <$> sections σ !! l)
                       (Doc.iter_sections d)) as ->.
        { unfold Doc.names_of.
          apply list_omap_ext, Forall_Forall2_diag, Forall_forall. intros l _. simpl.
          destruct (decide (l = v)) as [->|Hne].
          - by rewrite lookup_insert_eq.
          - by rewrite lookup_insert_ne. }
        apply (NoDup_omap_rename _ v (sec_name s)); [by rewrite Hs|exact (Hnames d Hd)|done].
    + rewrite (names_of_agree σ); [exact (Hnames d Hd)|].
      intros l Hl. simpl. apply lookup_insert_ne. by intros <-.
  - intros l s0. simpl. destruct (decide (l = v)) as [->|Hne].
    + rewrite lookup_insert_eq. intros [= <-]. exact (Hkeys v s Hs).
    + rewrite lookup_insert_ne by done. apply Hkeys.
Qed.

(** A Section object with no blocks is created. *)
Lemma unique_new_section (σ : store) (doc : loc) (s : SectionObj) :
  unique_inv σ doc ->
  sec_structure s = [] ->
  unique_inv (mkStore (options σ) (<[fresh_section σ := s]> (sections σ)) (documents σ)) doc.
Proof.
  intros [Hnames Hkeys] Hempty. split.
  - intros d Hd. unfold names_unique. rewrite (names_of_agree σ); [exact (Hnames d Hd)|].
    intros l Hl. simpl. apply lookup_insert_ne. intros <-.
    by apply (fresh_section_not_held σ doc d).
  - intros l s0. simpl. destruct (decide (l = fresh_section σ)) as [->|Hne].
    + rewrite lookup_insert_eq. intros [= <-].
      unfold keys_unique, Sec.keys_of, Sec.iter_options, iter_blocks.
      rewrite Hempty. constructor.
    + rewrite lookup_insert_ne by done. apply Hkeys.
Qed.

(** The blocks of the document are changed. *)
Lemma unique_document (σ : store) (doc : loc) (structure : list ConfigContent) :
  unique_inv σ doc ->
  NoDup (Doc.names_of σ (mkDocument structure)) ->
  unique_inv
    (mkStore (options σ) (sections σ)
       (<[doc := mkDocument structure]> (documents σ))) doc.
Proof.
  intros [Hnames Hkeys] Hnew. split.
  - intros d. simpl. rewrite lookup_insert_eq. intros [= <-]. exact Hnew.
  - exact Hkeys.
Qed.

(** ** The operations of a Section *)

Lemma keys_of_structure (σ : store) (s : SectionObj) (structure : list SectionContent) :
  Sec.keys_of σ (mkSection (sec_container s) (sec_name s) structure
                   (sec_updated s) (sec_lines s))
  = omap (fun l => Option_key <$> options σ !! l) (option_refs structure).
Proof. reflexivity. Qed.

Lemma add_option_keeps_unique (σ σ' : store) (doc self entry : loc) (r : result loc) :
  unique_inv σ doc ->
  (forall s o, sections σ !! self = Some s -> options σ !! entry = Some o ->
               Option_key o ∉ Sec.keys_of σ s) ->
  Sec.add_option self entry σ = (r, σ') ->
  unique_inv σ' doc.
Proof.
  intros Hinv Hcond. destruct (sections σ !! self) as [s|] eqn:Hs.
  - unfold Sec.add_option. rewrite (bind_Return _ _ _ _ _ (sec_append_spec _ _ _ _ Hs)).
    intros [= <- <-]. apply (unique_section σ doc self s); [done..|].
    rewrite keys_of_structure, option_refs_app, omap_app. simpl.
    destruct (options σ !! entry) as [o|] eqn:Ho; simpl.
    + apply NoDup_snoc_fresh; [exact (proj2 Hinv self s Hs)|by apply Hcond].
    + rewrite app_nil_r. exact (proj2 Hinv self s Hs).
  - unfold Sec.add_option, Sec.append, bind, read_section. rewrite Hs.
    by intros [= <- <-].
Qed.

Lemma add_line_keeps_unique (σ σ' : store) (doc self : loc) (line : string)
    (r : result loc) :
  unique_inv σ doc ->
  Sec.add_comment self line σ = (r, σ') \/ Sec.add_space self line σ = (r, σ') ->
  unique_inv σ' doc.
Proof.
  intros Hinv Hrun. destruct (sections σ !! self) as [s|] eqn:Hs.
  - assert (exists structure,
              σ' = mkStore (options σ)
                     (<[self := mkSection (sec_container s) (sec_name s) structure
                                  (sec_updated s) (sec_lines s)]> (sections σ))
                     (documents σ) /\
              option_refs structure = option_refs (sec_structure s))
      as (structure & -> & Hrefs).
    { destruct Hrun as [Hrun|Hrun].
      - destruct (sec_add_comment_spec (fun _ => EmptyString) σ self s line Hs)
          as (structure & Heq & Hrefs & _).
        exists structure. rewrite Heq in Hrun. by injection Hrun as <- <-.
      - destruct (sec_add_space_spec (fun _ => EmptyString) σ self s line Hs)
          as (structure & Heq & Hrefs & _).
        exists structure. rewrite Heq in Hrun. by injection Hrun as <- <-. }
    apply (unique_section σ doc self s); [done..|].
    rewrite keys_of_structure, Hrefs. exact (proj2 Hinv self s Hs).
  - unfold Sec.add_comment, Sec.add_space, bind, read_section in Hrun. rewrite Hs in Hrun.
    by destruct Hrun as [[= <- <-]|[= <- <-]].
Qed.

Lemma delitem_keeps_unique (σ σ' : store) (doc self : loc) (key : string)
    (r : result unit) :
  unique_inv σ doc ->
  Sec.__delitem__ self key σ = (r, σ') ->
  unique_inv σ' doc.
Proof.
  intros Hinv. destruct (sections σ !! self) as [s|] eqn:Hs.
  - destruct (decide (key ∈ Sec.keys_of σ s)) as [Hin|Hnot].
    + destruct (keys_of_split σ s key Hin) as (pre & l & o & post & Hsplit & Hpre & Ho & Hk).
      assert (key_is σ key l = true) as Hl by (apply key_is_true; eauto).
      rewrite (proj2 (sec_delitem_spec σ self s key Hs) pre l post Hsplit Hpre Hl).
      intros [= <- <-]. apply (unique_section σ doc self s); [done..|].
      rewrite keys_of_structure. pose proof (proj2 Hinv self s Hs) as Huniq.
      unfold keys_unique, Sec.keys_of, Sec.iter_options, iter_blocks in Huniq.
      rewrite Hsplit, option_refs_app in Huniq. rewrite option_refs_app.
      exact (NoDup_omap_remove_middle _ _ _ _ Huniq).
    + apply keys_absent_Forall in Hnot.
      rewrite (proj1 (sec_delitem_spec σ self s key Hs) Hnot). by intros [= <- <-].
  - unfold Sec.__delitem__, try_except, Sec._get_option_idx, bind, read_section.
    rewrite Hs. by intros [= <- <-].
Qed.

Lemma replace_condition_absent (σ : store) (self : loc) (s : SectionObj) (key : string)
    (value : pyval) :
  sections σ !! self = Some s ->
  (optionxform key ∉ Sec.keys_of σ s) ->
  replace_condition σ self key value.
Proof.
  intros Hs Hnot v old o _ Hget.
  by rewrite (proj2 (sec_getitem_normalized σ self s key Hs) Hnot) in Hget.
Qed.

Lemma option_value_or_not (value : pyval) :
  (exists v, value = POption v) \/ (forall v, value <> POption v).
Proof. destruct value; eauto. Qed.

Lemma setitem_keeps_unique (σ σ' : store) (doc self : loc) (key : string) (value : pyval)
    (r : result unit) :
  unique_inv σ doc ->
  new_key_condition σ self key value ->
  replace_condition σ self key value ->
  Sec.__setitem__ self key value σ = (r, σ') ->
  unique_inv σ' doc.
Proof.
  intros Hinv Hnew Hrep. destruct (sections σ !! self) as [s|] eqn:Hs.
  2:{ unfold Sec.__setitem__, Sec.__contains__, bind, read_section. rewrite Hs.
      by intros [= <- <-]. }
  pose proof (proj2 Hinv self s Hs) as Huniq.
  destruct (decide (optionxform key ∈ Sec.keys_of σ s)) as [Hin|Hnot].
  - destruct (keys_of_split σ s _ Hin) as (pre & l & o & post & Hsplit & Hpre & Ho & Hk).
    pose proof (sec_getitem_first σ self s key pre l o post Hs Hsplit Hpre Ho Hk) as Hget.
    destruct (option_value_or_not value) as [[v ->]|Hother].
    + destruct (options σ !! v) as [vo|] eqn:Hv.
      * destruct (decide (Option_key vo = key)) as [Hvk|Hvk].
        -- destruct (Hrep v l o eq_refl Hget Ho) as [Hc|Hc].
           ++ rewrite (sec_setitem_replace σ self s key pre l o post v vo
                         Hs Hsplit Hpre Ho Hk Hc Hv Hvk).
              intros [= <- <-]. apply (unique_section σ doc self s); [done..|].
              rewrite keys_of_structure.
              unfold keys_unique, Sec.keys_of, Sec.iter_options, iter_blocks in Huniq.
              rewrite Hsplit in Huniq. rewrite option_refs_app, omap_app in *.
              simpl in *. rewrite Ho in Huniq. rewrite Hv. simpl in *.
              assert (Option_key vo = Option_key o) as ->; [|done].
              rewrite Hk, <-Hvk. unfold Option_key.
              by rewrite optionxform_idempotent.
           ++ unfold Sec.__setitem__.
              rewrite (bind_Return _ _ _ _ _ (sec_contains_spec _ _ _ _ Hs)).
              rewrite bool_decide_eq_true_2 by done.
              unfold bind at 1, read_option. rewrite Hv, Hvk, String.eqb_refl. simpl.
              rewrite (bind_Return _ _ _ _ _ Hget).
              unfold bind at 1, container_idx, bind at 1, read_option. rewrite Ho, Hc.
              by intros [= <- <-].
        -- assert (optionxform key ∈ Sec.keys_of σ s) as Hin' by done.
           rewrite (sec_setitem_mismatch σ self s key v vo Hs Hin' Hv Hvk).
           by intros [= <- <-].
      * unfold Sec.__setitem__.
        rewrite (bind_Return _ _ _ _ _ (sec_contains_spec _ _ _ _ Hs)).
        rewrite bool_decide_eq_true_2 by done.
        unfold bind at 1, read_option. rewrite Hv. by intros [= <- <-].
    + rewrite (sec_setitem_in_place σ self s key l o value Hs Hin Hget Ho Hother).
      intros [= <- <-]. by apply unique_set_value.
  - rewrite (sec_setitem_append σ self s key value Hs Hnot).
    destruct (option_value_or_not value) as [[v ->]|Hother].
    + intros [= <- <-]. apply (unique_section σ doc self s); [done..|].
      rewrite keys_of_structure, option_refs_app, omap_app. simpl.
      destruct (options σ !! v) as [vo|] eqn:Hv; simpl.
      * apply NoDup_snoc_fresh; [exact Huniq|].
        by rewrite (Hnew s v vo Hs eq_refl Hv Hnot).
      * rewrite app_nil_r. exact Huniq.
    + assert ((Return tt,
               mkStore (<[fresh_option σ := mkOption (Some self) [] true key value]>
                          (options σ))
                 (<[self := mkSection (sec_container s) (sec_name s)
                              (sec_structure s ++ [SC_Option (fresh_option σ)])
                              (sec_updated s) (sec_lines s)]> (sections σ))
                 (documents σ)) = (r, σ') -> unique_inv σ' doc) as Hfresh.
      { intros [= <- <-].
        pose proof (unique_new_option σ doc (mkOption (Some self) [] true key value) Hinv)
          as Hinv1.
        apply (unique_section _ doc self s _ Hinv1 Hs); [done|].
        erewrite (keys_of_snoc σ _ s) by
          (try done; try (simpl; apply lookup_insert_eq);
           intros l' Hl'; simpl; apply lookup_insert_ne; intros <-;
           by apply (fresh_option_not_held σ self s)).
        by apply NoDup_snoc_fresh. }
      destruct value; try exact Hfresh. by destruct (Hother l).
Qed.

(** The step [Section.set] and [Document.set] share. *)
Lemma set_step_keeps_unique (σ σ' : store) (doc l : loc) (s : SectionObj) (key : string)
    (value : pyval) (present : bool) (r : result unit) :
  unique_inv σ doc ->
  sections σ !! l = Some s ->
  optionxform key = key ->
  present = bool_decide (key ∈ Sec.keys_of σ s) ->
  new_key_condition σ l key value ->
  (if present
   then o <- Sec.__getitem__ l key ;; Option_set_value o value
   else Sec.__setitem__ l key value) σ = (r, σ') ->
  unique_inv σ' doc.
Proof.
  intros Hinv Hs Hkey -> Hnew. case_bool_decide as Hin.
  - rewrite <-Hkey in Hin.
    destruct (proj1 (sec_getitem_normalized σ l s key Hs) Hin) as (lo & o & Hget & _ & Ho & _).
    rewrite (bind_Return _ _ _ _ _ Hget), (set_value_spec _ _ _ _ Ho).
    intros [= <- <-]. by apply unique_set_value.
  - rewrite <-Hkey in Hin. intros Hrun.
    apply (setitem_keeps_unique σ σ' doc l key value r Hinv Hnew); [|done].
    by apply (replace_condition_absent σ l s).
Qed.

Lemma sec_set_keeps_unique (σ σ' : store) (doc self : loc) (option : string)
    (value : pyval) (r : result loc) :
  unique_inv σ doc ->
  new_key_condition σ self (optionxform option) value ->
  Sec.set self option value σ = (r, σ') ->
  unique_inv σ' doc.
Proof.
  intros Hinv Hnew. destruct (sections σ !! self) as [s|] eqn:Hs.
  - unfold Sec.set. rewrite (bind_Return _ _ _ _ _ (sec_options_spec _ _ _ Hs)).
    intros [r0 Hrun]%bind_ret_store.
    apply (set_step_keeps_unique σ σ' doc self s (optionxform option) value
             (bool_decide (optionxform option ∈ Sec.keys_of σ s)) r0 Hinv Hs);
      [apply optionxform_idempotent|reflexivity|done|done].
  - unfold Sec.set, Sec.options, bind, read_section. rewrite Hs. by intros [= <- <-].
Qed.

Lemma set_name_keeps_unique (σ σ' : store) (doc self : loc) (value : string)
    (r : result unit) :
  unique_inv σ doc ->
  (forall d s, documents σ !! doc = Some d -> sections σ !! self = Some s ->
               self ∈ Doc.iter_sections d ->
               value = sec_name s \/ value ∉ Doc.names_of σ d) ->
  Sec.set_name self value σ = (r, σ') ->
  unique_inv σ' doc.
Proof.
  intros Hinv Hcond. destruct (sections σ !! self) as [s|] eqn:Hs.
  - rewrite (set_name_spec _ _ _ _ Hs). intros [= <- <-].
    apply unique_rename; [done..|]. intros d Hd Hheld. by apply (Hcond d s).
  - unfold Sec.set_name, bind, read_section. rewrite Hs. by intros [= <- <-].
Qed.

(** ** The operations of the document *)

Lemma add_section_keeps_unique (σ σ' : store) (doc : loc) (section : pyval)
    (r : result unit) :
  unique_inv σ doc ->
  Doc.add_section doc section σ = (r, σ') ->
  unique_inv σ' doc.
Proof.
  intros Hinv. destruct (documents σ !! doc) as [d|] eqn:Hd.
  - destruct section as [| | |name| |l|l]; try (by intros [= <- <-]).
    + rewrite (add_section_string _ _ _ _ Hd).
      pose proof (unique_new_section σ doc (Sec.__init__ name doc) Hinv eq_refl) as Hinv1.
      case_bool_decide as Hin; intros [= <- <-]; [done|].
      apply (unique_document _ doc _ Hinv1).
      erewrite names_of_snoc by (simpl; apply lookup_insert_eq).
      erewrite (names_of_agree σ _ (mkDocument (doc_structure d))).
      * apply NoDup_snoc_fresh; [exact (proj1 Hinv d Hd)|done].
      * intros x Hx. simpl. apply lookup_insert_ne. intros <-.
        by apply (fresh_section_not_held σ doc d).
    + destruct (sections σ !! l) as [s|] eqn:Hs.
      * rewrite (add_section_object _ _ _ _ _ Hd Hs).
        case_bool_decide as Hin; intros [= <- <-]; [done|].
        apply (unique_document _ doc _ Hinv).
        erewrite names_of_snoc by exact Hs.
        apply NoDup_snoc_fresh; [exact (proj1 Hinv d Hd)|done].
      * unfold Doc.add_section, Sec.name, bind, ret, read_section. rewrite Hs.
        by intros [= <- <-].
  - destruct section as [| | |name| |l|l]; try (by intros [= <- <-]).
    + unfold Doc.add_section, bind at 1, new_section.
      unfold bind at 1, Sec.name, bind at 1, read_section. simpl.
      rewrite lookup_insert_eq. simpl.
      unfold bind, Doc.has_section, Doc.__contains__, bind, read_document. simpl.
      rewrite Hd. intros [= <- <-].
      exact (unique_new_section σ doc (Sec.__init__ name doc) Hinv eq_refl).
    + unfold Doc.add_section, bind at 1, ret. unfold bind at 1, Sec.name, bind at 1.
      unfold read_section. destruct (sections σ !! l); [|by intros [= <- <-]].
      unfold ret, bind, Doc.has_section, Doc.__contains__, bind, read_document.
      rewrite Hd. by intros [= <- <-].
Qed.

Lemma doc_setitem_existing (σ : store) (self v : loc) (d : DocumentObj) (key : string)
    (pre : list ConfigContent) (l : loc) (post : list ConfigContent) :
  documents σ !! self = Some d ->
  key ∈ Doc.names_of σ d ->
  doc_structure d = pre ++ CC_Section l :: post ->
  Forall (fun e => Doc.is_section_with_name σ key e = false) pre ->
  Doc.name_is σ key l = true ->
  Doc.__setitem__ self key (PSection v) σ
  = (Return tt,
     mkStore (options σ) (sections σ)
       (<[self := mkDocument (pre ++ CC_Section v :: post)]> (documents σ))).
Proof.
  intros Hd Hin Hsplit Hpre Hl. unfold Doc.__setitem__, bind at 1.
  rewrite (doc_contains_spec _ _ _ _ Hd), bool_decide_eq_true_2 by done.
  unfold bind at 1.
  rewrite (get_section_idx_first _ _ _ _ _ _ _ Hd Hsplit Hpre Hl).
  unfold bind. rewrite (doc_del_at_spec _ _ _ _ Hd).
  2:{ rewrite Hsplit, length_app. simpl. lia. }
  erewrite doc_insert_spec by (simpl; apply lookup_insert_eq).
  simpl. rewrite Hsplit, delete_middle, list_insert_at_middle.
  by rewrite insert_insert_eq.
Qed.

Lemma names_of_middle (σ : store) (pre post : list ConfigContent) (l : loc) :
  Doc.names_of σ (mkDocument (pre ++ CC_Section l :: post))
  = Doc.names_of σ (mkDocument pre)
    ++ from_option (fun s => [sec_name s]) [] (sections σ !! l)
    ++ Doc.names_of σ (mkDocument post).
Proof.
  unfold Doc.names_of, Doc.iter_sections. cbn [doc_structure].
  rewrite section_refs_app, omap_app. f_equal. csimpl.
  by destruct (sections σ !! l).
Qed.

Lemma doc_setitem_keeps_unique (σ σ' : store) (doc : loc) (key : string) (value : pyval)
    (r : result unit) :
  unique_inv σ doc ->
  (forall v d s, value = PSection v -> documents σ !! doc = Some d ->
                 sections σ !! v = Some s -> key ∈ Doc.names_of σ d ->
                 sec_name s = key \/ sec_name s ∉ Doc.names_of σ d) ->
  Doc.__setitem__ doc key value σ = (r, σ') ->
  unique_inv σ' doc.
Proof.
  intros Hinv Hcond.
  destruct value as [| | | | | |v]; try (by intros [= <- <-]).
  destruct (documents σ !! doc) as [d|] eqn:Hd.
  2:{ unfold Doc.__setitem__, Doc.__contains__, bind, read_document. rewrite Hd.
      by intros [= <- <-]. }
  pose proof (proj1 Hinv d Hd) as Huniq.
  destruct (decide (key ∈ Doc.names_of σ d)) as [Hin|Hnot].
  - destruct (names_of_split σ d key Hin) as (pre & l & post & Hsplit & Hpre & Hl).
    rewrite (doc_setitem_existing σ doc v d key pre l post Hd Hin Hsplit Hpre Hl).
    intros [= <- <-]. apply (unique_document _ doc _ Hinv).
    pose proof Hl as (sl & Hsl & Hname)%name_is_true.
    assert (Doc.names_of σ d
            = Doc.names_of σ (mkDocument pre) ++ key :: Doc.names_of σ (mkDocument post))
      as Hnames.
    { destruct d as [structure]. simpl in Hsplit. subst structure.
      rewrite names_of_middle, Hsl. simpl. by rewrite Hname. }
    unfold names_unique in Huniq. rewrite Hnames in Huniq.
    rewrite names_of_middle.
    destruct (sections σ !! v) as [s|] eqn:Hs; simpl.
    + destruct (Hcond v d s eq_refl eq_refl Hs Hin) as [->|Hfree].
      * exact Huniq.
      * apply (NoDup_replace_middle _ _ _ key); [exact Huniq|]. by rewrite <-Hnames.
    + exact (NoDup_remove_middle _ _ _ Huniq).
  - unfold Doc.__setitem__, bind at 1.
    rewrite (doc_contains_spec _ _ _ _ Hd), bool_decide_eq_false_2 by done.
    destruct (sections σ !! v) as [s|] eqn:Hs.
    + rewrite (bind_Return _ _ _ _ _ (set_name_spec _ _ _ _ Hs)).
      apply add_section_keeps_unique.
      apply unique_rename; [done..|]. intros d' Hd' _. right. congruence.
    + unfold bind, Sec.set_name, bind, read_section. rewrite Hs. by intros [= <- <-].
Qed.

Lemma remove_section_keeps_unique (σ σ' : store) (doc : loc) (name : string)
    (r : result bool) :
  unique_inv σ doc ->
  Doc.remove_section doc name σ = (r, σ') ->
  unique_inv σ' doc.
Proof.
  intros Hinv. destruct (documents σ !! doc) as [d|] eqn:Hd.
  - destruct (decide (name ∈ Doc.names_of σ d)) as [Hin|Hnot].
    + destruct (names_of_split σ d name Hin) as (pre & l & post & Hsplit & Hpre & Hl).
      rewrite (remove_section_first σ doc d name pre l post Hd Hsplit Hpre Hl).
      intros [= <- <-]. apply (unique_document _ doc _ Hinv).
      pose proof (proj1 Hinv d Hd) as Huniq.
      unfold names_unique, Doc.names_of, Doc.iter_sections in *. cbn [doc_structure].
      rewrite Hsplit, section_refs_app in Huniq. rewrite section_refs_app.
      exact (NoDup_omap_remove_middle _ _ _ _ Huniq).
    + rewrite (remove_section_absent σ doc d name Hd Hnot). by intros [= <- <-].
  - unfold Doc.remove_section, try_except, Doc._get_section_idx, bind, read_document.
    rewrite Hd. by intros [= <- <-].
Qed.

Lemma doc_delitem_keeps_unique (σ σ' : store) (doc : loc) (key : string)
    (r : result unit) :
  unique_inv σ doc ->
  Doc.__delitem__ doc key σ = (r, σ') ->
  unique_inv σ' doc.
Proof.
  intros Hinv. unfold Doc.__delitem__. intros Hrun.
  apply bind_run in Hrun as [(removed & σ1 & Hrem & Hrest)|[e Hrem]].
  - destruct removed; injection Hrest as <- <-;
      by apply (remove_section_keeps_unique σ σ1 doc key _ Hinv Hrem).
  - by apply (remove_section_keeps_unique σ σ' doc key _ Hinv Hrem).
Qed.

(** The section [Document.set] and [Document.remove_option] work on. *)
Lemma try_getitem_run (σ σ' : store) (doc : loc) (section : string) (r : result loc) :
  try_except (Doc.__getitem__ doc section)
    (fun ex => match ex with
               | KeyError _ => Some (raise (NoSectionError section))
               | _ => None
               end) σ = (r, σ') ->
  σ' = σ /\ forall l, r = Return l -> Doc.__getitem__ doc section σ = (Return l, σ).
Proof.
  unfold try_except. pose proof (readonly_doc_getitem doc section σ) as Hro.
  destruct (Doc.__getitem__ doc section σ) as [[l|e] σ1]; simpl in Hro; subst σ1.
  - intros [= <- <-]. split; [done|]. by intros l' [= <-].
  - destruct e; intros [= <- <-]; by split.
Qed.

Lemma doc_set_keeps_unique (σ σ' : store) (doc : loc) (section option : string)
    (value : pyval) (r : result loc) :
  unique_inv σ doc ->
  (forall l, Doc.__getitem__ doc section σ = (Return l, σ) ->
             new_key_condition σ l (optionxform option) value) ->
  Doc.set doc section option value σ = (r, σ') ->
  unique_inv σ' doc.
Proof.
  intros Hinv Hcond. unfold Doc.set. intros Hrun.
  apply bind_run in Hrun as [(l & σ1 & Hget & Hrest)|[e Hget]].
  2:{ apply try_getitem_run in Hget as [-> _]. done. }
  apply try_getitem_run in Hget as [-> Hget]. specialize (Hget l eq_refl).
  destruct (sections σ !! l) as [s|] eqn:Hs.
  - rewrite (bind_Return _ _ _ _ _ (sec_contains_spec _ _ _ _ Hs)) in Hrest.
    apply bind_ret_store in Hrest as [r0 Hrest].
    apply (set_step_keeps_unique σ σ' doc l s (optionxform option) value
             (bool_decide (optionxform option ∈ Sec.keys_of σ s)) r0 Hinv Hs);
      [apply optionxform_idempotent|reflexivity|by apply Hcond|done].
  - unfold bind at 1, Sec.__contains__, bind at 1, read_section in Hrest.
    rewrite Hs in Hrest. by injection Hrest as <- <-.
Qed.

Lemma remove_option_keeps_unique (σ σ' : store) (doc : loc) (section option : string)
    (r : result bool) :
  unique_inv σ doc ->
  Doc.remove_option doc section option σ = (r, σ') ->
  unique_inv σ' doc.
Proof.
  intros Hinv. unfold Doc.remove_option. intros Hrun.
  apply bind_run in Hrun as [(l & σ1 & Hget & Hrest)|[e Hget]].
  2:{ apply try_getitem_run in Hget as [-> _]. done. }
  apply try_getitem_run in Hget as [-> _].
  apply bind_run in Hrest as [(keys & σ2 & Hkeys & Hrest)|[e Hkeys]].
  2:{ by rewrite (readonly_store _ _ _ _ (readonly_sec_options l) Hkeys). }
  rewrite (readonly_store _ _ _ _ (readonly_sec_options l) Hkeys) in Hrest.
  apply bind_ret_store in Hrest as [r0 Hrest].
  destruct (bool_decide _).
  - by apply (delitem_keeps_unique σ σ' doc l (optionxform option) r0).
  - by injection Hrest as <- <-.
Qed.

(** ** Every operation *)

Ltac readonly_all :=
  unfold Doc.sections, Doc.__iter__, Doc.__str__, Doc.str_block, Doc.__getitem__,
    Doc.options, Doc.get, Doc.call_get, Doc.get_section, Doc.items, Doc.has_option,
    Doc.call_contains, Doc.to_dict, Doc.has_section, Doc.__contains__, Sec.__str__,
    Sec.str_entry, Sec.__repr__, Sec.has_option, Sec.__contains__, Sec.__iter__,
    Sec.items, Sec.option_blocks, Sec.options, Sec.to_dict, Sec.name, Sec.get;
  repeat first [apply readonly_sec_getitem | readonly_step].

Section EveryOperation.
Variable option_text : OptionObj -> string.

End EveryOperation.


